(** * Feedback triage pipeline: a shallow embedding and its properties

  The development follows [multi_agent_system.py] (the rule based tools,
  the manual agents and the hybrid batch loop) and [config_manager.py]
  (the configuration dataclasses, their JSON export and import and the
  validation).

  Conventions of the embedding:
  - Python [str] is [string]; the texts are ASCII, so [str.lower] maps
    the letters [A]..[Z] to [a]..[z] and leaves every other character.
  - Python [int] is [Z]; Python [float] is a rational [Q] (thresholds,
    confidences and weights are compared, multiplied and divided exactly).
  - a [dict] whose order matters is an association list.
  - an exception is a value of [exn] returned in [Raise]. *)

From Stdlib Require Import ZArith QArith Qabs List Bool Ascii String Lia Lqa.
From Stdlib Require Import Numbers.DecimalString.
Import ListNotations.

Open Scope string_scope.
Open Scope Z_scope.

(** ** Python string operations *)

Module PyStr.

Definition is_upper (c : ascii) : bool :=
  let n := nat_of_ascii c in (65 <=? n)%nat && (n <=? 90)%nat.

Definition lower_char (c : ascii) : ascii :=
  if is_upper c then ascii_of_nat (nat_of_ascii c + 32) else c.

(** [s.lower()] *)
Fixpoint lower (s : string) : string :=
  match s with
  | EmptyString => EmptyString
  | String c t => String (lower_char c) (lower t)
  end.

(** [needle in hay] on strings: [needle] occurs as a substring. *)
Fixpoint contains (needle hay : string) : bool :=
  String.prefix needle hay ||
  match hay with
  | EmptyString => false
  | String _ t => contains needle t
  end.

(** [any(k in text for k in keywords)] *)
Definition any_in (keywords : list string) (text : string) : bool :=
  existsb (fun k => contains k text) keywords.

(** [sum(1 for k in keywords if k in text)] *)
Fixpoint count_in (keywords : list string) (text : string) : Z :=
  match keywords with
  | [] => 0
  | k :: ks => (if contains k text then 1 else 0) + count_in ks text
  end.

(** [s[:n]] *)
Fixpoint take (n : nat) (s : string) : string :=
  match n, s with
  | O, _ => EmptyString
  | S _, EmptyString => EmptyString
  | S m, String c t => String c (take m t)
  end.

(** truthiness of a string: [bool(s)] *)
Definition truthy (s : string) : bool :=
  match s with EmptyString => false | _ => true end.

End PyStr.

(** ** Python dictionaries with insertion order *)

Module PyDict.

Definition dict (V : Type) := list (string * V).

Fixpoint get {V} (d : dict V) (k : string) : option V :=
  match d with
  | [] => None
  | (k', v) :: r => if String.eqb k' k then Some v else get r k
  end.

Definition get_or {V} (d : dict V) (k : string) (default : V) : V :=
  match get d k with Some v => v | None => default end.

Definition keys {V} (d : dict V) : list string := map fst d.
Definition values {V} (d : dict V) : list V := map snd d.

End PyDict.

(** ** Rational comparisons as booleans *)

Definition Qltb (x y : Q) : bool := negb (Qle_bool y x).
Definition Qgeb (x y : Q) : bool := Qle_bool y x.
Definition Qgtb (x y : Q) : bool := negb (Qle_bool x y).

(** ** Configuration dataclasses ([config_manager.py]) *)

Module ConfigTypes.

Record ClassificationThresholds := {
  bug_threshold : Q;
  feature_threshold : Q;
  praise_threshold : Q;
  complaint_threshold : Q;
  spam_threshold : Q;
  minimum_confidence : Q
}.

Definition default_ClassificationThresholds : ClassificationThresholds :=
  {| bug_threshold := 7 # 10;
     feature_threshold := 6 # 10;
     praise_threshold := 6 # 10;
     complaint_threshold := 6 # 10;
     spam_threshold := 8 # 10;
     minimum_confidence := 5 # 10 |}.

(** [ConfigurationManager.get_classification_threshold]: the
    [threshold_map] dictionary and its [.get(category, minimum)] *)
Definition get_classification_threshold
    (ct : ClassificationThresholds) (category : string) : Q :=
  let threshold_map : PyDict.dict Q :=
    [ ("Bug", bug_threshold ct);
      ("Feature Request", feature_threshold ct);
      ("Praise", praise_threshold ct);
      ("Complaint", complaint_threshold ct);
      ("Spam", spam_threshold ct) ] in
  PyDict.get_or threshold_map category (minimum_confidence ct).

Record PriorityWeights := {
  bug_severity_weight : Q;
  user_impact_weight : Q;
  technical_complexity_weight : Q;
  business_priority_weight : Q;
  bug_priority_mapping : PyDict.dict string;
  feature_priority_mapping : PyDict.dict string
}.

(** the mappings [__post_init__] installs in place of [None] *)
Definition default_bug_priority_mapping : PyDict.dict string :=
  [ ("Critical", "Critical"); ("High", "High");
    ("Medium", "Medium"); ("Low", "Low") ].

Definition default_feature_priority_mapping : PyDict.dict string :=
  [ ("High Impact", "High"); ("Medium Impact", "Medium");
    ("Low Impact", "Low") ].

Definition default_PriorityWeights : PriorityWeights :=
  {| bug_severity_weight := 4 # 10;
     user_impact_weight := 3 # 10;
     technical_complexity_weight := 2 # 10;
     business_priority_weight := 1 # 10;
     bug_priority_mapping := default_bug_priority_mapping;
     feature_priority_mapping := default_feature_priority_mapping |}.

Record QualityThresholds := {
  minimum_quality_score : Q;
  auto_approve_threshold : Q;
  manual_review_threshold : Q;
  reject_threshold : Q
}.

Definition default_QualityThresholds : QualityThresholds :=
  {| minimum_quality_score := 70;
     auto_approve_threshold := 90;
     manual_review_threshold := 60;
     reject_threshold := 40 |}.

Record AgentSettings := {
  enable_bug_analysis : bool;
  enable_feature_extraction : bool;
  enable_quality_review : bool;
  enable_technical_extraction : bool;
  classification_timeout : Z;
  bug_analysis_timeout : Z;
  feature_extraction_timeout : Z;
  quality_review_timeout : Z
}.

Definition default_AgentSettings : AgentSettings :=
  {| enable_bug_analysis := true;
     enable_feature_extraction := true;
     enable_quality_review := true;
     enable_technical_extraction := true;
     classification_timeout := 30;
     bug_analysis_timeout := 45;
     feature_extraction_timeout := 30;
     quality_review_timeout := 20 |}.

Record ProcessingRules := {
  skip_low_confidence_items : bool;
  auto_categorize_spam : bool;
  require_manual_review_for_critical : bool;
  batch_size : Z;
  max_retries : Z
}.

Definition default_ProcessingRules : ProcessingRules :=
  {| skip_low_confidence_items := false;
     auto_categorize_spam := true;
     require_manual_review_for_critical := true;
     batch_size := 10;
     max_retries := 3 |}.

Record SystemConfiguration := {
  classification_thresholds : ClassificationThresholds;
  priority_weights : PriorityWeights;
  quality_thresholds : QualityThresholds;
  agent_settings : AgentSettings;
  processing_rules : ProcessingRules;
  version : string;
  last_updated : string;
  created_by : string
}.

Definition with_last_updated (c : SystemConfiguration) (t : string)
  : SystemConfiguration :=
  {| classification_thresholds := classification_thresholds c;
     priority_weights := priority_weights c;
     quality_thresholds := quality_thresholds c;
     agent_settings := agent_settings c;
     processing_rules := processing_rules c;
     version := version c;
     last_updated := t;
     created_by := created_by c |}.

Definition with_priority_weights (c : SystemConfiguration)
    (w : PriorityWeights) : SystemConfiguration :=
  {| classification_thresholds := classification_thresholds c;
     priority_weights := w;
     quality_thresholds := quality_thresholds c;
     agent_settings := agent_settings c;
     processing_rules := processing_rules c;
     version := version c;
     last_updated := last_updated c;
     created_by := created_by c |}.

End ConfigTypes.

(** ** The classifier tool ([ClassificationTool._run]) *)

Module ClassificationTool.
Import PyStr.

Definition bug_keywords : list string :=
  ["crash"; "error"; "bug"; "issue"; "problem"; "broken"; "not working";
   "freezes"; "stuck"; "fails"; "wrong"; "incorrect"; "lost data"].

Definition feature_keywords : list string :=
  ["please add"; "would love"; "suggestion"; "feature request";
   "missing"; "need"; "want"; "wish"; "improve"; "enhancement"].

Definition praise_keywords : list string :=
  ["amazing"; "great"; "love"; "perfect"; "excellent"; "awesome";
   "fantastic"; "wonderful"; "best"; "recommended"].

Definition complaint_keywords : list string :=
  ["expensive"; "slow"; "poor"; "bad"; "terrible"; "horrible";
   "disappointed"; "frustrated"; "angry"].

Definition spam_keywords : list string :=
  ["click here"; "www."; "money"; "deal"; "offer"; "contact us";
   "asdf"; "random"].

(** The [scores] dictionary, in the order it is written. *)
Definition scores_of (text : string) : PyDict.dict Z :=
  let text_lower := lower text in
  [ ("Bug", count_in bug_keywords text_lower);
    ("Feature Request", count_in feature_keywords text_lower);
    ("Praise", count_in praise_keywords text_lower);
    ("Complaint", count_in complaint_keywords text_lower);
    ("Spam", count_in spam_keywords text_lower) ].

(** Python's [max(iterable, key=f)]: the first element whose key is
    maximal; a later element replaces the current one only when its key
    is strictly larger. *)
Fixpoint py_max_from {A} (key : A -> Z) (best : A) (rest : list A) : A :=
  match rest with
  | [] => best
  | x :: r =>
      if key best <? key x then py_max_from key x r
      else py_max_from key best r
  end.

Definition py_max {A} (key : A -> Z) (l : list A) : option A :=
  match l with
  | [] => None
  | x :: r => Some (py_max_from key x r)
  end.

Definition sum_values (d : PyDict.dict Z) : Z :=
  fold_left Z.add (PyDict.values d) 0.

Record ClassificationResult := {
  category : string;
  confidence : Q;
  scores : PyDict.dict Z;
  threshold_used : Q;
  meets_threshold : bool
}.

(** The quotient [scores[category] / max(1, sum(scores.values()))]. *)
Definition raw_confidence_of (sc : PyDict.dict Z) (cat : string) : Q :=
  inject_Z (PyDict.get_or sc cat 0) / inject_Z (Z.max 1 (sum_values sc)).

(** [max(scores, key=scores.get)]; [max] of an empty dictionary raises,
    which the five-entry [scores] never is *)
Definition max_category (sc : PyDict.dict Z) : string :=
  match py_max (fun k => PyDict.get_or sc k 0) (PyDict.keys sc) with
  | Some k => k
  | None => ""
  end.

Definition _run (ct : ConfigTypes.ClassificationThresholds) (text : string)
  : ClassificationResult :=
  let sc := scores_of text in
  let cat := max_category sc in
  let raw_confidence := raw_confidence_of sc cat in
  let threshold := ConfigTypes.get_classification_threshold ct cat in
  let uncertain :=
    Qltb raw_confidence threshold &&
    Qltb raw_confidence (ConfigTypes.minimum_confidence ct) in
  {| category := if uncertain then "Uncertain" else cat;
     confidence :=
       if uncertain then (raw_confidence * 50)%Q
       else (raw_confidence * 100)%Q;
     scores := sc;
     threshold_used := threshold;
     meets_threshold := Qgeb raw_confidence threshold |}.

End ClassificationTool.

(** ** The priority tool ([PriorityTool._run]) *)

Module PriorityTool.
Import PyStr.

Definition critical_keywords : list string :=
  ["urgent"; "critical"; "data loss"; "cannot login"; "crashed";
   "lost all"; "business"; "important"].

Definition high_keywords : list string :=
  ["crash"; "error"; "bug"; "broken"; "not working"; "issue"].

Definition _run (text category : string) : string :=
  let text_lower := lower text in
  if any_in critical_keywords text_lower then "Critical"
  else if String.eqb category "Bug" && any_in high_keywords text_lower
  then "High"
  else if String.eqb category "Feature Request" then "Medium"
  else if String.eqb category "Complaint" then "Medium"
  else if existsb (String.eqb category) ["Praise"; "Spam"] then "Low"
  else "Low".

End PriorityTool.

(** ** The fragment of Python's [re] the extractor uses

  A backtracking matcher in continuation style.  Repetition is only ever
  applied to a character class ([\s*], [\d+], [\d*]) and is greedy: the
  longest run is tried first and shortened on failure.  [Opt] is the
  greedy [?].  [Group] records the text of the (single) capture group. *)

Module Re.

Inductive regex :=
| Lit (c : ascii)
| Seq (a b : regex)
| Opt (a : regex)
| Star (p : ascii -> bool)
| Plus (p : ascii -> bool)
| Group (a : regex).

(** [\d] on ASCII text *)
Definition digit (c : ascii) : bool :=
  let n := nat_of_ascii c in (48 <=? n)%nat && (n <=? 57)%nat.

(** [\s] of a [str] pattern on ASCII text: tab, line feed, vertical tab,
    form feed, carriage return, the separators 28..31 and the space *)
Definition space (c : ascii) : bool :=
  let n := nat_of_ascii c in
  ((9 <=? n)%nat && (n <=? 13)%nat) ||
  ((28 <=? n)%nat && (n <=? 32)%nat).

(** a literal word *)
Fixpoint word (w : string) (then_ : regex) : regex :=
  match w with
  | EmptyString => then_
  | String c t => Seq (Lit c) (word t then_)
  end.

Section Matcher.
Context {R : Type}.

Fixpoint star (p : ascii -> bool) (s : string)
    (k : string -> option R) : option R :=
  match s with
  | EmptyString => k EmptyString
  | String c t =>
      if p c then
        match star p t k with
        | Some r => Some r
        | None => k s
        end
      else k s
  end.

(** [consumed s rest]: what was read of [s] when [rest] remains *)
Definition consumed (s rest : string) : string :=
  PyStr.take (String.length s - String.length rest) s.

Fixpoint go (r : regex) (s : string) (cap : option string)
    (k : string -> option string -> option R) : option R :=
  match r with
  | Lit c =>
      match s with
      | String c' t => if Ascii.eqb c c' then k t cap else None
      | EmptyString => None
      end
  | Seq a b => go a s cap (fun s' cap' => go b s' cap' k)
  | Opt a =>
      match go a s cap k with
      | Some x => Some x
      | None => k s cap
      end
  | Star p => star p s (fun s' => k s' cap)
  | Plus p =>
      match s with
      | String c t => if p c then star p t (fun s' => k s' cap) else None
      | EmptyString => None
      end
  | Group a => go a s cap (fun s' _ => k s' (Some (consumed s s')))
  end.
End Matcher.

(** [re.match]-at-a-position: the capture of group 1, when the pattern
    matches at the head of [s] *)
Definition match_here (r : regex) (s : string) : option (option string) :=
  go r s None (fun _ cap => Some cap).

(** [re.search(r, s)]: the leftmost position at which the pattern
    matches; the result is [group(1)] of that match *)
Fixpoint search (r : regex) (s : string) : option (option string) :=
  match match_here r s with
  | Some cap => Some cap
  | None =>
      match s with
      | EmptyString => None
      | String _ t => search r t
      end
  end.

(** [m.group(1)] as text (an unset group prints as [None]) *)
Definition group1 (m : option string) : string :=
  match m with Some g => g | None => "None" end.

End Re.

(** ** The technical details tool ([TechnicalDetailsTool._run]) *)

Module TechnicalDetailsTool.
Import PyStr Re.

Definition devices : list string :=
  ["iphone"; "ipad"; "android"; "samsung"; "galaxy"; "pixel"; "huawei"].

(** [ios_pattern]: [ios\s*(G)] where the group G is [\d+\.?\d*] *)
Definition ios_pattern : regex :=
  word "ios" (Seq (Star space)
    (Group (Seq (Plus digit) (Seq (Opt (Lit ".")) (Star digit))))).

(** [android_pattern]: [android\s*(G)] where G is [\d+\.?\d*] *)
Definition android_pattern : regex :=
  word "android" (Seq (Star space)
    (Group (Seq (Plus digit) (Seq (Opt (Lit ".")) (Star digit))))).

(** [version_pattern]: [version\s*(G)] where G is [\d+\.\d+\.?\d*] *)
Definition version_pattern : regex :=
  word "version" (Seq (Star space)
    (Group (Seq (Plus digit) (Seq (Lit ".") (Seq (Plus digit)
       (Seq (Opt (Lit ".")) (Star digit))))))).

Definition device_details (text_lower : string) : list string :=
  flat_map (fun device =>
    if contains device text_lower then ["Device: " ++ device] else [])
    devices.

Definition match_detail (label : string) (r : regex) (text_lower : string)
  : list string :=
  match search r text_lower with
  | Some m => [label ++ group1 m]
  | None => []
  end.

Definition steps_detail (text_lower : string) : list string :=
  if contains "steps" text_lower || contains "reproduce" text_lower
  then ["Contains reproduction steps"] else [].

(** the list [details] at the end of [_run] *)
Definition details_of (text : string) : list string :=
  let text_lower := lower text in
  (device_details text_lower
   ++ match_detail "iOS: " ios_pattern text_lower
   ++ match_detail "Android: " android_pattern text_lower
   ++ match_detail "App Version: " version_pattern text_lower
   ++ steps_detail text_lower)%list.

Definition _run (text : string) : string :=
  match details_of text with
  | [] => "No technical details found"
  | details => String.concat "; " details
  end.

End TechnicalDetailsTool.

(** ** Python values, exceptions and results *)

Module Py.

(** the values stored in the dictionaries the agents build *)
Inductive pyval :=
| VNone
| VBool (b : bool)
| VInt (z : Z)
| VFloat (q : Q)
| VStr (s : string).

(** a cell of an input record, as the reader hands it over: JSON null,
    a boolean, an integer or a string *)
Inductive scalar :=
| SNull
| SBool (b : bool)
| SInt (z : Z)
| SStr (s : string).

Definition of_scalar (c : scalar) : pyval :=
  match c with
  | SNull => VNone
  | SBool b => VBool b
  | SInt z => VInt z
  | SStr s => VStr s
  end.

Definition str_of_Z (z : Z) : string := NilEmpty.string_of_int (Z.to_int z).

(** [str(c)], as an f-string formats a cell *)
Definition py_str (c : scalar) : string :=
  match c with
  | SNull => "None"
  | SBool true => "True"
  | SBool false => "False"
  | SInt z => str_of_Z z
  | SStr s => s
  end.

(** [bool(v)] *)
Definition truthy (v : pyval) : bool :=
  match v with
  | VNone => false
  | VBool b => b
  | VInt z => negb (z =? 0)
  | VFloat q => negb (Qeq_bool q 0)
  | VStr s => PyStr.truthy s
  end.

Inductive exn :=
| TypeError
| KeyError (key : string).

Inductive result (A : Type) :=
| Ok (a : A)
| Raise (e : exn).
Arguments Ok {A} a.
Arguments Raise {A} e.

(** [d[k]] *)
Definition getitem {V} (d : PyDict.dict V) (k : string) : result V :=
  match PyDict.get d k with
  | Some v => Ok v
  | None => Raise (KeyError k)
  end.

(** [k in d] *)
Definition has_key {V} (d : PyDict.dict V) (k : string) : bool :=
  match PyDict.get d k with Some _ => true | None => false end.

(** [d.update(e)]: a key already present keeps its place and takes the
    new value, a new key goes to the end *)
Fixpoint set_item {V} (d : PyDict.dict V) (k : string) (v : V)
  : PyDict.dict V :=
  match d with
  | [] => [(k, v)]
  | (k', v') :: r =>
      if String.eqb k' k then (k', v) :: r else (k', v') :: set_item r k v
  end.

Definition update {V} (d e : PyDict.dict V) : PyDict.dict V :=
  fold_left (fun acc kv => set_item acc (fst kv) (snd kv)) e d.

(** [len(v)]: only a string has a length among these values *)
Definition len (v : pyval) : result Z :=
  match v with
  | VStr s => Ok (Z.of_nat (String.length s))
  | _ => Raise TypeError
  end.

(** [v < n] for an integer literal [n] *)
Definition lt_int (v : pyval) (n : Z) : result bool :=
  match v with
  | VInt z => Ok (z <? n)
  | VFloat q => Ok (Qltb q (inject_Z n))
  | VBool b => Ok ((if b then 1 else 0) <? n)
  | VNone | VStr _ => Raise TypeError
  end.

(** [json.dumps] of a list of plain words (no character to escape) *)
Definition dquote : string := String (ascii_of_nat 34) EmptyString.

Definition dumps_words (l : list string) : string :=
  "[" ++ String.concat ", " (map (fun s => dquote ++ s ++ dquote) l) ++ "]".

End Py.

(** ** The processing log ([processing_logger.py])

  Every decision is appended to the log file at once; the session summary
  is a row of its own.  The clock readings (timestamp, durations) and the
  free-text snapshots are not part of the embedded rows. *)

Module ProcessingLogger.

Record LogEntry := {
  source_id : Py.scalar;
  source_type : string;
  agent_name : string;
  action_type : string;
  decision_point : string;
  confidence_score : Q;
  success_status : bool;
  error_message : string
}.

Inductive row :=
| Decision (e : LogEntry)
| SessionSummary (success_count total_items : Z).

Definition log := list row.

(** [log_agent_decision]; [success_status] and [error_message] keep their
    defaults at every call site of the pipeline *)
Definition log_agent_decision (sid : Py.scalar) (stype agent action
    decision : string) (confidence : option Q) (l : log) : log :=
  (l ++ [Decision {|
    source_id := sid; source_type := stype; agent_name := agent;
    action_type := action; decision_point := decision;
    confidence_score := match confidence with Some q => q | None => 0 end;
    success_status := true; error_message := "" |}])%list.



End ProcessingLogger.

(** ** The manual agents and the hybrid pipeline ([FeedbackAnalysisSystem]) *)

Module FeedbackAnalysisSystem.
Import PyStr Py ProcessingLogger.

Definition execute_bug_analyzer_manually (text category : string)
  : PyDict.dict pyval :=
  if negb (String.eqb (lower category) "bug") then
    [ ("is_bug", VBool false);
      ("technical_details", VStr "N/A - not a bug report");
      ("severity", VStr "N/A");
      ("priority", VStr "N/A") ]
  else
    let technical_details := TechnicalDetailsTool._run text in
    let priority := PriorityTool._run text category in
    let text_lower := lower text in
    let severity :=
      if any_in ["crash"; "data loss"; "cannot"; "critical"; "urgent"]
           text_lower then "High"
      else if any_in ["error"; "issue"; "problem"; "broken"] text_lower
      then "Medium"
      else "Low" in
    [ ("is_bug", VBool true);
      ("technical_details", VStr technical_details);
      ("severity", VStr severity);
      ("priority", VStr priority);
      ("reproduction_steps",
         VStr (if contains "steps" text_lower
                  || contains "reproduce" text_lower
               then "Contains reproduction steps"
               else "No steps provided")) ].

Definition execute_feature_extractor_manually (text category : string)
  : PyDict.dict pyval :=
  if negb (String.eqb (lower category) "feature request") then
    [ ("is_feature", VBool false);
      ("impact", VStr "N/A");
      ("complexity", VStr "N/A");
      ("priority", VStr "N/A") ]
  else
    let priority := PriorityTool._run text category in
    let text_lower := lower text in
    let impact :=
      if any_in ["all users"; "everyone"; "essential"; "critical";
                 "necessary"] text_lower then "High"
      else if any_in ["many users"; "important"; "useful"; "would help"]
                text_lower then "Medium"
      else "Low" in
    let complexity :=
      if any_in ["simple"; "easy"; "basic"; "just add"] text_lower
      then "Low"
      else if any_in ["complex"; "difficult"; "integration"; "system"]
                text_lower then "High"
      else "Medium" in
    [ ("is_feature", VBool true);
      ("impact", VStr impact);
      ("complexity", VStr complexity);
      ("priority", VStr priority);
      ("user_benefit",
         VStr (if String.eqb impact "High" then "High user value"
               else impact ++ " user value")) ].

Record QualityReview := {
  quality_score : Z;
  issues : list string;
  status : string
}.

(** the loop over [required_fields]: 20 points and one issue for every
    field that is missing or falsy *)
Fixpoint check_required (ticket_data : PyDict.dict pyval)
    (fields : list string) (acc : Z * list string) : Z * list string :=
  match fields with
  | [] => acc
  | field :: rest =>
      let hit :=
        match PyDict.get ticket_data field with
        | Some v => negb (truthy v)
        | None => true
        end in
      check_required ticket_data rest
        (if hit then (fst acc - 20, (snd acc ++ [("Missing " ++ field)%string])%list)
         else acc)
  end.

Definition execute_quality_reviewer_manually
    (ticket_data : PyDict.dict pyval) : result QualityReview :=
  match getitem ticket_data "ticket_id" with
  | Raise e => Raise e
  | Ok _ =>
    let '(s1, i1) :=
      check_required ticket_data
        ["title"; "description"; "category"; "priority"] (100, []) in
    match len (PyDict.get_or ticket_data "description" (VStr "")) with
    | Raise e => Raise e
    | Ok n =>
      let '(s2, i2) :=
        if n <? 10 then (s1 - 10, (i1 ++ ["Description too short"])%list)
        else (s1, i1) in
      match lt_int (PyDict.get_or ticket_data "confidence_score" (VInt 0))
              50 with
      | Raise e => Raise e
      | Ok low =>
        let '(s3, i3) :=
          if low then (s2 - 15, (i2 ++ ["Low confidence score"])%list)
          else (s2, i2) in
        Ok {| quality_score := s3;
              issues := i3;
              status := if 70 <=? s3 then "approved" else "needs_review" |}
      end
    end
  end.

Definition _generate_title (category text : string) : string :=
  if String.eqb category "Bug" then
    if contains "crash" (lower text) then "Fix: Application crash issue"
    else if contains "login" (lower text)
    then "Fix: Login authentication problem"
    else if contains "sync" (lower text)
    then "Fix: Data synchronization issue"
    else "Fix: Application bug report"
  else if String.eqb category "Feature Request" then
    if contains "dark mode" (lower text)
    then "Feature: Add dark mode support"
    else if contains "calendar" (lower text)
    then "Feature: Calendar integration"
    else if contains "export" (lower text)
    then "Feature: Export functionality"
    else "Feature: User-requested enhancement"
  else if String.eqb category "Praise" then "Positive feedback received"
  else if String.eqb category "Complaint"
  then "User complaint - investigate"
  else "Spam content - review for removal".

(** *** The per-item pipeline and the batch loop

    A computation reads and extends the log and either returns a value
    or raises; what was logged before a raise stays logged. *)

Definition M (A : Type) : Type := log -> log * result A.

Definition ret {A} (a : A) : M A := fun l => (l, Ok a).

Definition raise {A} (e : exn) : M A := fun l => (l, Raise e).

Definition bind {A B} (m : M A) (k : A -> M B) : M B :=
  fun l =>
    match m l with
    | (l', Ok a) => k a l'
    | (l', Raise e) => (l', Raise e)
    end.

Definition tell (f : log -> log) : M unit := fun l => (f l, Ok tt).

Definition lift {A} (r : result A) : M A := fun l => (l, r).

Notation "x <- m ;; k" := (bind m (fun x => k))
  (at level 61, m at next level, right associativity).
Notation "m ;;; k" := (bind m (fun _ => k))
  (at level 61, right associativity).

(** the [description] entry: [text[:500] + "..." if len(text) > 500
    else text] *)
Definition describe (text : string) : string :=
  if (500 <? String.length text)%nat then take 500 text ++ "..."
  else text.

(** [_process_single_feedback_with_agents].  The tools index and
    lower-case [text], so a cell that is not a string raises in the
    classifier before anything is logged.  [index] and [total] only
    drive console banners.  The two ticket entries filled from outside
    the rules, [created_date] (the clock) and [additional_data] (the
    JSON text of the caller's other columns), are not embedded. *)
Definition _process_single_feedback_with_agents
    (ct : ConfigTypes.ClassificationThresholds)
    (source_id : scalar) (source_type : string) (text : scalar)
    (index total : Z) : M (PyDict.dict pyval) :=
  match text with
  | SStr text =>
    let classification_result := ClassificationTool._run ct text in
    let category := ClassificationTool.category classification_result in
    let confidence := ClassificationTool.confidence classification_result in
    tell (log_agent_decision source_id source_type
            "Feedback Classifier Agent" "classification"
            "feedback_categorization" (Some confidence)) ;;;
    let bug_analysis := execute_bug_analyzer_manually text category in
    is_bug <- lift (getitem bug_analysis "is_bug") ;;
    tell (log_agent_decision source_id source_type
            "Bug Analysis Agent" "bug_analysis"
            (if truthy is_bug then "analyze_bug" else "skip_non_bug")
            None) ;;;
    let feature_analysis :=
      execute_feature_extractor_manually text category in
    is_feature <- lift (getitem feature_analysis "is_feature") ;;
    tell (log_agent_decision source_id source_type
            "Feature Extractor Agent" "feature_analysis"
            (if truthy is_feature then "analyze_feature"
             else "skip_non_feature") None) ;;;
    let priority := PriorityTool._run text category in
    tell (log_agent_decision source_id source_type
            "Priority Analyzer Agent" "priority_assignment"
            "determine_priority" None) ;;;
    let technical_details := TechnicalDetailsTool._run text in
    tell (log_agent_decision source_id source_type
            "Technical Details Agent" "technical_extraction"
            "extract_technical_info" None) ;;;
    let title := _generate_title category text in
    tell (log_agent_decision source_id source_type
            "Ticket Creator Agent" "ticket_creation"
            "generate_ticket" None) ;;;
    let ticket_data : PyDict.dict pyval :=
      [ ("ticket_id", VStr ("TICKET-" ++ py_str source_id));
        ("source_id", of_scalar source_id);
        ("source_type", VStr source_type);
        ("category", VStr category);
        ("priority", VStr priority);
        ("title", VStr title);
        ("description", VStr (describe text));
        ("technical_details", VStr technical_details);
        ("confidence_score", VFloat confidence);
        ("status", VStr "Open") ] in
    ticket_data <-
      (if truthy is_bug then
         severity <- lift (getitem bug_analysis "severity") ;;
         steps <- lift (getitem bug_analysis "reproduction_steps") ;;
         bug_priority <- lift (getitem bug_analysis "priority") ;;
         ret (update ticket_data
                [ ("bug_severity", severity);
                  ("reproduction_steps", steps);
                  ("bug_priority", bug_priority) ])
       else ret ticket_data) ;;
    ticket_data <-
      (if truthy is_feature then
         impact <- lift (getitem feature_analysis "impact") ;;
         complexity <- lift (getitem feature_analysis "complexity") ;;
         user_benefit <- lift (getitem feature_analysis "user_benefit") ;;
         ret (update ticket_data
                [ ("feature_impact", impact);
                  ("feature_complexity", complexity);
                  ("user_benefit", user_benefit) ])
       else ret ticket_data) ;;
    quality_review <- lift (execute_quality_reviewer_manually ticket_data) ;;
    tell (log_agent_decision source_id source_type
            "Quality Reviewer Agent" "quality_review" "assess_quality"
            (Some (inject_Z (quality_score quality_review)))) ;;;
    ret (update ticket_data
           [ ("quality_score", VInt (quality_score quality_review));
             ("quality_issues",
                VStr (dumps_words (issues quality_review)));
             ("review_status", VStr (status quality_review)) ])
  | _ => raise TypeError
  end.



(** [_process_single_feedback], the per-item function of the simple
    batch: the four rule-based steps, no agent and no log.  [text] is a
    string, as the tools need it; as for the hybrid ticket, the entries
    [created_date] and [additional_data] are not embedded. *)
Definition _process_single_feedback
    (ct : ConfigTypes.ClassificationThresholds)
    (source_id : scalar) (source_type text : string)
  : PyDict.dict pyval :=
  let classification_result := ClassificationTool._run ct text in
  let category := ClassificationTool.category classification_result in
  let confidence := ClassificationTool.confidence classification_result in
  let priority := PriorityTool._run text category in
  let technical_details := TechnicalDetailsTool._run text in
  let title := _generate_title category text in
  [ ("ticket_id", VStr ("TICKET-" ++ py_str source_id));
    ("source_id", of_scalar source_id);
    ("source_type", VStr source_type);
    ("category", VStr category);
    ("priority", VStr priority);
    ("title", VStr title);
    ("description", VStr (describe text));
    ("technical_details", VStr technical_details);
    ("confidence_score", VFloat confidence);
    ("status", VStr "Open") ].

(** [_generate_mock_feedback_text], for a row whose [category] and
    [technical_details] cells are text (the row's [source_type] is read
    and not used) *)
Definition _generate_mock_feedback_text (category technical_details : string)
  : string :=
  let details_lower := lower technical_details in
  if String.eqb category "Bug" then
    if contains "crash" details_lower then
      "The app keeps crashing! " ++ technical_details
      ++ ". This is really frustrating and needs to be fixed ASAP."
    else if contains "sync" details_lower then
      "Having sync issues. " ++ technical_details
      ++ ". Cannot sync my data properly."
    else if contains "authentication" details_lower
            || contains "login" details_lower then
      "Cannot log into the app. " ++ technical_details
      ++ ". Please fix this login problem."
    else
      "There's a bug in the app. " ++ technical_details
      ++ ". Please investigate and fix."
  else if String.eqb category "Feature Request" then
    if contains "dark mode" details_lower then
      "Please add dark mode! " ++ technical_details
      ++ ". It would be amazing for night usage."
    else if contains "calendar" details_lower then
      "Would love calendar integration. " ++ technical_details
      ++ ". This would make the app much more useful."
    else
      "Feature request: " ++ technical_details
      ++ ". This would really improve the user experience."
  else if String.eqb category "Praise" then
    "Love this app! " ++ technical_details ++ ". Keep up the great work!"
  else if String.eqb category "Complaint" then
    if contains "price" details_lower
       || contains "expensive" details_lower then
      "App is too expensive. " ++ technical_details
      ++ ". Please consider more affordable pricing."
    else
      "Not happy with the app. " ++ technical_details
      ++ ". This needs improvement."
  else
    "Check out this amazing deal! " ++ technical_details
    ++ ". Click here for more info!".

End FeedbackAnalysisSystem.

(** ** JSON documents and the files that hold them

  A file written by [json.dump] holds a document, and [json.load] reads
  the same document back: the embedding keeps the document itself.  A
  document read from a file has distinct keys in every object.  Writing
  a file succeeds (a failing write is caught by the manager and answered
  with [False]; the embedding has no failing disk). *)

Module Json.

Set Warnings "-register-all".

Inductive json :=
| JNull
| JBool (b : bool)
| JInt (z : Z)
| JFloat (q : Q)
| JStr (s : string)
| JObj (fields : list (string * json)).

(** the world outside the process: the files and the clock.  Reading the
    clock ([datetime.now().isoformat()]) advances it. *)
Record world := {
  files : PyDict.dict json;
  clock : nat -> string;
  ticks : nat
}.

Definition exists_ (w : world) (path : string) : bool :=
  Py.has_key (files w) path.

Definition read (w : world) (path : string) : option json :=
  PyDict.get (files w) path.

Definition write (w : world) (path : string) (doc : json) : world :=
  {| files := Py.set_item (files w) path doc;
     clock := clock w; ticks := ticks w |}.

Definition now (w : world) : string * world :=
  (clock w (ticks w),
   {| files := files w; clock := clock w; ticks := S (ticks w) |}).

(** a document without one of its top-level entries *)
Definition without (key : string) (doc : json) : json :=
  match doc with
  | JObj fields =>
      JObj (filter (fun kv => negb (String.eqb (fst kv) key)) fields)
  | other => other
  end.

End Json.

(** ** The configuration manager ([ConfigurationManager]) *)

Module ConfigurationManager.
Import ConfigTypes Json.

(** *** [asdict] *)

Definition dict_of_mapping (m : PyDict.dict string) : json :=
  JObj (map (fun kv => (fst kv, JStr (snd kv))) m).

Definition asdict_ClassificationThresholds (c : ClassificationThresholds)
  : json :=
  JObj [ ("bug_threshold", JFloat (bug_threshold c));
         ("feature_threshold", JFloat (feature_threshold c));
         ("praise_threshold", JFloat (praise_threshold c));
         ("complaint_threshold", JFloat (complaint_threshold c));
         ("spam_threshold", JFloat (spam_threshold c));
         ("minimum_confidence", JFloat (minimum_confidence c)) ].

Definition asdict_PriorityWeights (p : PriorityWeights) : json :=
  JObj [ ("bug_severity_weight", JFloat (bug_severity_weight p));
         ("user_impact_weight", JFloat (user_impact_weight p));
         ("technical_complexity_weight",
            JFloat (technical_complexity_weight p));
         ("business_priority_weight", JFloat (business_priority_weight p));
         ("bug_priority_mapping",
            dict_of_mapping (bug_priority_mapping p));
         ("feature_priority_mapping",
            dict_of_mapping (feature_priority_mapping p)) ].

Definition asdict_QualityThresholds (q : QualityThresholds) : json :=
  JObj [ ("minimum_quality_score", JFloat (minimum_quality_score q));
         ("auto_approve_threshold", JFloat (auto_approve_threshold q));
         ("manual_review_threshold", JFloat (manual_review_threshold q));
         ("reject_threshold", JFloat (reject_threshold q)) ].

Definition asdict_AgentSettings (a : AgentSettings) : json :=
  JObj [ ("enable_bug_analysis", JBool (enable_bug_analysis a));
         ("enable_feature_extraction",
            JBool (enable_feature_extraction a));
         ("enable_quality_review", JBool (enable_quality_review a));
         ("enable_technical_extraction",
            JBool (enable_technical_extraction a));
         ("classification_timeout", JInt (classification_timeout a));
         ("bug_analysis_timeout", JInt (bug_analysis_timeout a));
         ("feature_extraction_timeout",
            JInt (feature_extraction_timeout a));
         ("quality_review_timeout", JInt (quality_review_timeout a)) ].

Definition asdict_ProcessingRules (r : ProcessingRules) : json :=
  JObj [ ("skip_low_confidence_items",
            JBool (skip_low_confidence_items r));
         ("auto_categorize_spam", JBool (auto_categorize_spam r));
         ("require_manual_review_for_critical",
            JBool (require_manual_review_for_critical r));
         ("batch_size", JInt (batch_size r));
         ("max_retries", JInt (max_retries r)) ].

Definition asdict (c : SystemConfiguration) : json :=
  JObj [ ("classification_thresholds",
            asdict_ClassificationThresholds (classification_thresholds c));
         ("priority_weights", asdict_PriorityWeights (priority_weights c));
         ("quality_thresholds",
            asdict_QualityThresholds (quality_thresholds c));
         ("agent_settings", asdict_AgentSettings (agent_settings c));
         ("processing_rules", asdict_ProcessingRules (processing_rules c));
         ("version", JStr (version c));
         ("last_updated", JStr (last_updated c));
         ("created_by", JStr (created_by c)) ].

(** *** Building the dataclasses back from a document

    A dataclass called with [**d] raises [TypeError] on a keyword that is
    not one of its fields, lets a missing field take its default, and
    keeps whatever value it is given.  The records are typed as the
    dataclasses declare their fields, so a document that puts a value of
    another type in a field has no image here: that is [Untyped], apart
    from the exception [Throws]. *)

Inductive built (A : Type) :=
| Value (a : A)
| Throws
| Untyped.
Arguments Value {A} a.
Arguments Throws {A}.
Arguments Untyped {A}.

Definition andThen {A B} (m : built A) (k : A -> built B) : built B :=
  match m with
  | Value a => k a
  | Throws => Throws
  | Untyped => Untyped
  end.

Notation "x <~ m ;; k" := (andThen m (fun x => k))
  (at level 61, m at next level, right associativity).

(** every keyword is a field name *)
Definition keywords_ok (fields : list string)
    (d : list (string * json)) : bool :=
  forallb (fun kv => existsb (String.eqb (fst kv)) fields) d.

(** the keyword arguments [**x]: [x] has to be a mapping whose keys are
    fields *)
Definition kwargs (fields : list string) (x : json)
  : built (list (string * json)) :=
  match x with
  | JObj d => if keywords_ok fields d then Value d else Throws
  | _ => Throws
  end.

Definition float_field (d : list (string * json)) (k : string)
    (default : Q) : built Q :=
  match PyDict.get d k with
  | None => Value default
  | Some (JFloat q) => Value q
  | Some _ => Untyped
  end.

Definition int_field (d : list (string * json)) (k : string)
    (default : Z) : built Z :=
  match PyDict.get d k with
  | None => Value default
  | Some (JInt z) => Value z
  | Some _ => Untyped
  end.

Definition bool_field (d : list (string * json)) (k : string)
    (default : bool) : built bool :=
  match PyDict.get d k with
  | None => Value default
  | Some (JBool b) => Value b
  | Some _ => Untyped
  end.

Definition str_field (d : list (string * json)) (k : string)
    (default : string) : built string :=
  match PyDict.get d k with
  | None => Value default
  | Some (JStr s) => Value s
  | Some _ => Untyped
  end.

Fixpoint mapping_of_dict (l : list (string * json))
  : built (PyDict.dict string) :=
  match l with
  | [] => Value []
  | (k, JStr v) :: r => m <~ mapping_of_dict r ;; Value ((k, v) :: m)
  | _ => Untyped
  end.

(** a mapping field: [None] (absent or JSON null) is replaced by the
    default in [__post_init__] *)
Definition mapping_field (d : list (string * json)) (k : string)
    (default : PyDict.dict string) : built (PyDict.dict string) :=
  match PyDict.get d k with
  | None | Some JNull => Value default
  | Some (JObj l) => mapping_of_dict l
  | Some _ => Untyped
  end.

Definition make_ClassificationThresholds (x : json)
  : built ClassificationThresholds :=
  d <~ kwargs ["bug_threshold"; "feature_threshold"; "praise_threshold";
               "complaint_threshold"; "spam_threshold";
               "minimum_confidence"] x ;;
  a <~ float_field d "bug_threshold" (7 # 10) ;;
  b <~ float_field d "feature_threshold" (6 # 10) ;;
  c <~ float_field d "praise_threshold" (6 # 10) ;;
  e <~ float_field d "complaint_threshold" (6 # 10) ;;
  f <~ float_field d "spam_threshold" (8 # 10) ;;
  g <~ float_field d "minimum_confidence" (5 # 10) ;;
  Value {| bug_threshold := a; feature_threshold := b;
           praise_threshold := c; complaint_threshold := e;
           spam_threshold := f; minimum_confidence := g |}.

Definition make_PriorityWeights (x : json) : built PriorityWeights :=
  d <~ kwargs ["bug_severity_weight"; "user_impact_weight";
               "technical_complexity_weight"; "business_priority_weight";
               "bug_priority_mapping"; "feature_priority_mapping"] x ;;
  a <~ float_field d "bug_severity_weight" (4 # 10) ;;
  b <~ float_field d "user_impact_weight" (3 # 10) ;;
  c <~ float_field d "technical_complexity_weight" (2 # 10) ;;
  e <~ float_field d "business_priority_weight" (1 # 10) ;;
  f <~ mapping_field d "bug_priority_mapping"
         default_bug_priority_mapping ;;
  g <~ mapping_field d "feature_priority_mapping"
         default_feature_priority_mapping ;;
  Value {| bug_severity_weight := a; user_impact_weight := b;
           technical_complexity_weight := c;
           business_priority_weight := e;
           bug_priority_mapping := f; feature_priority_mapping := g |}.

Definition make_QualityThresholds (x : json) : built QualityThresholds :=
  d <~ kwargs ["minimum_quality_score"; "auto_approve_threshold";
               "manual_review_threshold"; "reject_threshold"] x ;;
  a <~ float_field d "minimum_quality_score" 70 ;;
  b <~ float_field d "auto_approve_threshold" 90 ;;
  c <~ float_field d "manual_review_threshold" 60 ;;
  e <~ float_field d "reject_threshold" 40 ;;
  Value {| minimum_quality_score := a; auto_approve_threshold := b;
           manual_review_threshold := c; reject_threshold := e |}.

Definition make_AgentSettings (x : json) : built AgentSettings :=
  d <~ kwargs ["enable_bug_analysis"; "enable_feature_extraction";
               "enable_quality_review"; "enable_technical_extraction";
               "classification_timeout"; "bug_analysis_timeout";
               "feature_extraction_timeout"; "quality_review_timeout"] x ;;
  a <~ bool_field d "enable_bug_analysis" true ;;
  b <~ bool_field d "enable_feature_extraction" true ;;
  c <~ bool_field d "enable_quality_review" true ;;
  e <~ bool_field d "enable_technical_extraction" true ;;
  f <~ int_field d "classification_timeout" 30 ;;
  g <~ int_field d "bug_analysis_timeout" 45 ;;
  h <~ int_field d "feature_extraction_timeout" 30 ;;
  i <~ int_field d "quality_review_timeout" 20 ;;
  Value {| enable_bug_analysis := a; enable_feature_extraction := b;
           enable_quality_review := c; enable_technical_extraction := e;
           classification_timeout := f; bug_analysis_timeout := g;
           feature_extraction_timeout := h;
           quality_review_timeout := i |}.

Definition make_ProcessingRules (x : json) : built ProcessingRules :=
  d <~ kwargs ["skip_low_confidence_items"; "auto_categorize_spam";
               "require_manual_review_for_critical"; "batch_size";
               "max_retries"] x ;;
  a <~ bool_field d "skip_low_confidence_items" false ;;
  b <~ bool_field d "auto_categorize_spam" true ;;
  c <~ bool_field d "require_manual_review_for_critical" true ;;
  e <~ int_field d "batch_size" 10 ;;
  f <~ int_field d "max_retries" 3 ;;
  Value {| skip_low_confidence_items := a; auto_categorize_spam := b;
           require_manual_review_for_critical := c;
           batch_size := e; max_retries := f |}.

(** [config_dict.get(section, {})] *)
Definition section (d : list (string * json)) (k : string) : json :=
  PyDict.get_or d k (JObj []).

(** the [SystemConfiguration(...)] call of [load_configuration], before
    [__post_init__]; a document that is not an object has no [.get] *)
Definition make_SystemConfiguration (doc : json)
  : built SystemConfiguration :=
  match doc with
  | JObj d =>
      ct <~ make_ClassificationThresholds
              (section d "classification_thresholds") ;;
      pw <~ make_PriorityWeights (section d "priority_weights") ;;
      qt <~ make_QualityThresholds (section d "quality_thresholds") ;;
      ag <~ make_AgentSettings (section d "agent_settings") ;;
      pr <~ make_ProcessingRules (section d "processing_rules") ;;
      v <~ str_field d "version" "1.0.0" ;;
      lu <~ str_field d "last_updated" "" ;;
      cb <~ str_field d "created_by" "system" ;;
      Value {| classification_thresholds := ct; priority_weights := pw;
               quality_thresholds := qt; agent_settings := ag;
               processing_rules := pr; version := v;
               last_updated := lu; created_by := cb |}
  | _ => Throws
  end.

(** [SystemConfiguration.__post_init__]: an empty [last_updated] is
    stamped with the clock *)
Definition post_init (c : SystemConfiguration) (w : world)
  : SystemConfiguration * world :=
  if PyStr.truthy (last_updated c) then (c, w)
  else let '(t, w') := now w in (with_last_updated c t, w').

(** *** The manager *)

Record manager := {
  config_file : string;
  config : SystemConfiguration
}.

Definition create_default_configuration (w : world)
  : SystemConfiguration * world :=
  post_init
    {| classification_thresholds := default_ClassificationThresholds;
       priority_weights := default_PriorityWeights;
       quality_thresholds := default_QualityThresholds;
       agent_settings := default_AgentSettings;
       processing_rules := default_ProcessingRules;
       version := "1.0.0";
       last_updated := "";
       created_by := "system_default" |} w.

Definition save_configuration (m : manager) (w : world)
  : manager * bool * world :=
  let '(t, w1) := now w in
  let c := with_last_updated (config m) t in
  ({| config_file := config_file m; config := c |}, true,
   write w1 (config_file m) (asdict c)).

Definition export_configuration (m : manager) (export_file : string)
    (w : world) : bool * world :=
  (true, write w export_file (asdict (config m))).

Definition load_defaults (m : manager) (w : world) : manager * world :=
  let '(c, w1) := create_default_configuration w in
  let '(m', _, w2) :=
    save_configuration {| config_file := config_file m; config := c |} w1 in
  (m', w2).

(** [load_configuration]: [None] only for a document outside the typed
    records *)
Definition load_configuration (m : manager) (w : world)
  : option (manager * world) :=
  match read w (config_file m) with
  | Some doc =>
      match make_SystemConfiguration doc with
      | Value c =>
          let '(c', w') := post_init c w in
          Some ({| config_file := config_file m; config := c' |}, w')
      | Throws => Some (load_defaults m w)
      | Untyped => None
      end
  | None => Some (load_defaults m w)
  end.

Definition import_configuration (m : manager) (import_file : string)
    (w : world) : option (manager * bool * world) :=
  if negb (exists_ w import_file) then Some (m, false, w)
  else
    let '(_, w1) :=
      export_configuration m (config_file m ++ ".backup") w in
    let backup_file := config_file m in
    match load_configuration
            {| config_file := import_file; config := config m |} w1 with
    | Some (m2, w2) =>
        Some (save_configuration
                {| config_file := backup_file; config := config m2 |} w2)
    | None => None
    end.

(** *** Validation *)

(** the warning [Priority weights sum to S, consider normalizing to 1.0],
    kept with the sum it prints *)
Inductive warning :=
| WeightsSum (weights_sum : Q).

Record validation := {
  valid : bool;
  issues : list string;
  warnings : list warning
}.

(** [not (0.0 <= v <= 1.0)] *)
Definition out_of_unit (v : Q) : bool :=
  negb (Qle_bool 0 v && Qle_bool v 1).

Definition threshold_attrs (ct : ClassificationThresholds)
  : list (string * Q) :=
  [ ("bug_threshold", bug_threshold ct);
    ("feature_threshold", feature_threshold ct);
    ("praise_threshold", praise_threshold ct);
    ("complaint_threshold", complaint_threshold ct);
    ("spam_threshold", spam_threshold ct) ].

Definition weights_sum_of (pw : PriorityWeights) : Q :=
  (bug_severity_weight pw + user_impact_weight pw
   + technical_complexity_weight pw + business_priority_weight pw)%Q.

Definition validate_configuration (c : SystemConfiguration) : validation :=
  let ct := classification_thresholds c in
  let issues1 :=
    if out_of_unit (minimum_confidence ct)
    then ["Minimum confidence must be between 0.0 and 1.0"] else [] in
  let issues2 :=
    flat_map (fun av =>
      if out_of_unit (snd av)
      then [fst av ++ " must be between 0.0 and 1.0"] else [])
      (threshold_attrs ct) in
  let weights_sum := weights_sum_of (priority_weights c) in
  let warnings :=
    if Qgtb (Qabs (weights_sum - 1)) (1 # 10)
    then [WeightsSum weights_sum] else [] in
  let qt := quality_thresholds c in
  let issues3 :=
    if Qgeb (reject_threshold qt) (manual_review_threshold qt)
    then ["Reject threshold must be lower than manual review threshold"]
    else [] in
  let issues4 :=
    if Qgeb (manual_review_threshold qt) (auto_approve_threshold qt)
    then ["Manual review threshold must be lower than auto-approve threshold"]
    else [] in
  let issues := (issues1 ++ issues2 ++ issues3 ++ issues4)%list in
  {| valid := (List.length issues =? 0)%nat;
     issues := issues;
     warnings := warnings |}.

(** *** Back to the defaults *)

Definition reset_to_defaults (m : manager) (w : world)
  : manager * bool * world :=
  let '(c, w1) := create_default_configuration w in
  save_configuration {| config_file := config_file m; config := c |} w1.

(** *** Updating a section ([update_*])

    Each of the five functions walks its keyword arguments in the order
    of the call, sets the attributes the section has, coercing the value,
    and saves; an exception on the way is caught, nothing is saved, and
    what was set before it stays set. *)

(** [float(v)]; a text would be parsed, which is not modelled *)
Definition py_float (v : Py.pyval) : built Q :=
  match v with
  | Py.VFloat q => Value q
  | Py.VInt z => Value (inject_Z z)
  | Py.VBool b => Value (if b then 1%Q else 0%Q)
  | Py.VNone => Throws
  | Py.VStr _ => Untyped
  end.

(** [int(v)]: a float is cut toward zero *)
Definition py_int (v : Py.pyval) : built Z :=
  match v with
  | Py.VInt z => Value z
  | Py.VFloat q => Value (Z.quot (Qnum q) (Zpos (Qden q)))
  | Py.VBool b => Value (if b then 1 else 0)
  | Py.VNone => Throws
  | Py.VStr _ => Untyped
  end.

(** [s.endswith(suffix)] *)
Fixpoint endswith (s suffix : string) : bool :=
  String.eqb s suffix ||
  match s with
  | EmptyString => false
  | String _ t => endswith t suffix
  end.

(** [hasattr(obj, key)] for an instance of a dataclass with these
    fields.  Its other attributes (methods and special attributes) all
    start with an underscore; setting one of them is outside the model. *)
Definition hasattr (fields : list string) (key : string) : built bool :=
  if existsb (String.eqb key) fields then Value true
  else if String.prefix "_" key then Untyped
  else Value false.

(** [setattr(section, key, v)] for a field [key] *)
Definition setattr_ClassificationThresholds (c : ClassificationThresholds)
    (key : string) (v : Q) : ClassificationThresholds :=
  {| bug_threshold :=
       if String.eqb key "bug_threshold" then v else bug_threshold c;
     feature_threshold :=
       if String.eqb key "feature_threshold" then v
       else feature_threshold c;
     praise_threshold :=
       if String.eqb key "praise_threshold" then v else praise_threshold c;
     complaint_threshold :=
       if String.eqb key "complaint_threshold" then v
       else complaint_threshold c;
     spam_threshold :=
       if String.eqb key "spam_threshold" then v else spam_threshold c;
     minimum_confidence :=
       if String.eqb key "minimum_confidence" then v
       else minimum_confidence c |}.

Definition setattr_PriorityWeights (p : PriorityWeights)
    (key : string) (v : Q) : PriorityWeights :=
  {| bug_severity_weight :=
       if String.eqb key "bug_severity_weight" then v
       else bug_severity_weight p;
     user_impact_weight :=
       if String.eqb key "user_impact_weight" then v
       else user_impact_weight p;
     technical_complexity_weight :=
       if String.eqb key "technical_complexity_weight" then v
       else technical_complexity_weight p;
     business_priority_weight :=
       if String.eqb key "business_priority_weight" then v
       else business_priority_weight p;
     bug_priority_mapping := bug_priority_mapping p;
     feature_priority_mapping := feature_priority_mapping p |}.

Definition setattr_QualityThresholds (q : QualityThresholds)
    (key : string) (v : Q) : QualityThresholds :=
  {| minimum_quality_score :=
       if String.eqb key "minimum_quality_score" then v
       else minimum_quality_score q;
     auto_approve_threshold :=
       if String.eqb key "auto_approve_threshold" then v
       else auto_approve_threshold q;
     manual_review_threshold :=
       if String.eqb key "manual_review_threshold" then v
       else manual_review_threshold q;
     reject_threshold :=
       if String.eqb key "reject_threshold" then v
       else reject_threshold q |}.

(** the attributes of [AgentSettings] that hold an [int], and those that
    hold a [bool] *)
Definition setattr_AgentSettings_int (a : AgentSettings)
    (key : string) (v : Z) : AgentSettings :=
  {| enable_bug_analysis := enable_bug_analysis a;
     enable_feature_extraction := enable_feature_extraction a;
     enable_quality_review := enable_quality_review a;
     enable_technical_extraction := enable_technical_extraction a;
     classification_timeout :=
       if String.eqb key "classification_timeout" then v
       else classification_timeout a;
     bug_analysis_timeout :=
       if String.eqb key "bug_analysis_timeout" then v
       else bug_analysis_timeout a;
     feature_extraction_timeout :=
       if String.eqb key "feature_extraction_timeout" then v
       else feature_extraction_timeout a;
     quality_review_timeout :=
       if String.eqb key "quality_review_timeout" then v
       else quality_review_timeout a |}.

Definition setattr_AgentSettings_bool (a : AgentSettings)
    (key : string) (v : bool) : AgentSettings :=
  {| enable_bug_analysis :=
       if String.eqb key "enable_bug_analysis" then v
       else enable_bug_analysis a;
     enable_feature_extraction :=
       if String.eqb key "enable_feature_extraction" then v
       else enable_feature_extraction a;
     enable_quality_review :=
       if String.eqb key "enable_quality_review" then v
       else enable_quality_review a;
     enable_technical_extraction :=
       if String.eqb key "enable_technical_extraction" then v
       else enable_technical_extraction a;
     classification_timeout := classification_timeout a;
     bug_analysis_timeout := bug_analysis_timeout a;
     feature_extraction_timeout := feature_extraction_timeout a;
     quality_review_timeout := quality_review_timeout a |}.

Definition setattr_ProcessingRules_int (r : ProcessingRules)
    (key : string) (v : Z) : ProcessingRules :=
  {| skip_low_confidence_items := skip_low_confidence_items r;
     auto_categorize_spam := auto_categorize_spam r;
     require_manual_review_for_critical :=
       require_manual_review_for_critical r;
     batch_size := if String.eqb key "batch_size" then v else batch_size r;
     max_retries :=
       if String.eqb key "max_retries" then v else max_retries r |}.

Definition setattr_ProcessingRules_bool (r : ProcessingRules)
    (key : string) (v : bool) : ProcessingRules :=
  {| skip_low_confidence_items :=
       if String.eqb key "skip_low_confidence_items" then v
       else skip_low_confidence_items r;
     auto_categorize_spam :=
       if String.eqb key "auto_categorize_spam" then v
       else auto_categorize_spam r;
     require_manual_review_for_critical :=
       if String.eqb key "require_manual_review_for_critical" then v
       else require_manual_review_for_critical r;
     batch_size := batch_size r;
     max_retries := max_retries r |}.

(** the body of the loop of each function, for one keyword *)
Definition set_classification_threshold (c : ClassificationThresholds)
    (key : string) (value : Py.pyval) : built ClassificationThresholds :=
  h <~ hasattr ["bug_threshold"; "feature_threshold"; "praise_threshold";
                "complaint_threshold"; "spam_threshold";
                "minimum_confidence"] key ;;
  if h : bool then
    v <~ py_float value ;; Value (setattr_ClassificationThresholds c key v)
  else Value c.

Definition set_priority_weight (p : PriorityWeights)
    (key : string) (value : Py.pyval) : built PriorityWeights :=
  h <~ hasattr ["bug_severity_weight"; "user_impact_weight";
                "technical_complexity_weight"; "business_priority_weight";
                "bug_priority_mapping"; "feature_priority_mapping"] key ;;
  if (h : bool) && negb (endswith key "_mapping") then
    v <~ py_float value ;; Value (setattr_PriorityWeights p key v)
  else Value p.

Definition set_quality_threshold (q : QualityThresholds)
    (key : string) (value : Py.pyval) : built QualityThresholds :=
  h <~ hasattr ["minimum_quality_score"; "auto_approve_threshold";
                "manual_review_threshold"; "reject_threshold"] key ;;
  if h : bool then
    v <~ py_float value ;; Value (setattr_QualityThresholds q key v)
  else Value q.

Definition set_agent_setting (a : AgentSettings)
    (key : string) (value : Py.pyval) : built AgentSettings :=
  h <~ hasattr ["enable_bug_analysis"; "enable_feature_extraction";
                "enable_quality_review"; "enable_technical_extraction";
                "classification_timeout"; "bug_analysis_timeout";
                "feature_extraction_timeout"; "quality_review_timeout"]
         key ;;
  if h : bool then
    if endswith key "_timeout" then
      v <~ py_int value ;; Value (setattr_AgentSettings_int a key v)
    else Value (setattr_AgentSettings_bool a key (Py.truthy value))
  else Value a.

Definition set_processing_rule (r : ProcessingRules)
    (key : string) (value : Py.pyval) : built ProcessingRules :=
  h <~ hasattr ["skip_low_confidence_items"; "auto_categorize_spam";
                "require_manual_review_for_critical"; "batch_size";
                "max_retries"] key ;;
  if h : bool then
    if existsb (String.eqb key) ["batch_size"; "max_retries"] then
      v <~ py_int value ;; Value (setattr_ProcessingRules_int r key v)
    else Value (setattr_ProcessingRules_bool r key (Py.truthy value))
  else Value r.

(** how the loop over [kwargs.items()] ends *)
Inductive outcome (S : Type) :=
| Done (s : S)
| Caught (s : S)
| Unmodelled.
Arguments Done {S} s.
Arguments Caught {S} s.
Arguments Unmodelled {S}.

(** the loop: [Caught s] when a keyword raised, with the section as the
    keywords before it left it *)
Fixpoint update_loop {S : Type}
    (set : S -> string -> Py.pyval -> built S)
    (kwargs : PyDict.dict Py.pyval) (s : S) : outcome S :=
  match kwargs with
  | [] => Done s
  | (key, value) :: rest =>
      match set s key value with
      | Value s' => update_loop set rest s'
      | Throws => Caught s
      | Untyped => Unmodelled
      end
  end.

Definition with_classification_thresholds (c : SystemConfiguration)
    (x : ClassificationThresholds) : SystemConfiguration :=
  {| classification_thresholds := x;
     priority_weights := priority_weights c;
     quality_thresholds := quality_thresholds c;
     agent_settings := agent_settings c;
     processing_rules := processing_rules c;
     version := version c;
     last_updated := last_updated c;
     created_by := created_by c |}.

Definition with_quality_thresholds (c : SystemConfiguration)
    (x : QualityThresholds) : SystemConfiguration :=
  {| classification_thresholds := classification_thresholds c;
     priority_weights := priority_weights c;
     quality_thresholds := x;
     agent_settings := agent_settings c;
     processing_rules := processing_rules c;
     version := version c;
     last_updated := last_updated c;
     created_by := created_by c |}.

Definition with_agent_settings (c : SystemConfiguration)
    (x : AgentSettings) : SystemConfiguration :=
  {| classification_thresholds := classification_thresholds c;
     priority_weights := priority_weights c;
     quality_thresholds := quality_thresholds c;
     agent_settings := x;
     processing_rules := processing_rules c;
     version := version c;
     last_updated := last_updated c;
     created_by := created_by c |}.

Definition with_processing_rules (c : SystemConfiguration)
    (x : ProcessingRules) : SystemConfiguration :=
  {| classification_thresholds := classification_thresholds c;
     priority_weights := priority_weights c;
     quality_thresholds := quality_thresholds c;
     agent_settings := agent_settings c;
     processing_rules := x;
     version := version c;
     last_updated := last_updated c;
     created_by := created_by c |}.

(** the shape the five functions share: the loop on one section, then
    [save_configuration], or [False] when an exception was caught.  A call
    with a keyword named [self] is refused before the body runs; that and
    an [Unmodelled] loop give [None]. *)
Definition update_section {S : Type} (m : manager)
    (get : SystemConfiguration -> S)
    (put : SystemConfiguration -> S -> SystemConfiguration)
    (set : S -> string -> Py.pyval -> built S)
    (kwargs : PyDict.dict Py.pyval) (w : world)
  : option (manager * bool * world) :=
  if Py.has_key kwargs "self" then None
  else
    match update_loop set kwargs (get (config m)) with
    | Done s =>
        Some (save_configuration
                {| config_file := config_file m;
                   config := put (config m) s |} w)
    | Caught s =>
        Some ({| config_file := config_file m;
                 config := put (config m) s |}, false, w)
    | Unmodelled => None
    end.

Definition update_classification_thresholds (m : manager)
    (kwargs : PyDict.dict Py.pyval) (w : world)
  : option (manager * bool * world) :=
  update_section m classification_thresholds with_classification_thresholds
    set_classification_threshold kwargs w.

Definition update_priority_weights (m : manager)
    (kwargs : PyDict.dict Py.pyval) (w : world)
  : option (manager * bool * world) :=
  update_section m priority_weights with_priority_weights
    set_priority_weight kwargs w.

Definition update_quality_thresholds (m : manager)
    (kwargs : PyDict.dict Py.pyval) (w : world)
  : option (manager * bool * world) :=
  update_section m quality_thresholds with_quality_thresholds
    set_quality_threshold kwargs w.

Definition update_agent_settings (m : manager)
    (kwargs : PyDict.dict Py.pyval) (w : world)
  : option (manager * bool * world) :=
  update_section m agent_settings with_agent_settings
    set_agent_setting kwargs w.

Definition update_processing_rules (m : manager)
    (kwargs : PyDict.dict Py.pyval) (w : world)
  : option (manager * bool * world) :=
  update_section m processing_rules with_processing_rules
    set_processing_rule kwargs w.

End ConfigurationManager.

(** ** The classifier as the specification words it

  Five keyword sets in a fixed order, one point for every keyword that is
  present, the first category of maximal score, and the threshold gate. *)

Module ClassifierSpec.

Definition categories : list string :=
  ["Bug"; "Feature Request"; "Praise"; "Complaint"; "Spam"].

Definition keywords_of (cat : string) : list string :=
  if String.eqb cat "Bug" then ClassificationTool.bug_keywords
  else if String.eqb cat "Feature Request"
  then ClassificationTool.feature_keywords
  else if String.eqb cat "Praise" then ClassificationTool.praise_keywords
  else if String.eqb cat "Complaint"
  then ClassificationTool.complaint_keywords
  else if String.eqb cat "Spam" then ClassificationTool.spam_keywords
  else [].

(** the number of keywords of [cat] that occur in the lower-cased text *)
Definition score (text cat : string) : Z :=
  Z.of_nat (List.length
    (filter (fun k => PyStr.contains k (PyStr.lower text))
            (keywords_of cat))).

Definition total (text : string) : Z :=
  fold_right Z.add 0 (map (score text) categories).

(** [w] is the arg-max with ties broken by the fixed order: every
    category before it scores strictly less, none after it scores more *)
Definition wins (text w : string) : Prop :=
  exists before after,
    categories = (before ++ w :: after)%list /\
    (forall c, In c before -> score text c < score text w) /\
    (forall c, In c after -> score text c <= score text w).

Definition raw_confidence (text w : string) : Q :=
  inject_Z (score text w) / inject_Z (Z.max 1 (total text)).

(** the threshold configured for a winning category *)
Definition threshold
    (ct : ConfigTypes.ClassificationThresholds) (w : string) : Q :=
  if String.eqb w "Bug" then ConfigTypes.bug_threshold ct
  else if String.eqb w "Feature Request"
  then ConfigTypes.feature_threshold ct
  else if String.eqb w "Praise" then ConfigTypes.praise_threshold ct
  else if String.eqb w "Complaint"
  then ConfigTypes.complaint_threshold ct
  else ConfigTypes.spam_threshold ct.

End ClassifierSpec.

(** ** The priority cascade as the specification words it

    First match wins: a critical keyword, else a bug with a high keyword,
    else a feature request or a complaint, else low. *)

Module PrioritySpec.

(** some keyword of the list occurs in the lower-cased text *)
Definition mentions (keywords : list string) (text : string) : Prop :=
  exists k, In k keywords /\ PyStr.contains k (PyStr.lower text) = true.

Definition critical : list string :=
  ["urgent"; "critical"; "data loss"; "cannot login"; "crashed";
   "lost all"; "business"; "important"].

Definition high : list string :=
  ["crash"; "error"; "bug"; "broken"; "not working"; "issue"].

Inductive first_match (text category : string) : string -> Prop :=
| rule_critical :
    mentions critical text ->
    first_match text category "Critical"
| rule_high :
    ~ mentions critical text ->
    category = "Bug" -> mentions high text ->
    first_match text category "High"
| rule_medium :
    ~ mentions critical text ->
    ~ (category = "Bug" /\ mentions high text) ->
    category = "Feature Request" \/ category = "Complaint" ->
    first_match text category "Medium"
| rule_low :
    ~ mentions critical text ->
    ~ (category = "Bug" /\ mentions high text) ->
    category <> "Feature Request" -> category <> "Complaint" ->
    first_match text category "Low".

End PrioritySpec.

(** ** The severity rule of the bug analyzer as the specification words it *)

Module BugSpec.

Inductive severity (text : string) : string -> Prop :=
| severity_high :
    PrioritySpec.mentions
      ["crash"; "data loss"; "cannot"; "critical"; "urgent"] text ->
    severity text "High"
| severity_medium :
    ~ PrioritySpec.mentions
        ["crash"; "data loss"; "cannot"; "critical"; "urgent"] text ->
    PrioritySpec.mentions ["error"; "issue"; "problem"; "broken"] text ->
    severity text "Medium"
| severity_low :
    ~ PrioritySpec.mentions
        ["crash"; "data loss"; "cannot"; "critical"; "urgent"] text ->
    ~ PrioritySpec.mentions ["error"; "issue"; "problem"; "broken"] text ->
    severity text "Low".

(** the text speaks of steps or of reproducing *)
Definition has_reproduction (text : string) : Prop :=
  PyStr.contains "steps" (PyStr.lower text) = true \/
  PyStr.contains "reproduce" (PyStr.lower text) = true.

End BugSpec.

(** ** Ticket records the quality reviewer can read

    The reviewer indexes [ticket_id], takes the length of the description
    and compares the confidence with 50: the identifier is present, the
    description is a string or missing, the confidence is a number or
    missing.  The other fields may hold anything or be missing. *)

Module QualitySpec.

Definition text_or_missing (v : option Py.pyval) : bool :=
  match v with
  | None | Some (Py.VStr _) => true
  | Some _ => false
  end.

Definition number_or_missing (v : option Py.pyval) : bool :=
  match v with
  | None | Some (Py.VInt _) | Some (Py.VFloat _) | Some (Py.VBool _) => true
  | Some _ => false
  end.

Definition readable (ticket_data : PyDict.dict Py.pyval) : bool :=
  Py.has_key ticket_data "ticket_id"
  && text_or_missing (PyDict.get ticket_data "description")
  && number_or_missing (PyDict.get ticket_data "confidence_score").

End QualitySpec.

(** ** The validation rules as the specification words them *)

Module ValidationSpec.
Import ConfigTypes.

Definition in_unit (v : Q) : Prop := (0 <= v /\ v <= 1)%Q.

(** every classification threshold, the global minimum included, lies in
    the unit interval *)
Definition thresholds_in_range (ct : ClassificationThresholds) : Prop :=
  in_unit (minimum_confidence ct) /\
  in_unit (bug_threshold ct) /\
  in_unit (feature_threshold ct) /\
  in_unit (praise_threshold ct) /\
  in_unit (complaint_threshold ct) /\
  in_unit (spam_threshold ct).




End ValidationSpec.

(** ** Batches of input records *)

Module BatchSpec.
Import Py ProcessingLogger.


(** a row that records a decision taken with success *)
Definition successful_decision (r : row) : bool :=
  match r with
  | Decision e => success_status e
  | SessionSummary _ _ => false
  end.

(** a row that records a decision about the item of this identifier *)
Definition concerns (sid : string) (r : row) : bool :=
  match r with
  | Decision e => String.eqb (py_str (source_id e)) sid
  | SessionSummary _ _ => false
  end.



End BatchSpec.

(** ** What the patterns of the extractor match

    The declarative reading of the pattern fragment: [matches r s cap rest
    cap'] holds when [r] can read a prefix of [s] leaving [rest], turning
    the capture [cap] into [cap']. *)

Module ReSpec.
Import Re.

(** every character of the string is in the class *)
Fixpoint all_in (p : ascii -> bool) (s : string) : bool :=
  match s with
  | EmptyString => true
  | String c t => p c && all_in p t
  end.

Fixpoint matches (r : regex) (s : string) (cap : option string)
    (rest : string) (cap' : option string) : Prop :=
  match r with
  | Lit c => s = String c rest /\ cap' = cap
  | Seq a b =>
      exists mid capm, matches a s cap mid capm /\ matches b mid capm rest cap'
  | Opt a => matches a s cap rest cap' \/ (rest = s /\ cap' = cap)
  | Star p => exists l, s = l ++ rest /\ all_in p l = true /\ cap' = cap
  | Plus p =>
      exists l, s = l ++ rest /\ l <> "" /\ all_in p l = true /\ cap' = cap
  | Group a =>
      exists cap0 x,
        matches a s cap rest cap0 /\ s = x ++ rest /\ cap' = Some x
  end.



End ReSpec.

(** ** Names for the parts of a ticket and of the log *)

Module TicketSpec.
Import Py ProcessingLogger.

Definition base_keys : list string :=
  ["ticket_id"; "source_id"; "source_type"; "category"; "priority";
   "title"; "description"; "technical_details"; "confidence_score";
   "status"].

Definition bug_keys : list string :=
  ["bug_severity"; "reproduction_steps"; "bug_priority"].

Definition feature_keys : list string :=
  ["feature_impact"; "feature_complexity"; "user_benefit"].

Definition quality_keys : list string :=
  ["quality_score"; "quality_issues"; "review_status"].

(** the agents in the order the per-item pipeline consults them *)
Definition stage_agents : list string :=
  ["Feedback Classifier Agent"; "Bug Analysis Agent";
   "Feature Extractor Agent"; "Priority Analyzer Agent";
   "Technical Details Agent"; "Ticket Creator Agent";
   "Quality Reviewer Agent"].

(** the agent of a decision row *)
Definition agent_of (r : row) : string :=
  match r with
  | Decision e => agent_name e
  | SessionSummary _ _ => ""
  end.




End TicketSpec.

(** ** Names for the settings the update functions can reach *)

Module UpdateSpec.

Definition threshold_settings : list string :=
  ["bug_threshold"; "feature_threshold"; "praise_threshold";
   "complaint_threshold"; "spam_threshold"; "minimum_confidence"].

Definition weight_settings : list string :=
  ["bug_severity_weight"; "user_impact_weight";
   "technical_complexity_weight"; "business_priority_weight";
   "bug_priority_mapping"; "feature_priority_mapping"].

Definition quality_settings : list string :=
  ["minimum_quality_score"; "auto_approve_threshold";
   "manual_review_threshold"; "reject_threshold"].

Definition switch_settings : list string :=
  ["enable_bug_analysis"; "enable_feature_extraction";
   "enable_quality_review"; "enable_technical_extraction"].

Definition timeout_settings : list string :=
  ["classification_timeout"; "bug_analysis_timeout";
   "feature_extraction_timeout"; "quality_review_timeout"].

Definition rule_settings : list string :=
  ["skip_low_confidence_items"; "auto_categorize_spam";
   "require_manual_review_for_critical"; "batch_size"; "max_retries"].

(** every field of the five sections *)
Definition settings : list string :=
  (threshold_settings ++ weight_settings ++ quality_settings
   ++ switch_settings ++ timeout_settings ++ rule_settings)%list.

(** a keyword that names nothing: no field of any section, no leading
    underscore, and not [self] *)
Definition names_nothing (key : string) : bool :=
  negb (String.eqb key "self")
  && negb (String.prefix "_" key)
  && negb (existsb (String.eqb key) settings).

(** the entry of a section, as [asdict] shows it *)
Definition entry (section : Json.json) (key : string) : option Json.json :=
  match section with
  | Json.JObj fields => PyDict.get fields key
  | _ => None
  end.


End UpdateSpec.

(** ** The statistics of a session ([ProcessingLogger.get_session_stats])

    The function reads the entries kept in memory, each written by
    [log_agent_decision]; an entry is kept here with the fields the
    function reads. *)

Module SessionStats.

Record entry := {
  session_id : string;
  agent_name : string;
  confidence_score : Q;
  processing_time_ms : Q;
  success_status : bool;
  timestamp : string
}.

(** a value of [agent_stats] *)
Record agent_stat := {
  count : Z;
  avg_confidence : Q;
  total_time : Q
}.

Record stats := {
  stats_session_id : string;
  total_operations : Z;
  successful_operations : Z;
  success_rate : Q;
  total_processing_time_ms : Q;
  agent_statistics : PyDict.dict agent_stat;
  stats_timestamp : option string
}.

(** the body of the loop over [session_entries] *)
Definition tally (agent_stats : PyDict.dict agent_stat) (e : entry)
  : PyDict.dict agent_stat :=
  let agent := agent_name e in
  let agent_stats :=
    if negb (Py.has_key agent_stats agent)
    then Py.set_item agent_stats agent
           {| count := 0; avg_confidence := 0; total_time := 0 |}
    else agent_stats in
  match PyDict.get agent_stats agent with
  | Some s =>
      Py.set_item agent_stats agent
        {| count := count s + 1;
           avg_confidence := (avg_confidence s + confidence_score e)%Q;
           total_time := (total_time s + processing_time_ms e)%Q |}
  | None => agent_stats
  end.

(** the loop that turns the sums of confidence into averages *)
Definition average (s : agent_stat) : agent_stat :=
  if 0 <? count s
  then {| count := count s;
          avg_confidence := (avg_confidence s / inject_Z (count s))%Q;
          total_time := total_time s |}
  else s.

(** [get_session_stats]; [None] is the empty dictionary returned for a
    session without entries *)
Definition get_session_stats (log_entries : list entry) (sid : string)
  : option stats :=
  let session_entries :=
    filter (fun e => String.eqb (session_id e) sid) log_entries in
  match session_entries with
  | [] => None
  | first :: _ =>
      let total_time :=
        fold_left (fun acc e => (acc + processing_time_ms e)%Q)
          session_entries 0%Q in
      let successful_operations :=
        fold_left (fun acc e => if success_status e then acc + 1 else acc)
          session_entries 0 in
      let agent_stats := fold_left tally session_entries [] in
      let agent_stats :=
        map (fun kv => (fst kv, average (snd kv))) agent_stats in
      let n := Z.of_nat (List.length session_entries) in
      Some {| stats_session_id := sid;
              total_operations := n;
              successful_operations := successful_operations;
              success_rate :=
                (inject_Z successful_operations / inject_Z n)%Q;
              total_processing_time_ms := total_time;
              agent_statistics := agent_stats;
              stats_timestamp := Some (timestamp first) |}
  end.

(** the entries of a session, and those of one agent among them *)
Definition of_session (log_entries : list entry) (sid : string)
  : list entry :=
  filter (fun e => String.eqb (session_id e) sid) log_entries.

Definition by_agent (entries : list entry) (agent : string) : list entry :=
  filter (fun e => String.eqb (agent_name e) agent) entries.

End SessionStats.

(** ** Names for what the statistics count *)

Module StatsSpec.
Import SessionStats.

(** the statistics of an agent after one more of its entries *)
Definition bumped (s : agent_stat) (e : entry) : agent_stat :=
  {| count := count s + 1;
     avg_confidence := (avg_confidence s + confidence_score e)%Q;
     total_time := (total_time s + processing_time_ms e)%Q |}.

(** the count listed for an agent, 0 when it is not listed *)
Definition cnt (d : PyDict.dict agent_stat) (a : string) : Z :=
  match PyDict.get d a with Some s => count s | None => 0 end.

(** the counts of all listed agents together *)
Definition sum_counts (d : PyDict.dict agent_stat) : Z :=
  fold_right Z.add 0 (map (fun kv => count (snd kv)) d).

End StatsSpec.

(** * Properties *)

(** ** Auxiliary facts *)

Lemma Qltb_lt (x y : Q) : Qltb x y = true <-> (x < y)%Q.
Proof.
  unfold Qltb. rewrite negb_true_iff.
  split; intro H.
  - apply Qnot_le_lt. intro L. apply Qle_bool_iff in L. congruence.
  - destruct (Qle_bool y x) eqn:E; [|reflexivity].
    apply Qle_bool_iff in E. exfalso. exact (Qlt_not_le _ _ H E).
Qed.

Lemma Qltb_ge (x y : Q) : Qltb x y = false <-> (y <= x)%Q.
Proof.
  unfold Qltb. rewrite negb_false_iff. apply Qle_bool_iff.
Qed.

Lemma count_in_filter (kws : list string) (text : string) :
  PyStr.count_in kws text =
  Z.of_nat (List.length (filter (fun k => PyStr.contains k text) kws)).
Proof.
  induction kws as [|k ks IH]; simpl; [reflexivity|].
  rewrite IH. destruct (PyStr.contains k text); simpl List.length; lia.
Qed.

(** Python's [max] returns the first element of maximal key. *)
Lemma py_max_from_first {A} (key : A -> Z) (rest : list A) :
  forall best,
    let m := ClassificationTool.py_max_from key best rest in
    exists before after,
      best :: rest = (before ++ m :: after)%list /\
      (forall y, In y before -> key y < key m) /\
      (forall y, In y after -> key y <= key m) /\
      key best <= key m.
Proof.
  induction rest as [|x r IH]; intro best; simpl.
  - exists [], []. simpl. split; [reflexivity|].
    split; [intros y []|]. split; [intros y []|]. lia.
  - destruct (Z.ltb_spec (key best) (key x)) as [Hlt|Hge].
    + destruct (IH x) as (pre & post & E & Hpre & Hpost & Hx).
      exists (best :: pre), post. simpl. rewrite E.
      split; [reflexivity|]. split; [|split; [exact Hpost | lia]].
      intros y [<-|Hy]; [lia | auto].
    + destruct (IH best) as (pre & post & E & Hpre & Hpost & Hb).
      destruct pre as [|b pre'].
      * simpl in E. injection E as Em Er.
        exists [], (x :: post). simpl. rewrite <- Em, <- Er.
        split; [reflexivity|]. split; [intros y []|].
        split; [|lia].
        intros y [<-|Hy]; [lia|].
        specialize (Hpost y). rewrite <- Em in Hpost.
        apply Hpost. rewrite <- Er. exact Hy.
      * simpl in E. injection E as Eb Er. subst b.
        exists (best :: x :: pre'), post. simpl.
        split; [do 2 f_equal; exact Er|]. split; [|split; [exact Hpost | exact Hb]].
        assert (Hbm : key best
                      < key (ClassificationTool.py_max_from key best r))
          by (apply Hpre; left; reflexivity).
        intros y [<-|[<-|Hy]].
        -- exact Hbm.
        -- lia.
        -- apply Hpre. right. exact Hy.
Qed.

(** the keys of the [scores] dictionary are the categories, in order *)
Lemma scores_keys (text : string) :
  PyDict.keys (ClassificationTool.scores_of text) = ClassifierSpec.categories.
Proof. reflexivity. Qed.

Lemma scores_of_spec (text : string) :
  ClassificationTool.scores_of text =
  map (fun c => (c, ClassifierSpec.score text c)) ClassifierSpec.categories.
Proof.
  unfold ClassificationTool.scores_of, ClassifierSpec.score.
  rewrite !count_in_filter. reflexivity.
Qed.

Lemma scores_lookup (text c : string) :
  In c ClassifierSpec.categories ->
  PyDict.get_or (ClassificationTool.scores_of text) c 0 =
  ClassifierSpec.score text c.
Proof.
  intro H. rewrite scores_of_spec.
  repeat (destruct H as [<-|H]; [reflexivity|]). destruct H.
Qed.

Lemma scores_total (text : string) :
  ClassificationTool.sum_values (ClassificationTool.scores_of text) =
  ClassifierSpec.total text.
Proof.
  rewrite scores_of_spec.
  unfold ClassificationTool.sum_values, ClassifierSpec.total,
    ClassifierSpec.categories, PyDict.values.
  cbn [map fold_left fold_right snd]. lia.
Qed.

Lemma threshold_lookup (ct : ConfigTypes.ClassificationThresholds)
    (c : string) :
  In c ClassifierSpec.categories ->
  ConfigTypes.get_classification_threshold ct c =
  ClassifierSpec.threshold ct c.
Proof.
  intro H.
  repeat (destruct H as [<-|H]; [reflexivity|]). destruct H.
Qed.

Lemma winner_wins (text : string) : ClassifierSpec.wins text (ClassificationTool.max_category (ClassificationTool.scores_of text)).
Proof.
  unfold ClassificationTool.max_category. rewrite scores_keys.
  unfold ClassifierSpec.categories at 1. cbn [ClassificationTool.py_max].
  set (key := fun k => PyDict.get_or (ClassificationTool.scores_of text) k 0).
  destruct (py_max_from_first key
              ["Feature Request"; "Praise"; "Complaint"; "Spam"] "Bug")
    as (pre & post & E & Hpre & Hpost & _).
  set (m := ClassificationTool.py_max_from key "Bug"
              ["Feature Request"; "Praise"; "Complaint"; "Spam"]) in *.
  assert (Hin : forall c, In c (pre ++ m :: post)%list ->
                          key c = ClassifierSpec.score text c).
  { intros c Hc. rewrite <- E in Hc. apply scores_lookup. exact Hc. }
  exists pre, post. split; [exact E|]. split.
  - intros c Hc.
    rewrite <- (Hin c), <- (Hin m).
    + apply Hpre. exact Hc.
    + apply in_or_app. right. left. reflexivity.
    + apply in_or_app. left. exact Hc.
  - intros c Hc.
    rewrite <- (Hin c), <- (Hin m).
    + apply Hpost. exact Hc.
    + apply in_or_app. right. left. reflexivity.
    + apply in_or_app. right. right. exact Hc.
Qed.

Lemma wins_in (text w : string) :
  ClassifierSpec.wins text w -> In w ClassifierSpec.categories.
Proof.
  intros (pre & post & E & _). rewrite E.
  apply in_or_app. right. left. reflexivity.
Qed.

Lemma winner_raw (text : string) :
  ClassificationTool.raw_confidence_of (ClassificationTool.scores_of text)
    (ClassificationTool.max_category (ClassificationTool.scores_of text)) =
  ClassifierSpec.raw_confidence text (ClassificationTool.max_category (ClassificationTool.scores_of text)).
Proof.
  unfold ClassificationTool.raw_confidence_of, ClassifierSpec.raw_confidence.
  rewrite scores_total, scores_lookup; [reflexivity|].
  apply wins_in with (text := text). apply winner_wins.
Qed.


(** ** Texts without any keyword *)

Lemma zero_scores (text : string) :
  (forall c, In c ClassifierSpec.categories -> ClassifierSpec.score text c = 0) ->
  ClassificationTool.scores_of text =
  [("Bug", 0); ("Feature Request", 0); ("Praise", 0); ("Complaint", 0);
   ("Spam", 0)].
Proof.
  intro H. rewrite scores_of_spec.
  unfold ClassifierSpec.categories. cbn [map].
  rewrite !H by (simpl; tauto). reflexivity.
Qed.

(** C2, as the code has it.  A text with all five scores zero is reported
    with confidence 0; its category is "Uncertain" when the bug threshold
    and the global minimum are both positive (they are 0.7 and 0.5 by
    default), and the tie-break category "Bug" otherwise. *)
Theorem zero_keywords_gate
    (ct : ConfigTypes.ClassificationThresholds) (text : string)
    (Hzero : forall c, In c ClassifierSpec.categories ->
                       ClassifierSpec.score text c = 0) :
  let r := ClassificationTool._run ct text in
  let positive :=
    (0 < ConfigTypes.bug_threshold ct)%Q /\
    (0 < ConfigTypes.minimum_confidence ct)%Q in
  ClassificationTool.confidence r = 0%Q /\
  (positive -> ClassificationTool.category r = "Uncertain") /\
  (~ positive -> ClassificationTool.category r = "Bug").
Proof.
  cbv zeta. unfold ClassificationTool._run.
  rewrite (zero_scores text Hzero).
  change (ClassificationTool.max_category
            [("Bug", 0); ("Feature Request", 0); ("Praise", 0);
             ("Complaint", 0); ("Spam", 0)]) with "Bug".
  change (ClassificationTool.raw_confidence_of
            [("Bug", 0); ("Feature Request", 0); ("Praise", 0);
             ("Complaint", 0); ("Spam", 0)] "Bug") with 0%Q.
  change (ConfigTypes.get_classification_threshold ct "Bug")
    with (ConfigTypes.bug_threshold ct).
  cbn [ClassificationTool.category ClassificationTool.confidence].
  destruct (Qltb 0 (ConfigTypes.bug_threshold ct)) eqn:E1;
    destruct (Qltb 0 (ConfigTypes.minimum_confidence ct)) eqn:E2;
    cbn [andb]; (split; [reflexivity|]); split; intro H;
    try reflexivity.
  - exfalso. apply H. split; apply Qltb_lt; assumption.
  - exfalso. destruct H as [_ H]. apply Qltb_lt in H. congruence.
  - exfalso. destruct H as [H _]. apply Qltb_lt in H. congruence.
  - exfalso. destruct H as [H _]. apply Qltb_lt in H. congruence.
Qed.

Lemma zero_keywords_gate_witness :
  ClassificationTool.confidence
    (ClassificationTool._run ConfigTypes.default_ClassificationThresholds
       "ok thanks") = 0%Q /\
  ClassificationTool.category
    (ClassificationTool._run ConfigTypes.default_ClassificationThresholds
       "ok thanks") = "Uncertain".
Proof.
  assert (Hzero : forall c, In c ClassifierSpec.categories ->
                            ClassifierSpec.score "ok thanks" c = 0).
  { intros c H.
    repeat (destruct H as [<-|H]; [vm_compute; reflexivity|]).
    destruct H. }
  destruct (zero_keywords_gate ConfigTypes.default_ClassificationThresholds
              "ok thanks" Hzero) as (Hc & Hu & _).
  split; [exact Hc|].
  apply Hu. split; reflexivity.
Defined.

(** The text "ok thanks" holds no keyword, and with the default thresholds
    the classifier answers "Uncertain", not "Bug". *)
Lemma zero_keywords_not_bug :
  (forall c, In c ClassifierSpec.categories ->
             ClassifierSpec.score "ok thanks" c = 0) /\
  ClassificationTool.category
    (ClassificationTool._run ConfigTypes.default_ClassificationThresholds
       "ok thanks") <> "Bug".
Proof.
  split.
  - intros c H.
    repeat (destruct H as [<-|H]; [vm_compute; reflexivity|]).
    destruct H.
  - vm_compute. discriminate.
Qed.

(** ** The priority cascade *)

Lemma any_in_mentions (keywords : list string) (text : string) :
  PyStr.any_in keywords (PyStr.lower text) = true <->
  PrioritySpec.mentions keywords text.
Proof.
  unfold PyStr.any_in, PrioritySpec.mentions. apply existsb_exists.
Qed.

Lemma any_in_not_mentions (keywords : list string) (text : string) :
  PyStr.any_in keywords (PyStr.lower text) = false <->
  ~ PrioritySpec.mentions keywords text.
Proof.
  rewrite <- any_in_mentions.
  destruct (PyStr.any_in keywords (PyStr.lower text)); split; intro H;
    congruence.
Qed.

Lemma priority_first_match (text category : string) :
  PrioritySpec.first_match text category (PriorityTool._run text category).
Proof.
  unfold PriorityTool._run.
  destruct (PyStr.any_in PriorityTool.critical_keywords (PyStr.lower text))
    eqn:Ec.
  - apply PrioritySpec.rule_critical. apply any_in_mentions. exact Ec.
  - apply any_in_not_mentions in Ec.
    destruct (String.eqb_spec category "Bug") as [Eb|Eb].
    + destruct (PyStr.any_in PriorityTool.high_keywords (PyStr.lower text))
        eqn:Eh; cbn [andb].
      * apply PrioritySpec.rule_high; auto. apply any_in_mentions. exact Eh.
      * apply any_in_not_mentions in Eh. subst category. cbn.
        apply PrioritySpec.rule_low; try discriminate; auto.
        intros [_ H]. exact (Eh H).
    + cbn [andb].
      destruct (String.eqb_spec category "Feature Request") as [Ef|Ef].
      * apply PrioritySpec.rule_medium; auto. intros [H _]. exact (Eb H).
      * destruct (String.eqb_spec category "Complaint") as [Ep|Ep].
        -- apply PrioritySpec.rule_medium; auto. intros [H _]. exact (Eb H).
        -- assert (L : (if existsb (String.eqb category) ["Praise"; "Spam"]
                        then "Low" else "Low") = "Low")
             by (destruct (existsb _ _); reflexivity).
           rewrite L.
           apply PrioritySpec.rule_low; auto. intros [H _]. exact (Eb H).
Qed.

Lemma first_match_functional (text category p q : string) :
  PrioritySpec.first_match text category p ->
  PrioritySpec.first_match text category q -> p = q.
Proof.
  intros Hp Hq.
  destruct Hp; destruct Hq; try reflexivity; try tauto;
    try (subst; intuition discriminate).
Qed.

(** C4. The priority scorer returns the first matching rule of the
    cascade: Critical on any critical keyword whatever the category, else
    High for a Bug with a high keyword, else Medium for a Feature Request
    or a Complaint, else Low; the cascade admits no other answer.  In
    particular a text containing "critical" is Critical for every
    category. *)
Theorem priority_cascade (text category : string) :
  PrioritySpec.first_match text category (PriorityTool._run text category) /\
  (forall p, PrioritySpec.first_match text category p ->
             p = PriorityTool._run text category) /\
  (PyStr.contains "critical" (PyStr.lower text) = true ->
   PriorityTool._run text category = "Critical").
Proof.
  split; [apply priority_first_match|]. split.
  - intros p Hp.
    exact (first_match_functional _ _ _ _ Hp
             (priority_first_match text category)).
  - intro Hc.
    apply (first_match_functional text category);
      [apply priority_first_match|].
    apply PrioritySpec.rule_critical.
    exists "critical". split; [simpl; tauto | exact Hc].
Qed.

(** ** The bug analyzer *)

(** C5. A category that is not "bug" up to case gets exactly the four
    not-applicable entries; a bug gets [is_bug] true, the severity of the
    keyword rule (High, else Medium, else Low), the priority of the
    priority scorer, the technical details of the extractor, and the
    reproduction marker exactly when "steps" or "reproduce" occurs. *)
Theorem bug_analyzer_gate (text category : string) :
  let r := FeedbackAnalysisSystem.execute_bug_analyzer_manually
             text category in
  (PyStr.lower category <> "bug" ->
   r = [ ("is_bug", Py.VBool false);
         ("technical_details", Py.VStr "N/A - not a bug report");
         ("severity", Py.VStr "N/A");
         ("priority", Py.VStr "N/A") ]) /\
  (PyStr.lower category = "bug" ->
   PyDict.keys r = ["is_bug"; "technical_details"; "severity"; "priority";
                    "reproduction_steps"] /\
   PyDict.get r "is_bug" = Some (Py.VBool true) /\
   PyDict.get r "technical_details"
     = Some (Py.VStr (TechnicalDetailsTool._run text)) /\
   PyDict.get r "priority"
     = Some (Py.VStr (PriorityTool._run text category)) /\
   (exists sev, PyDict.get r "severity" = Some (Py.VStr sev) /\
                BugSpec.severity text sev) /\
   (exists steps,
      PyDict.get r "reproduction_steps" = Some (Py.VStr steps) /\
      (BugSpec.has_reproduction text ->
       steps = "Contains reproduction steps") /\
      (~ BugSpec.has_reproduction text -> steps = "No steps provided"))).
Proof.
  cbv zeta. unfold FeedbackAnalysisSystem.execute_bug_analyzer_manually.
  destruct (String.eqb_spec (PyStr.lower category) "bug") as [E|E];
    cbn [negb]; split; intro H; try congruence; try reflexivity.
  cbn [PyDict.keys map fst PyDict.get String.eqb Ascii.eqb Bool.eqb].
  repeat (split; [reflexivity|]). split.
  - destruct (PyStr.any_in
                ["crash"; "data loss"; "cannot"; "critical"; "urgent"]
                (PyStr.lower text)) eqn:E1.
    + eexists. split; [reflexivity|].
      apply BugSpec.severity_high. apply any_in_mentions. exact E1.
    + apply any_in_not_mentions in E1.
      destruct (PyStr.any_in ["error"; "issue"; "problem"; "broken"]
                  (PyStr.lower text)) eqn:E2.
      * eexists. split; [reflexivity|].
        apply BugSpec.severity_medium; [exact E1|].
        apply any_in_mentions. exact E2.
      * apply any_in_not_mentions in E2.
        eexists. split; [reflexivity|].
        apply BugSpec.severity_low; assumption.
  - eexists. split; [reflexivity|].
    unfold BugSpec.has_reproduction.
    destruct (PyStr.contains "steps" (PyStr.lower text));
      destruct (PyStr.contains "reproduce" (PyStr.lower text));
      cbn [orb]; split; intro R; try reflexivity.
    + exfalso. apply R. left. reflexivity.
    + exfalso. apply R. left. reflexivity.
    + exfalso. apply R. right. reflexivity.
    + destruct R; discriminate.
Qed.

(** ** The quality reviewer *)

Lemma check_required_bounds (td : PyDict.dict Py.pyval)
    (fields : list string) :
  forall acc,
    fst acc - 20 * Z.of_nat (List.length fields)
      <= fst (FeedbackAnalysisSystem.check_required td fields acc)
      <= fst acc.
Proof.
  induction fields as [|f fs IH]; intro acc.
  - cbn [FeedbackAnalysisSystem.check_required List.length]. lia.
  - cbn [FeedbackAnalysisSystem.check_required].
    set (hit := match PyDict.get td f with
                | Some v => negb (Py.truthy v)
                | None => true
                end).
    destruct hit.
    + specialize (IH (fst acc - 20,
                      (snd acc ++ [("Missing " ++ f)%string])%list)).
      cbn [fst] in IH. cbn [List.length]. lia.
    + specialize (IH acc). cbn [List.length]. lia.
Qed.

(** C7, as the code has it.  For every ticket record the reviewer can
    read, the score lies between -5 and 100 (four missing fields, a short
    description and a low confidence take 105 points off 100, and nothing
    clamps the result), and the status is "approved" exactly when the score
    is at least 70 and "needs_review" otherwise; the cutoff is the fixed
    70, no configuration enters the reviewer. *)
Theorem quality_score_range (ticket_data : PyDict.dict Py.pyval)
    (Hok : QualitySpec.readable ticket_data = true) :
  exists q,
    FeedbackAnalysisSystem.execute_quality_reviewer_manually ticket_data
      = Py.Ok q /\
    -5 <= FeedbackAnalysisSystem.quality_score q <= 100 /\
    (FeedbackAnalysisSystem.status q = "approved" <->
     70 <= FeedbackAnalysisSystem.quality_score q) /\
    (FeedbackAnalysisSystem.status q = "needs_review" <->
     FeedbackAnalysisSystem.quality_score q < 70).
Proof.
  unfold QualitySpec.readable in Hok.
  apply andb_prop in Hok. destruct Hok as [Hok Hconf].
  apply andb_prop in Hok. destruct Hok as [Hid Hdesc].
  unfold FeedbackAnalysisSystem.execute_quality_reviewer_manually.
  unfold Py.getitem. unfold Py.has_key in Hid.
  destruct (PyDict.get ticket_data "ticket_id") as [tid|]; [|discriminate].
  pose proof (check_required_bounds ticket_data
                ["title"; "description"; "category"; "priority"] (100, []))
    as B.
  destruct (FeedbackAnalysisSystem.check_required ticket_data
              ["title"; "description"; "category"; "priority"] (100, []))
    as [s1 i1].
  cbn [fst List.length] in B.
  assert (Hlen : exists n,
            Py.len (PyDict.get_or ticket_data "description" (Py.VStr ""))
              = Py.Ok n).
  { unfold PyDict.get_or.
    destruct (PyDict.get ticket_data "description") as [[| | | |s]|];
      try discriminate; eexists; reflexivity. }
  destruct Hlen as [n ->].
  assert (Hlow : exists b,
            Py.lt_int
              (PyDict.get_or ticket_data "confidence_score" (Py.VInt 0)) 50
              = Py.Ok b).
  { unfold PyDict.get_or.
    destruct (PyDict.get ticket_data "confidence_score") as [[| | | |s]|];
      try discriminate; eexists; reflexivity. }
  destruct Hlow as [low ->].
  destruct (n <? 10); destruct low; eexists; (split; [reflexivity|]);
    cbn [FeedbackAnalysisSystem.quality_score FeedbackAnalysisSystem.status];
    (split; [lia|]);
    match goal with
    | |- context [70 <=? ?s] => destruct (Z.leb_spec 70 s)
    end;
    split; split; intro Hs; try reflexivity; try discriminate; lia.
Qed.

Lemma quality_score_range_witness :
  exists q,
    FeedbackAnalysisSystem.execute_quality_reviewer_manually
      [ ("ticket_id", Py.VStr "TICKET-R1");
        ("title", Py.VStr "Positive feedback received");
        ("description", Py.VStr "Great");
        ("category", Py.VStr "Praise");
        ("priority", Py.VStr "Low");
        ("confidence_score", Py.VFloat 100) ] = Py.Ok q /\
    -5 <= FeedbackAnalysisSystem.quality_score q <= 100 /\
    (FeedbackAnalysisSystem.status q = "approved" <->
     70 <= FeedbackAnalysisSystem.quality_score q) /\
    (FeedbackAnalysisSystem.status q = "needs_review" <->
     FeedbackAnalysisSystem.quality_score q < 70).
Proof.
  apply (quality_score_range
           [ ("ticket_id", Py.VStr "TICKET-R1");
             ("title", Py.VStr "Positive feedback received");
             ("description", Py.VStr "Great");
             ("category", Py.VStr "Praise");
             ("priority", Py.VStr "Low");
             ("confidence_score", Py.VFloat 100) ]).
  reflexivity.
Defined.

(** A ticket record that carries only its identifier is scored -5, below
    the range from 0 to 100. *)
Lemma quality_score_below_zero :
  exists q,
    FeedbackAnalysisSystem.execute_quality_reviewer_manually
      [ ("ticket_id", Py.VStr "TICKET-R1") ] = Py.Ok q /\
    FeedbackAnalysisSystem.quality_score q = -5 /\
    ~ (0 <= FeedbackAnalysisSystem.quality_score q <= 100).
Proof.
  eexists. split; [reflexivity|]. split; [reflexivity|].
  cbn. lia.
Qed.

(** ** Validation of a configuration *)



Lemma Qgeb_true (x y : Q) : Qgeb x y = true <-> (y <= x)%Q.
Proof. unfold Qgeb. apply Qle_bool_iff. Qed.







(** ** The per-item pipeline *)

Lemma get_set_item_same {V} (d : PyDict.dict V) (k : string) (v : V) :
  PyDict.get (Py.set_item d k v) k = Some v.
Proof.
  induction d as [|[k' v'] r IH]; cbn [Py.set_item PyDict.get].
  - rewrite String.eqb_refl. reflexivity.
  - destruct (String.eqb k' k) eqn:E; cbn [PyDict.get]; rewrite E;
      [reflexivity | exact IH].
Qed.

Lemma get_set_item_other {V} (d : PyDict.dict V) (k k' : string) (v : V) :
  String.eqb k k' = false ->
  PyDict.get (Py.set_item d k v) k' = PyDict.get d k'.
Proof.
  intro Hk.
  induction d as [|[k0 v0] r IH]; cbn [Py.set_item PyDict.get].
  - rewrite Hk. reflexivity.
  - destruct (String.eqb k0 k) eqn:E; cbn [PyDict.get].
    + apply String.eqb_eq in E. subst k0. rewrite Hk. reflexivity.
    + rewrite IH. reflexivity.
Qed.

(** a key that an update does not mention keeps its value *)
Lemma get_update_other {V} (e d : PyDict.dict V) (k : string) :
  forallb (fun kv => negb (String.eqb (fst kv) k)) e = true ->
  PyDict.get (Py.update d e) k = PyDict.get d k.
Proof.
  unfold Py.update. revert d.
  induction e as [|[k0 v0] r IH]; intros d H; cbn [fold_left].
  - reflexivity.
  - cbn [forallb fst] in H. apply andb_prop in H. destruct H as [H0 Hr].
    rewrite (IH _ Hr). cbn [fst snd].
    apply get_set_item_other. apply negb_true_iff. exact H0.
Qed.

Lemma nonempty_truthy (s : string) : s <> "" <-> PyStr.truthy s = true.
Proof.
  destruct s; cbn; split; intro H; congruence || reflexivity || discriminate.
Qed.

Lemma priority_nonempty (text category : string) :
  PriorityTool._run text category <> "".
Proof.
  unfold PriorityTool._run.
  repeat match goal with
         | |- context [if ?b then _ else _] => destruct b
         end; discriminate.
Qed.

Lemma title_nonempty (category text : string) :
  FeedbackAnalysisSystem._generate_title category text <> "".
Proof.
  unfold FeedbackAnalysisSystem._generate_title.
  repeat match goal with
         | |- context [if ?b then _ else _] => destruct b
         end; discriminate.
Qed.

Lemma category_nonempty (ct : ConfigTypes.ClassificationThresholds)
    (text : string) :
  ClassificationTool.category (ClassificationTool._run ct text) <> "".
Proof.
  unfold ClassificationTool._run. cbn [ClassificationTool.category].
  match goal with |- (if ?b then _ else _) <> _ => destruct b end;
    [discriminate|].
  pose proof (wins_in _ _ (winner_wins text)) as H.
  repeat (destruct H as [<-|H]; [discriminate|]). destruct H.
Qed.

(** the reviewer on a ticket whose identifier, title, category and
    priority are present and not empty *)
Lemma review_of_complete_ticket (td : PyDict.dict Py.pyval)
    (tid : Py.pyval) (title category priority description : string)
    (confidence : Q) :
  PyDict.get td "ticket_id" = Some tid ->
  PyDict.get td "title" = Some (Py.VStr title) -> title <> "" ->
  PyDict.get td "category" = Some (Py.VStr category) -> category <> "" ->
  PyDict.get td "priority" = Some (Py.VStr priority) -> priority <> "" ->
  PyDict.get td "description" = Some (Py.VStr description) ->
  PyDict.get td "confidence_score" = Some (Py.VFloat confidence) ->
  exists q,
    FeedbackAnalysisSystem.execute_quality_reviewer_manually td = Py.Ok q /\
    55 <= FeedbackAnalysisSystem.quality_score q <= 100 /\
    (forall i, In i (FeedbackAnalysisSystem.issues q) ->
       In i ["Missing description"; "Description too short";
             "Low confidence score"]) /\
    (FeedbackAnalysisSystem.status q = "approved" \/
     FeedbackAnalysisSystem.status q = "needs_review").
Proof.
  intros Hid Ht Ht' Hc Hc' Hp Hp' Hd Hq.
  apply nonempty_truthy in Ht', Hc', Hp'.
  unfold FeedbackAnalysisSystem.execute_quality_reviewer_manually,
    Py.getitem, PyDict.get_or.
  cbn [FeedbackAnalysisSystem.check_required].
  rewrite Hid, Ht, Hc, Hp, Hd, Hq.
  cbn [Py.truthy Py.len Py.lt_int]. rewrite Ht', Hc', Hp'.
  cbn [negb fst snd].
  destruct (PyStr.truthy description);
    destruct (Z.of_nat (String.length description) <? 10);
    destruct (Qltb confidence (inject_Z 50));
    cbn [negb fst snd app];
    eexists; (split; [reflexivity|]);
    cbn [FeedbackAnalysisSystem.quality_score FeedbackAnalysisSystem.issues
         FeedbackAnalysisSystem.status Z.sub Z.add Z.opp Z.pos_sub
         Pos.pred_double Z.succ_double Z.pred_double Z.double Z.leb
         Z.compare Pos.compare Pos.compare_cont];
    (split; [lia|]); (split; [cbn; tauto|]);
    try (left; reflexivity); try (right; reflexivity).
Qed.
(** the per-item pipeline on a text: the rows it logs and the ticket *)
Lemma pipeline_runs
    (ct : ConfigTypes.ClassificationThresholds)
    (source_id : Py.scalar) (source_type text : string) (index total : Z)
    (log : ProcessingLogger.log) :
  exists ticket rows tid title category priority score issues status,
    FeedbackAnalysisSystem._process_single_feedback_with_agents
      ct source_id source_type (Py.SStr text) index total log
      = ((log ++ rows)%list, Py.Ok ticket) /\
    forallb BatchSpec.successful_decision rows = true /\
    PyDict.get ticket "ticket_id" = Some (Py.VStr tid) /\ tid <> "" /\
    PyDict.get ticket "title" = Some (Py.VStr title) /\ title <> "" /\
    PyDict.get ticket "category" = Some (Py.VStr category) /\
    category <> "" /\
    PyDict.get ticket "priority" = Some (Py.VStr priority) /\
    priority <> "" /\
    PyDict.get ticket "status" = Some (Py.VStr "Open") /\
    PyDict.get ticket "quality_score" = Some (Py.VInt score) /\
    55 <= score <= 100 /\
    PyDict.get ticket "quality_issues"
      = Some (Py.VStr (Py.dumps_words issues)) /\
    (forall i, In i issues ->
       In i ["Missing description"; "Description too short";
             "Low confidence score"]) /\
    PyDict.get ticket "review_status" = Some (Py.VStr status) /\
    (status = "approved" \/ status = "needs_review").
Proof.
  unfold FeedbackAnalysisSystem._process_single_feedback_with_agents.
  set (category :=
         ClassificationTool.category (ClassificationTool._run ct text)).
  set (confidence :=
         ClassificationTool.confidence (ClassificationTool._run ct text)).
  set (priority := PriorityTool._run text category).
  set (technical := TechnicalDetailsTool._run text).
  set (title := FeedbackAnalysisSystem._generate_title category text).
  unfold FeedbackAnalysisSystem.execute_bug_analyzer_manually,
    FeedbackAnalysisSystem.execute_feature_extractor_manually.
  fold priority. fold technical.
  set (severity := if PyStr.any_in _ _ then "High" else _).
  set (steps := Py.VStr (if (_ || _)%bool then _ else _)).
  set (impact := if PyStr.any_in _ _ then "High" else _).
  set (complexity := if PyStr.any_in _ _ then "Low" else _).
  destruct (String.eqb (PyStr.lower category) "bug");
    destruct (String.eqb (PyStr.lower category) "feature request");
    cbn [negb];
    unfold FeedbackAnalysisSystem.bind, FeedbackAnalysisSystem.tell,
      FeedbackAnalysisSystem.lift, FeedbackAnalysisSystem.ret;
    cbn [Py.getitem PyDict.get String.eqb Ascii.eqb Bool.eqb Py.truthy];
    match goal with
    | |- context [FeedbackAnalysisSystem.execute_quality_reviewer_manually
                    ?td] =>
        destruct (review_of_complete_ticket td
                    (Py.VStr ("TICKET-" ++ Py.py_str source_id))
                    title category priority
                    (FeedbackAnalysisSystem.describe text) confidence)
          as (q & Hq & Hrange & Hiss & Hst);
          [ reflexivity
          | reflexivity | apply title_nonempty
          | reflexivity | apply category_nonempty
          | reflexivity | apply priority_nonempty
          | reflexivity | reflexivity
          | rewrite Hq ]
    end;
    unfold ProcessingLogger.log_agent_decision;
    rewrite <- !app_assoc; cbn [app];
    eexists; eexists; exists ("TICKET-" ++ Py.py_str source_id)%string;
    exists title, category, priority,
      (FeedbackAnalysisSystem.quality_score q),
      (FeedbackAnalysisSystem.issues q),
      (FeedbackAnalysisSystem.status q);
    (split; [reflexivity|]); (split; [reflexivity|]);
    (split; [reflexivity|]); (split; [discriminate|]);
    (split; [reflexivity|]); (split; [apply title_nonempty|]);
    (split; [reflexivity|]); (split; [apply category_nonempty|]);
    (split; [reflexivity|]); (split; [apply priority_nonempty|]);
    (split; [reflexivity|]);
    (split; [reflexivity|]); (split; [exact Hrange|]);
    (split; [reflexivity|]); (split; [exact Hiss|]);
    (split; [reflexivity | exact Hst]).
Qed.


(** C10. For every feedback text the per-item pipeline returns a ticket
    (it does not raise) whose identifier, title, category and priority are
    strings that are not empty and whose status is "Open"; the reviewer can
    then only deduct for the description or for a low confidence, so the
    quality score of the ticket lies between 55 and 100 and its review
    status is "approved" or "needs_review". *)
Theorem pipeline_ticket_complete
    (ct : ConfigTypes.ClassificationThresholds)
    (source_id : Py.scalar) (source_type text : string) (index total : Z)
    (log : ProcessingLogger.log) :
  exists ticket tid title category priority score issues status,
    snd (FeedbackAnalysisSystem._process_single_feedback_with_agents
           ct source_id source_type (Py.SStr text) index total log)
      = Py.Ok ticket /\
    PyDict.get ticket "ticket_id" = Some (Py.VStr tid) /\ tid <> "" /\
    PyDict.get ticket "title" = Some (Py.VStr title) /\ title <> "" /\
    PyDict.get ticket "category" = Some (Py.VStr category) /\
    category <> "" /\
    PyDict.get ticket "priority" = Some (Py.VStr priority) /\
    priority <> "" /\
    PyDict.get ticket "status" = Some (Py.VStr "Open") /\
    PyDict.get ticket "quality_score" = Some (Py.VInt score) /\
    55 <= score <= 100 /\
    PyDict.get ticket "quality_issues"
      = Some (Py.VStr (Py.dumps_words issues)) /\
    (forall i, In i issues ->
       In i ["Missing description"; "Description too short";
             "Low confidence score"]) /\
    PyDict.get ticket "review_status" = Some (Py.VStr status) /\
    (status = "approved" \/ status = "needs_review").
Proof.
  destruct (pipeline_runs ct source_id source_type text index total log)
    as (ticket & rows & tid & title & category & priority & score & issues
        & status & Hrun & _ & Hrest).
  exists ticket, tid, title, category, priority, score, issues, status.
  rewrite Hrun. split; [reflexivity | exact Hrest].
Qed.

(** An item whose text is empty still gets its ticket: with the default
    thresholds it is "Uncertain", of priority "Low", and scored 55. *)
Lemma empty_text_ticket :
  exists ticket,
    snd (FeedbackAnalysisSystem._process_single_feedback_with_agents
           ConfigTypes.default_ClassificationThresholds
           (Py.SStr "R1") "app_store_review" (Py.SStr "") 0 1 [])
      = Py.Ok ticket /\
    PyDict.get ticket "category" = Some (Py.VStr "Uncertain") /\
    PyDict.get ticket "priority" = Some (Py.VStr "Low") /\
    PyDict.get ticket "quality_score" = Some (Py.VInt 55) /\
    PyDict.get ticket "review_status" = Some (Py.VStr "needs_review").
Proof.
  eexists. split; [vm_compute; reflexivity|].
  repeat split; reflexivity.
Qed.

(** ** The hybrid batch loop *)








(** ** Export and import of the configuration *)

Lemma mapping_round_trip (m : PyDict.dict string) :
  ConfigurationManager.mapping_of_dict
    (map (fun kv => (fst kv, Json.JStr (snd kv))) m)
  = ConfigurationManager.Value m.
Proof.
  induction m as [|[k v] r IH]; cbn [map ConfigurationManager.mapping_of_dict
                                     fst snd]; [reflexivity|].
  rewrite IH. reflexivity.
Qed.

Lemma make_ClassificationThresholds_asdict
    (c : ConfigTypes.ClassificationThresholds) :
  ConfigurationManager.make_ClassificationThresholds
    (ConfigurationManager.asdict_ClassificationThresholds c)
  = ConfigurationManager.Value c.
Proof. destruct c. reflexivity. Qed.

Lemma make_PriorityWeights_asdict (p : ConfigTypes.PriorityWeights) :
  ConfigurationManager.make_PriorityWeights
    (ConfigurationManager.asdict_PriorityWeights p)
  = ConfigurationManager.Value p.
Proof.
  destruct p as [a b c e bm fm].
  unfold ConfigurationManager.make_PriorityWeights,
    ConfigurationManager.asdict_PriorityWeights,
    ConfigurationManager.dict_of_mapping.
  cbn [ConfigTypes.bug_severity_weight ConfigTypes.user_impact_weight
       ConfigTypes.technical_complexity_weight
       ConfigTypes.business_priority_weight
       ConfigTypes.bug_priority_mapping
       ConfigTypes.feature_priority_mapping].
  cbn [ConfigurationManager.kwargs ConfigurationManager.keywords_ok forallb
       existsb fst String.eqb Ascii.eqb Bool.eqb orb andb
       ConfigurationManager.andThen ConfigurationManager.float_field
       ConfigurationManager.mapping_field PyDict.get].
  rewrite !mapping_round_trip. reflexivity.
Qed.

Lemma make_QualityThresholds_asdict (q : ConfigTypes.QualityThresholds) :
  ConfigurationManager.make_QualityThresholds
    (ConfigurationManager.asdict_QualityThresholds q)
  = ConfigurationManager.Value q.
Proof. destruct q. reflexivity. Qed.

Lemma make_AgentSettings_asdict (a : ConfigTypes.AgentSettings) :
  ConfigurationManager.make_AgentSettings
    (ConfigurationManager.asdict_AgentSettings a)
  = ConfigurationManager.Value a.
Proof. destruct a. reflexivity. Qed.

Lemma make_ProcessingRules_asdict (r : ConfigTypes.ProcessingRules) :
  ConfigurationManager.make_ProcessingRules
    (ConfigurationManager.asdict_ProcessingRules r)
  = ConfigurationManager.Value r.
Proof. destruct r. reflexivity. Qed.

(** [load_configuration] builds from an exported document the
    configuration that was exported *)
Lemma make_SystemConfiguration_asdict (c : ConfigTypes.SystemConfiguration) :
  ConfigurationManager.make_SystemConfiguration
    (ConfigurationManager.asdict c)
  = ConfigurationManager.Value c.
Proof.
  destruct c as [ct pw qt ag pr v lu cb].
  unfold ConfigurationManager.make_SystemConfiguration,
    ConfigurationManager.asdict, ConfigurationManager.section,
    PyDict.get_or, ConfigurationManager.str_field.
  cbn [ConfigTypes.classification_thresholds ConfigTypes.priority_weights
       ConfigTypes.quality_thresholds ConfigTypes.agent_settings
       ConfigTypes.processing_rules ConfigTypes.version
       ConfigTypes.last_updated ConfigTypes.created_by
       PyDict.get String.eqb Ascii.eqb Bool.eqb].
  rewrite make_ClassificationThresholds_asdict, make_PriorityWeights_asdict,
    make_QualityThresholds_asdict, make_AgentSettings_asdict,
    make_ProcessingRules_asdict.
  reflexivity.
Qed.

(** the exported document with its time stamp left out does not depend on
    the time stamp *)
Lemma asdict_without_stamp (c : ConfigTypes.SystemConfiguration)
    (t : string) :
  Json.without "last_updated"
    (ConfigurationManager.asdict (ConfigTypes.with_last_updated c t))
  = Json.without "last_updated" (ConfigurationManager.asdict c).
Proof. reflexivity. Qed.

Lemma read_write_same (w : Json.world) (path : string) (doc : Json.json) :
  Json.read (Json.write w path doc) path = Some doc.
Proof. unfold Json.read, Json.write. cbn [Json.files]. apply get_set_item_same. Qed.

Lemma read_write (w : Json.world) (p p' : string) (doc : Json.json) :
  Json.read (Json.write w p doc) p'
  = if String.eqb p p' then Some doc else Json.read w p'.
Proof.
  destruct (String.eqb p p') eqn:E.
  - apply String.eqb_eq in E. subst p'. apply read_write_same.
  - unfold Json.read, Json.write. cbn [Json.files].
    apply get_set_item_other. exact E.
Qed.

(** C8. Export the configuration of a manager to a file, import that file,
    export again: the import succeeds, the manager holds the configuration
    it had with a new [last_updated] and nothing else changed, and the two
    exported documents are identical once [last_updated] is left out. *)
Theorem config_round_trip (m : ConfigurationManager.manager)
    (w : Json.world) (first second : string) :
  let w1 := snd (ConfigurationManager.export_configuration m first w) in
  exists m2 w2 stamp,
    ConfigurationManager.import_configuration m first w1
      = Some (m2, true, w2) /\
    ConfigurationManager.config m2
      = ConfigTypes.with_last_updated (ConfigurationManager.config m) stamp /\
    ConfigurationManager.config_file m2 = ConfigurationManager.config_file m /\
    let w3 := snd (ConfigurationManager.export_configuration m2 second w2) in
    Json.read w1 first
      = Some (ConfigurationManager.asdict (ConfigurationManager.config m)) /\
    Json.read w3 second
      = Some (ConfigurationManager.asdict (ConfigurationManager.config m2)) /\
    Json.without "last_updated"
      (ConfigurationManager.asdict (ConfigurationManager.config m2))
    = Json.without "last_updated"
        (ConfigurationManager.asdict (ConfigurationManager.config m)).
Proof.
  destruct m as [file c].
  cbv zeta. unfold ConfigurationManager.export_configuration. cbn [snd].
  unfold ConfigurationManager.import_configuration,
    ConfigurationManager.export_configuration, Json.exists_, Py.has_key.
  cbn [ConfigurationManager.config ConfigurationManager.config_file].
  fold (Json.read (Json.write w first (ConfigurationManager.asdict c)) first).
  rewrite read_write_same. cbn [negb].
  unfold ConfigurationManager.load_configuration.
  cbn [ConfigurationManager.config ConfigurationManager.config_file].
  assert (Hread :
    Json.read
      (Json.write (Json.write w first (ConfigurationManager.asdict c))
         (file ++ ".backup") (ConfigurationManager.asdict c)) first
    = Some (ConfigurationManager.asdict c)).
  { rewrite read_write. destruct (String.eqb (file ++ ".backup") first);
      [reflexivity | apply read_write_same]. }
  rewrite Hread, make_SystemConfiguration_asdict.
  unfold ConfigurationManager.post_init.
  destruct (PyStr.truthy (ConfigTypes.last_updated c)).
  - unfold ConfigurationManager.save_configuration.
    cbn [ConfigurationManager.config ConfigurationManager.config_file
         Json.now].
    eexists. eexists. eexists.
    split; [reflexivity|].
    cbn [ConfigurationManager.config ConfigurationManager.config_file].
    split; [reflexivity|]. split; [reflexivity|].
    split; [reflexivity|].
    split; [apply read_write_same | reflexivity].
  - unfold ConfigurationManager.save_configuration.
    cbn [ConfigurationManager.config ConfigurationManager.config_file
         Json.now].
    eexists. eexists. eexists.
    split; [reflexivity|].
    cbn [ConfigurationManager.config ConfigurationManager.config_file].
    split; [reflexivity|]. split; [reflexivity|].
    split; [reflexivity|].
    split; [apply read_write_same | reflexivity].
Qed.

(** ** The pattern matcher *)

Lemma append_assoc (a b c : string) : ((a ++ b) ++ c = a ++ (b ++ c))%string.
Proof. induction a as [|x a IH]; cbn; [reflexivity | rewrite IH; reflexivity]. Qed.

Lemma append_nil_r (a : string) : (a ++ "" = a)%string.
Proof. induction a as [|x a IH]; cbn; [reflexivity | rewrite IH; reflexivity]. Qed.

Lemma length_append (a b : string) :
  String.length (a ++ b) = (String.length a + String.length b)%nat.
Proof. induction a as [|x a IH]; cbn; [reflexivity | rewrite IH; reflexivity]. Qed.

Lemma take_length_append (a b : string) :
  PyStr.take (String.length a) (a ++ b) = a.
Proof. induction a as [|x a IH]; cbn; [destruct b; reflexivity | rewrite IH; reflexivity]. Qed.

Lemma consumed_append (x rest : string) : Re.consumed (x ++ rest) rest = x.
Proof.
  unfold Re.consumed. rewrite length_append.
  replace (String.length x + String.length rest - String.length rest)%nat
    with (String.length x) by lia.
  apply take_length_append.
Qed.

Lemma all_in_append (p : ascii -> bool) (a b : string) :
  ReSpec.all_in p (a ++ b) = ReSpec.all_in p a && ReSpec.all_in p b.
Proof.
  induction a as [|x a IH]; cbn; [reflexivity|].
  rewrite IH, andb_assoc. reflexivity.
Qed.

(** what a pattern reads is a prefix of its input *)
Lemma matches_prefix (r : Re.regex) :
  forall s cap rest cap',
    ReSpec.matches r s cap rest cap' -> exists x, s = (x ++ rest)%string.
Proof.
  induction r as [c|a IHa b IHb|a IHa|p|p|a IHa]; intros s cap rest cap' H;
    cbn [ReSpec.matches] in H.
  - destruct H as [-> _]. exists (String c ""). reflexivity.
  - destruct H as (mid & capm & Ha & Hb).
    destruct (IHa _ _ _ _ Ha) as [x ->].
    destruct (IHb _ _ _ _ Hb) as [y ->].
    exists (x ++ y)%string. rewrite append_assoc. reflexivity.
  - destruct H as [H|[-> _]]; [exact (IHa _ _ _ _ H)|].
    exists "". reflexivity.
  - destruct H as (l & -> & _). exists l. reflexivity.
  - destruct H as (l & -> & _). exists l. reflexivity.
  - destruct H as (cap0 & x & _ & -> & _). exists x. reflexivity.
Qed.

Lemma star_sound {R} (p : ascii -> bool) (s : string)
    (k : string -> option R) (x : R) :
  Re.star p s k = Some x ->
  exists l rest, s = (l ++ rest)%string /\ ReSpec.all_in p l = true /\
                 k rest = Some x.
Proof.
  induction s as [|c t IH]; cbn [Re.star]; intro H.
  - exists "", "". auto.
  - destruct (p c) eqn:Ep.
    + destruct (Re.star p t k) as [y|] eqn:Es.
      * injection H as ->. destruct (IH eq_refl) as (l & rest & -> & Hl & Hk).
        exists (String c l), rest. cbn. rewrite Ep, Hl. auto.
      * exists "", (String c t). auto.
    + exists "", (String c t). auto.
Qed.


(** whatever the matcher returns comes from a declarative match *)
Lemma go_sound {R} (r : Re.regex) :
  forall s cap (k : string -> option string -> option R) x,
    Re.go r s cap k = Some x ->
    exists rest cap',
      ReSpec.matches r s cap rest cap' /\ k rest cap' = Some x.
Proof.
  induction r as [c|a IHa b IHb|a IHa|p|p|a IHa]; intros s cap k x H;
    cbn [Re.go] in H; cbn [ReSpec.matches].
  - destruct s as [|c' t]; [discriminate|].
    destruct (Ascii.eqb_spec c c') as [->|]; [|discriminate].
    exists t, cap. auto.
  - destruct (IHa _ _ _ _ H) as (mid & capm & Ha & Hb).
    destruct (IHb _ _ _ _ Hb) as (rest & cap' & Hb' & Hk).
    exists rest, cap'. split; [|exact Hk]. exists mid, capm. auto.
  - destruct (Re.go a s cap k) as [y|] eqn:E.
    + injection H as ->.
      destruct (IHa _ _ _ _ E) as (rest & cap' & Ha & Hk).
      exists rest, cap'. auto.
    + exists s, cap. auto.
  - destruct (star_sound _ _ _ _ H) as (l & rest & -> & Hl & Hk).
    exists rest, cap. split; [|exact Hk]. exists l. auto.
  - destruct s as [|c t]; [discriminate|].
    destruct (p c) eqn:Ep; [|discriminate].
    destruct (star_sound _ _ _ _ H) as (l & rest & -> & Hl & Hk).
    exists rest, cap. split; [|exact Hk].
    exists (String c l). cbn. rewrite Ep, Hl.
    repeat split; auto. discriminate.
  - destruct (IHa _ _ _ _ H) as (rest & cap0 & Ha & Hk).
    destruct (matches_prefix _ _ _ _ _ Ha) as [y Hy].
    exists rest, (Some (Re.consumed s rest)). split; [|exact Hk].
    exists cap0, y. split; [exact Ha|]. split; [exact Hy|].
    rewrite Hy, consumed_append. reflexivity.
Qed.


Lemma append_cancel_r (x y rest : string) :
  (x ++ rest = y ++ rest)%string -> x = y.
Proof.
  intro H.
  assert (L : String.length x = String.length y).
  { apply (f_equal String.length) in H. rewrite !length_append in H. lia. }
  revert y H L.
  induction x as [|c x IH]; intros [|d y] H L; cbn in L; try discriminate.
  - reflexivity.
  - cbn in H. injection H as -> H. f_equal. apply IH; [exact H | lia].
Qed.

Lemma word_matches (w : string) (r : Re.regex) :
  forall s cap rest cap',
    ReSpec.matches (Re.word w r) s cap rest cap' <->
    exists t, s = (w ++ t)%string /\ ReSpec.matches r t cap rest cap'.
Proof.
  induction w as [|c w IH]; intros s cap rest cap'; cbn [Re.word append].
  - split; [intro H; exists s; auto | intros (t & -> & H); exact H].
  - cbn [ReSpec.matches]. split.
    + intros (mid & capm & [-> ->] & H).
      apply IH in H. destruct H as (t & -> & H). exists t. auto.
    + intros (t & -> & H). exists (w ++ t)%string, cap.
      split; [auto|]. apply IH. exists t. auto.
Qed.

(** [re.search] returns the match of the leftmost position that has one *)
Lemma search_sound (r : Re.regex) (s : string) (m : option string) :
  Re.search r s = Some m ->
  exists pre suf,
    s = (pre ++ suf)%string /\ Re.match_here r suf = Some m /\
    forall pre' suf',
      s = (pre' ++ suf')%string ->
      (String.length pre' < String.length pre)%nat ->
      Re.match_here r suf' = None.
Proof.
  induction s as [|c t IH]; cbn [Re.search].
  - destruct (Re.match_here r "") as [cap|] eqn:E; [|discriminate].
    intros [= <-]. exists "", "". split; [reflexivity|]. split; [exact E|].
    intros pre' suf' _ L. cbn in L. lia.
  - destruct (Re.match_here r (String c t)) as [cap|] eqn:E.
    + intros [= <-]. exists "", (String c t).
      split; [reflexivity|]. split; [exact E|].
      intros pre' suf' _ L. cbn in L. lia.
    + intro H. destruct (IH H) as (pre & suf & -> & Hm & Hleft).
      exists (String c pre), suf. split; [reflexivity|]. split; [exact Hm|].
      intros [|d pre'] suf' Hs L.
      * cbn in Hs. subst suf'. exact E.
      * cbn in Hs. injection Hs as -> Hs.
        apply (Hleft pre' suf' Hs). cbn in L. lia.
Qed.











(** versions with a dot have their entry; a fourth component is left out *)
Lemma dotted_versions_extracted :
  TechnicalDetailsTool._run "version 5.2.1" = "App Version: 5.2.1" /\
  TechnicalDetailsTool._run "version 5.2" = "App Version: 5.2" /\
  TechnicalDetailsTool._run "Version 5.2.1.4" = "App Version: 5.2.1" /\
  TechnicalDetailsTool._run
    "The app keeps crashing on my iPhone 14 Pro with iOS 17.1. Data loss occurred."
    = "Device: iphone; iOS: 17.1".
Proof. repeat split; vm_compute; reflexivity. Qed.

(** * Further properties of the tools *)

(** ** Case does not matter *)

Lemma lower_char_idempotent (c : ascii) :
  PyStr.lower_char (PyStr.lower_char c) = PyStr.lower_char c.
Proof.
  destruct c as [[] [] [] [] [] [] [] []]; reflexivity.
Qed.

Lemma lower_idempotent (s : string) : PyStr.lower (PyStr.lower s) = PyStr.lower s.
Proof.
  induction s as [|c s IH]; cbn [PyStr.lower]; [reflexivity|].
  rewrite lower_char_idempotent, IH. reflexivity.
Qed.

(** Every tool reads its text through [lower] only: two texts that agree
    up to case get the same classification, priority, technical details,
    title and bug and feature analyses. *)
Theorem tools_ignore_case
    (ct : ConfigTypes.ClassificationThresholds) (text text' category : string) :
  PyStr.lower text = PyStr.lower text' ->
  ClassificationTool._run ct text = ClassificationTool._run ct text' /\
  PriorityTool._run text category = PriorityTool._run text' category /\
  TechnicalDetailsTool._run text = TechnicalDetailsTool._run text' /\
  FeedbackAnalysisSystem._generate_title category text
    = FeedbackAnalysisSystem._generate_title category text' /\
  FeedbackAnalysisSystem.execute_bug_analyzer_manually text category
    = FeedbackAnalysisSystem.execute_bug_analyzer_manually text' category /\
  FeedbackAnalysisSystem.execute_feature_extractor_manually text category
    = FeedbackAnalysisSystem.execute_feature_extractor_manually text' category.
Proof.
  intro H.
  assert (Hp : PriorityTool._run text category
               = PriorityTool._run text' category)
    by (unfold PriorityTool._run; rewrite H; reflexivity).
  assert (Ht : TechnicalDetailsTool._run text = TechnicalDetailsTool._run text')
    by (unfold TechnicalDetailsTool._run, TechnicalDetailsTool.details_of;
        rewrite H; reflexivity).
  split.
  { unfold ClassificationTool._run, ClassificationTool.scores_of.
    rewrite H. reflexivity. }
  split; [exact Hp|]. split; [exact Ht|]. split.
  { unfold FeedbackAnalysisSystem._generate_title. rewrite H. reflexivity. }
  split.
  - unfold FeedbackAnalysisSystem.execute_bug_analyzer_manually.
    rewrite Hp, Ht, H. reflexivity.
  - unfold FeedbackAnalysisSystem.execute_feature_extractor_manually.
    rewrite Hp, H. reflexivity.
Qed.

Lemma tools_ignore_case_witness :
  ClassificationTool._run ConfigTypes.default_ClassificationThresholds
    "The APP Crashes"
  = ClassificationTool._run ConfigTypes.default_ClassificationThresholds
      "the app crashes".
Proof.
  apply (tools_ignore_case ConfigTypes.default_ClassificationThresholds
           "The APP Crashes" "the app crashes" "Bug").
  reflexivity.
Defined.

(** ** Bounds of the classifier *)

Lemma count_in_nonneg (kws : list string) (text : string) :
  0 <= PyStr.count_in kws text.
Proof.
  induction kws as [|k ks IH]; cbn [PyStr.count_in]; [lia|].
  destruct (PyStr.contains k text); lia.
Qed.

Lemma score_nonneg (text c : string) : 0 <= ClassifierSpec.score text c.
Proof. unfold ClassifierSpec.score. lia. Qed.

Lemma score_le_total (text c : string) :
  In c ClassifierSpec.categories ->
  ClassifierSpec.score text c <= ClassifierSpec.total text.
Proof.
  intro H. unfold ClassifierSpec.total, ClassifierSpec.categories.
  cbn [map fold_right].
  pose proof (score_nonneg text "Bug").
  pose proof (score_nonneg text "Feature Request").
  pose proof (score_nonneg text "Praise").
  pose proof (score_nonneg text "Complaint").
  pose proof (score_nonneg text "Spam").
  repeat (destruct H as [<-|H]; [lia|]). destruct H.
Qed.

Lemma raw_confidence_unit (text w : string) :
  In w ClassifierSpec.categories ->
  (0 <= ClassifierSpec.raw_confidence text w <= 1)%Q.
Proof.
  intro H. unfold ClassifierSpec.raw_confidence.
  pose proof (score_nonneg text w) as H0.
  pose proof (score_le_total text w H) as H1.
  assert (Hpos : (0 < inject_Z (Z.max 1 (ClassifierSpec.total text)))%Q).
  { change 0%Q with (inject_Z 0). rewrite <- Zlt_Qlt. lia. }
  split.
  - apply Qle_shift_div_l; [exact Hpos|].
    rewrite Qmult_0_l. change 0%Q with (inject_Z 0).
    rewrite <- Zle_Qle. exact H0.
  - apply Qle_shift_div_r; [exact Hpos|].
    rewrite Qmult_1_l. rewrite <- Zle_Qle. lia.
Qed.

(** what [_run] reports, in terms of the category picked before the gate *)
Lemma run_fields (ct : ConfigTypes.ClassificationThresholds) (text : string) :
  let w := ClassificationTool.max_category
             (ClassificationTool.scores_of text) in
  let raw := ClassifierSpec.raw_confidence text w in
  let r := ClassificationTool._run ct text in
  In w ClassifierSpec.categories /\
  ClassificationTool.meets_threshold r
    = Qgeb raw (ClassifierSpec.threshold ct w) /\
  ((ClassificationTool.category r = "Uncertain" /\
    ClassificationTool.confidence r = (raw * 50)%Q /\
    (raw < ClassifierSpec.threshold ct w)%Q /\
    (raw < ConfigTypes.minimum_confidence ct)%Q) \/
   (ClassificationTool.category r = w /\
    ClassificationTool.confidence r = (raw * 100)%Q /\
    ~ ((raw < ClassifierSpec.threshold ct w)%Q /\
       (raw < ConfigTypes.minimum_confidence ct)%Q))).
Proof.
  cbv zeta.
  pose proof (wins_in _ _ (winner_wins text)) as Hin.
  split; [exact Hin|].
  unfold ClassificationTool._run.
  cbn [ClassificationTool.category ClassificationTool.confidence
       ClassificationTool.meets_threshold].
  rewrite winner_raw, (threshold_lookup ct _ Hin).
  split; [reflexivity|].
  destruct (Qltb _ (ClassifierSpec.threshold ct _)) eqn:E1;
    destruct (Qltb _ (ConfigTypes.minimum_confidence ct)) eqn:E2;
    cbn [andb].
  - left. repeat split; try reflexivity; apply Qltb_lt; assumption.
  - right. repeat split. intros [_ H]. apply Qltb_lt in H. congruence.
  - right. repeat split. intros [H _]. apply Qltb_lt in H. congruence.
  - right. repeat split. intros [H _]. apply Qltb_lt in H. congruence.
Qed.

(** the classifier answers with one of the five categories or "Uncertain" *)
Lemma reported_category_known
    (ct : ConfigTypes.ClassificationThresholds) (text : string) :
  In (ClassificationTool.category (ClassificationTool._run ct text))
     ("Uncertain" :: ClassifierSpec.categories).
Proof.
  destruct (run_fields ct text) as (Hin & _ & [(Hc & _)|(Hc & _)]);
    rewrite Hc; [left; reflexivity | right; exact Hin].
Qed.

(** The reported confidence lies between 0 and 100 for every text and
    every configuration; an "Uncertain" answer reports at most 50; and an
    answer that meets its threshold is never "Uncertain". *)
Theorem confidence_bounds
    (ct : ConfigTypes.ClassificationThresholds) (text : string) :
  let r := ClassificationTool._run ct text in
  (0 <= ClassificationTool.confidence r <= 100)%Q /\
  (ClassificationTool.category r = "Uncertain" ->
   (ClassificationTool.confidence r <= 50)%Q) /\
  (ClassificationTool.meets_threshold r = true ->
   In (ClassificationTool.category r) ClassifierSpec.categories) /\
  In (ClassificationTool.category r)
     ("Uncertain" :: ClassifierSpec.categories).
Proof.
  cbv zeta.
  destruct (run_fields ct text) as (Hin & Hmeet & Hcases).
  pose proof (raw_confidence_unit text _ Hin) as [R0 R1].
  destruct Hcases as [(Hc & Hconf & Hlt & _)|(Hc & Hconf & _)];
    rewrite Hc, Hconf.
  - split; [split; lra|]. split; [intros _; lra|].
    split; [|left; reflexivity].
    rewrite Hmeet. intro Hge. apply Qgeb_true in Hge.
    exfalso. exact (Qlt_not_le _ _ Hlt Hge).
  - split; [split; lra|]. split.
    + intro Hu. exfalso. rewrite Hu in Hin.
      repeat (destruct Hin as [Hin|Hin]; [discriminate|]). destruct Hin.
    + split; [intros _; exact Hin | right; exact Hin].
Qed.

(** A text whose keywords all belong to one category is classified in that
    category with confidence 100 under every configuration whose
    thresholds lie in the unit interval: the gate cannot demote it. *)
Theorem single_category_text_is_kept
    (ct : ConfigTypes.ClassificationThresholds) (text c : string)
    (Hc : In c ClassifierSpec.categories)
    (Hpos : 0 < ClassifierSpec.score text c)
    (Hothers : forall c', In c' ClassifierSpec.categories -> c' <> c ->
                          ClassifierSpec.score text c' = 0)
    (Hrange : ValidationSpec.thresholds_in_range ct) :
  ClassificationTool.category (ClassificationTool._run ct text) = c /\
  (ClassificationTool.confidence (ClassificationTool._run ct text) == 100)%Q /\
  ClassificationTool.meets_threshold (ClassificationTool._run ct text) = true.
Proof.
  pose proof (winner_wins text) as Hwins.
  destruct (run_fields ct text) as (Hin & Hmeet & Hcases).
  remember (ClassificationTool.max_category
              (ClassificationTool.scores_of text)) as w eqn:Ew.
  clear Ew.
  assert (Hw : w = c).
  { destruct (string_dec w c) as [E|E]; [exact E|]. exfalso.
    destruct Hwins as (p & q & Ecat & Hp & Hq).
    assert (Hcin : In c (p ++ w :: q)%list) by (rewrite <- Ecat; exact Hc).
    assert (Hw0 : ClassifierSpec.score text w = 0)
      by (apply Hothers; assumption).
    apply in_app_or in Hcin. destruct Hcin as [H|[H|H]].
    - pose proof (Hp c H). lia.
    - congruence.
    - pose proof (Hq c H). lia. }
  assert (Htot : ClassifierSpec.total text = ClassifierSpec.score text c).
  { unfold ClassifierSpec.total, ClassifierSpec.categories.
    cbn [map fold_right].
    unfold ClassifierSpec.categories in Hc, Hothers.
    repeat (destruct Hc as [<-|Hc];
            [rewrite ?(Hothers "Bug"), ?(Hothers "Feature Request"),
               ?(Hothers "Praise"), ?(Hothers "Complaint"),
               ?(Hothers "Spam") by (cbn; intuition discriminate); lia|]).
    destruct Hc. }
  assert (Hraw : (ClassifierSpec.raw_confidence text w == 1)%Q).
  { unfold ClassifierSpec.raw_confidence. rewrite Htot, Hw.
    rewrite Z.max_r by lia.
    apply Qmult_inv_r. change 0%Q with (inject_Z 0).
    rewrite inject_Z_injective. lia. }
  assert (Hthr : (ClassifierSpec.threshold ct w <= 1)%Q).
  { destruct Hrange as ((_&?) & (_&?) & (_&?) & (_&?) & (_&?) & (_&?)).
    unfold ClassifierSpec.threshold.
    repeat match goal with |- context [if ?b then _ else _] => destruct b end;
      assumption. }
  destruct Hcases as [(_ & _ & Hlt & _)|(Hcat & Hconf & _)].
  - exfalso. rewrite Hraw in Hlt. exact (Qlt_not_le _ _ Hlt Hthr).
  - rewrite Hcat, Hconf, Hmeet. split; [exact Hw|]. split.
    + rewrite Hraw. reflexivity.
    + apply Qgeb_true. rewrite Hraw. exact Hthr.
Qed.

Lemma single_category_text_is_kept_witness :
  ClassificationTool.category
    (ClassificationTool._run ConfigTypes.default_ClassificationThresholds
       "It crashed again") = "Bug" /\
  (ClassificationTool.confidence
     (ClassificationTool._run ConfigTypes.default_ClassificationThresholds
        "It crashed again") == 100)%Q /\
  ClassificationTool.meets_threshold
    (ClassificationTool._run ConfigTypes.default_ClassificationThresholds
       "It crashed again") = true.
Proof.
  apply (single_category_text_is_kept
           ConfigTypes.default_ClassificationThresholds
           "It crashed again" "Bug").
  - simpl. tauto.
  - vm_compute. reflexivity.
  - intros c' Hin Hne.
    repeat (destruct Hin as [<-|Hin];
            [try (vm_compute; reflexivity); congruence|]).
    destruct Hin.
  - unfold ValidationSpec.thresholds_in_range, ValidationSpec.in_unit.
    cbn. repeat split; discriminate.
Defined.

(** ** The shape of a ticket and of the rows logged for it *)

Lemma pipeline_shape
    (ct : ConfigTypes.ClassificationThresholds)
    (source_id : Py.scalar) (source_type text : string) (index total : Z)
    (log : ProcessingLogger.log) :
  let category :=
    ClassificationTool.category (ClassificationTool._run ct text) in
  exists ticket rows,
    FeedbackAnalysisSystem._process_single_feedback_with_agents
      ct source_id source_type (Py.SStr text) index total log
      = ((log ++ rows)%list, Py.Ok ticket) /\
    map TicketSpec.agent_of rows = TicketSpec.stage_agents /\
    forallb BatchSpec.successful_decision rows = true /\
    forallb (BatchSpec.concerns (Py.py_str source_id)) rows = true /\
    PyDict.keys ticket
      = (TicketSpec.base_keys
         ++ (if String.eqb category "Bug" then TicketSpec.bug_keys else [])
         ++ (if String.eqb category "Feature Request"
             then TicketSpec.feature_keys else [])
         ++ TicketSpec.quality_keys)%list /\
    PyDict.get ticket "ticket_id"
      = Some (Py.VStr ("TICKET-" ++ Py.py_str source_id)) /\
    PyDict.get ticket "source_id" = Some (Py.of_scalar source_id) /\
    PyDict.get ticket "source_type" = Some (Py.VStr source_type) /\
    PyDict.get ticket "category" = Some (Py.VStr category) /\
    PyDict.get ticket "priority"
      = Some (Py.VStr (PriorityTool._run text category)) /\
    PyDict.get ticket "title"
      = Some (Py.VStr
                (FeedbackAnalysisSystem._generate_title category text)) /\
    PyDict.get ticket "description"
      = Some (Py.VStr (FeedbackAnalysisSystem.describe text)) /\
    PyDict.get ticket "technical_details"
      = Some (Py.VStr (TechnicalDetailsTool._run text)) /\
    PyDict.get ticket "confidence_score"
      = Some (Py.VFloat
                (ClassificationTool.confidence
                   (ClassificationTool._run ct text))).
Proof.
  cbv zeta.
  pose proof (reported_category_known ct text) as Hcat.
  unfold FeedbackAnalysisSystem._process_single_feedback_with_agents.
  set (confidence :=
         ClassificationTool.confidence (ClassificationTool._run ct text)).
  remember (ClassificationTool.category (ClassificationTool._run ct text))
    as category eqn:Ecat.
  clear Ecat.
  assert (Hne : category <> "").
  { repeat (destruct Hcat as [<-|Hcat]; [discriminate|]). destruct Hcat. }
  assert (Hcases :
    (String.eqb (PyStr.lower category) "bug" = String.eqb category "Bug") /\
    (String.eqb (PyStr.lower category) "feature request"
       = String.eqb category "Feature Request") /\
    (String.eqb category "Bug" && String.eqb category "Feature Request"
       = false)%bool).
  { repeat (destruct Hcat as [<-|Hcat]; [repeat split; reflexivity|]).
    destruct Hcat. }
  destruct Hcases as (Hb & Hf & Hbf).
  set (priority := PriorityTool._run text category).
  set (technical := TechnicalDetailsTool._run text).
  set (title := FeedbackAnalysisSystem._generate_title category text).
  unfold FeedbackAnalysisSystem.execute_bug_analyzer_manually,
    FeedbackAnalysisSystem.execute_feature_extractor_manually.
  fold priority. fold technical.
  rewrite Hb, Hf.
  set (severity := if PyStr.any_in _ _ then "High" else _).
  set (steps := Py.VStr (if (_ || _)%bool then _ else _)).
  set (impact := if PyStr.any_in _ _ then "High" else _).
  set (complexity := if PyStr.any_in _ _ then "Low" else _).
  destruct (String.eqb category "Bug");
    destruct (String.eqb category "Feature Request");
    try discriminate Hbf;
    cbn [negb];
    unfold FeedbackAnalysisSystem.bind, FeedbackAnalysisSystem.tell,
      FeedbackAnalysisSystem.lift, FeedbackAnalysisSystem.ret;
    cbn [Py.getitem PyDict.get String.eqb Ascii.eqb Bool.eqb Py.truthy];
    match goal with
    | |- context [FeedbackAnalysisSystem.execute_quality_reviewer_manually
                    ?td] =>
        destruct (review_of_complete_ticket td
                    (Py.VStr ("TICKET-" ++ Py.py_str source_id))
                    title category priority
                    (FeedbackAnalysisSystem.describe text) confidence)
          as (q & Hq & _);
          [ reflexivity
          | reflexivity | apply title_nonempty
          | reflexivity | exact Hne
          | reflexivity | apply priority_nonempty
          | reflexivity | reflexivity
          | rewrite Hq ]
    end;
    unfold ProcessingLogger.log_agent_decision;
    rewrite <- !app_assoc; cbn [app];
    eexists; eexists;
    (split; [reflexivity|]);
    (split; [reflexivity|]);
    (split; [reflexivity|]);
    (split; [cbn [forallb BatchSpec.concerns ProcessingLogger.source_id];
             rewrite !String.eqb_refl; reflexivity|]);
    repeat (split; [reflexivity|]); reflexivity.
Qed.

(** The ticket of an item carries the ten base entries, then the three bug
    entries exactly when the category is "Bug", then the three feature
    entries exactly when it is "Feature Request" (never both), then the
    three quality entries; its identifier is "TICKET-" followed by the
    source identifier, whatever the text and the configuration. *)
Theorem ticket_fields_follow_category
    (ct : ConfigTypes.ClassificationThresholds)
    (source_id : Py.scalar) (source_type text : string) (index total : Z)
    (log : ProcessingLogger.log) :
  let category :=
    ClassificationTool.category (ClassificationTool._run ct text) in
  exists ticket,
    snd (FeedbackAnalysisSystem._process_single_feedback_with_agents
           ct source_id source_type (Py.SStr text) index total log)
      = Py.Ok ticket /\
    PyDict.keys ticket
      = (TicketSpec.base_keys
         ++ (if String.eqb category "Bug" then TicketSpec.bug_keys else [])
         ++ (if String.eqb category "Feature Request"
             then TicketSpec.feature_keys else [])
         ++ TicketSpec.quality_keys)%list /\
    (Py.has_key ticket "bug_severity" = String.eqb category "Bug") /\
    (Py.has_key ticket "feature_impact"
       = String.eqb category "Feature Request") /\
    (Py.has_key ticket "bug_severity" && Py.has_key ticket "feature_impact"
       = false)%bool /\
    PyDict.get ticket "ticket_id"
      = Some (Py.VStr ("TICKET-" ++ Py.py_str source_id)) /\
    PyDict.get ticket "source_id" = Some (Py.of_scalar source_id).
Proof.
  cbv zeta.
  destruct (pipeline_shape ct source_id source_type text index total log)
    as (ticket & rows & Hrun & _ & _ & _ & Hkeys & Hid & Hsid & _).
  exists ticket. rewrite Hrun. split; [reflexivity|]. split; [exact Hkeys|].
  assert (Hhas : forall k, Py.has_key ticket k
                           = existsb (String.eqb k) (PyDict.keys ticket)).
  { intro k. unfold Py.has_key, PyDict.keys.
    clear. induction ticket as [|[k' v] r IH]; cbn; [reflexivity|].
    rewrite (String.eqb_sym k k').
    destruct (String.eqb k' k); [reflexivity | exact IH]. }
  rewrite !Hhas, Hkeys.
  pose proof (reported_category_known ct text) as Hcat.
  repeat (destruct Hcat as [<-|Hcat];
          [repeat split; try reflexivity; assumption|]).
  destruct Hcat.
Qed.

(** The per-item pipeline appends seven rows to the log, one for each
    agent in the order of the stages, each about this item and each a
    success; the rows that were in the log stay as they were. *)
Theorem one_row_per_stage
    (ct : ConfigTypes.ClassificationThresholds)
    (source_id : Py.scalar) (source_type text : string) (index total : Z)
    (log : ProcessingLogger.log) :
  exists rows,
    fst (FeedbackAnalysisSystem._process_single_feedback_with_agents
           ct source_id source_type (Py.SStr text) index total log)
      = (log ++ rows)%list /\
    map TicketSpec.agent_of rows = TicketSpec.stage_agents /\
    List.length rows = 7%nat /\
    forallb BatchSpec.successful_decision rows = true /\
    forallb (BatchSpec.concerns (Py.py_str source_id)) rows = true.
Proof.
  destruct (pipeline_shape ct source_id source_type text index total log)
    as (ticket & rows & Hrun & Hagents & Hok & Hsid & _).
  exists rows. rewrite Hrun. split; [reflexivity|].
  split; [exact Hagents|]. split; [|split; assumption].
  rewrite <- (length_map TicketSpec.agent_of), Hagents. reflexivity.
Qed.

(** ** What a batch returns *)







(** ** Priority against category *)

(** The priority is one of the four levels.  "High" is only ever given to
    the category "Bug" and "Medium" only to "Feature Request" or
    "Complaint"; every other category, "Uncertain" and misspelt ones
    included, gets "Critical" or "Low". *)
Theorem priority_by_category (text category : string) :
  let p := PriorityTool._run text category in
  In p ["Critical"; "High"; "Medium"; "Low"] /\
  (p = "High" -> category = "Bug") /\
  (p = "Medium" -> category = "Feature Request" \/ category = "Complaint") /\
  (category <> "Bug" -> category <> "Feature Request" ->
   category <> "Complaint" -> p = "Critical" \/ p = "Low") /\
  (p = "Critical" <-> PrioritySpec.mentions PrioritySpec.critical text).
Proof.
  cbv zeta.
  pose proof (priority_first_match text category) as H.
  remember (PriorityTool._run text category) as p eqn:Ep. clear Ep.
  destruct H as [Hc|Hn Hb Hh|Hn Hb Hm|Hn Hb Hf Hco].
  - split; [simpl; tauto|]. repeat split; try discriminate; auto.
  - split; [simpl; tauto|]. repeat split; try discriminate; auto.
    + intros; congruence.
    + intro; contradiction.
  - split; [simpl; tauto|]. repeat split; try discriminate; auto.
    + intros. destruct Hm; congruence.
    + intro; contradiction.
  - split; [simpl; tauto|]. repeat split; try discriminate; auto.
    intro; contradiction.
Qed.

(** ** The description of a ticket *)

Lemma take_prefix (n : nat) (s : string) :
  exists rest, s = (PyStr.take n s ++ rest)%string.
Proof.
  revert s. induction n as [|n IH]; intros [|c s]; cbn [PyStr.take append].
  - exists "". reflexivity.
  - exists (String c s). reflexivity.
  - exists "". reflexivity.
  - destruct (IH s) as [rest E]. exists rest. rewrite <- E. reflexivity.
Qed.

Lemma take_length (n : nat) (s : string) :
  String.length (PyStr.take n s) = Nat.min n (String.length s).
Proof.
  revert s. induction n as [|n IH]; intros [|c s]; cbn [PyStr.take String.length];
    try reflexivity.
  rewrite IH. reflexivity.
Qed.

(** The description of a ticket is the text itself when the text has at
    most 500 characters, and otherwise its first 500 characters followed by
    three dots: a description never has more than 503 characters. *)
Theorem description_is_truncated
    (ct : ConfigTypes.ClassificationThresholds)
    (source_id : Py.scalar) (source_type text : string) (index total : Z)
    (log : ProcessingLogger.log) :
  exists ticket description,
    snd (FeedbackAnalysisSystem._process_single_feedback_with_agents
           ct source_id source_type (Py.SStr text) index total log)
      = Py.Ok ticket /\
    PyDict.get ticket "description" = Some (Py.VStr description) /\
    (String.length description <= 503)%nat /\
    ((String.length text <= 500)%nat -> description = text) /\
    ((500 < String.length text)%nat ->
     String.length description = 503%nat /\
     exists kept rest,
       String.length kept = 500%nat /\
       text = (kept ++ rest)%string /\
       description = (kept ++ "...")%string).
Proof.
  destruct (pipeline_shape ct source_id source_type text index total log)
    as (ticket & rows & Hrun & _ & _ & _ & _ & _ & _ & _ & _ & _ & _ & Hd & _).
  exists ticket, (FeedbackAnalysisSystem.describe text).
  rewrite Hrun. split; [reflexivity|]. split; [exact Hd|].
  unfold FeedbackAnalysisSystem.describe.
  destruct (Nat.ltb_spec 500 (String.length text)) as [L|L].
  - assert (Hk : String.length (PyStr.take 500 text) = 500%nat)
      by (rewrite take_length; lia).
    assert (Hl : String.length (PyStr.take 500 text ++ "...") = 503%nat)
      by (rewrite length_append, Hk; reflexivity).
    split; [lia|]. split; [lia|]. intros _. split; [exact Hl|].
    destruct (take_prefix 500 text) as [rest E].
    exists (PyStr.take 500 text), rest. auto.
  - split; [lia|]. split; [reflexivity | lia].
Qed.

(** ** Items the classifier leaves uncertain *)

(** When the classifier answers "Uncertain", the ticket is titled as spam
    ("Spam content - review for removal"), its priority is "Critical" or
    "Low", it has neither bug nor feature entries, and its confidence is at
    most 50. *)
Theorem uncertain_items_are_titled_spam
    (ct : ConfigTypes.ClassificationThresholds)
    (source_id : Py.scalar) (source_type text : string) (index total : Z)
    (log : ProcessingLogger.log)
    (Hu : ClassificationTool.category (ClassificationTool._run ct text)
          = "Uncertain") :
  exists ticket priority confidence,
    snd (FeedbackAnalysisSystem._process_single_feedback_with_agents
           ct source_id source_type (Py.SStr text) index total log)
      = Py.Ok ticket /\
    PyDict.get ticket "title"
      = Some (Py.VStr "Spam content - review for removal") /\
    PyDict.get ticket "priority" = Some (Py.VStr priority) /\
    (priority = "Critical" \/ priority = "Low") /\
    PyDict.get ticket "confidence_score" = Some (Py.VFloat confidence) /\
    (0 <= confidence <= 50)%Q /\
    PyDict.keys ticket
      = (TicketSpec.base_keys ++ TicketSpec.quality_keys)%list.
Proof.
  destruct (pipeline_shape ct source_id source_type text index total log)
    as (ticket & rows & Hrun & _ & _ & _ & Hkeys & _ & _ & _ & _ & Hp & Ht
        & _ & _ & Hc).
  rewrite Hu in Hkeys, Hp, Ht.
  exists ticket, (PriorityTool._run text "Uncertain"),
    (ClassificationTool.confidence (ClassificationTool._run ct text)).
  rewrite Hrun. split; [reflexivity|]. split; [exact Ht|].
  split; [exact Hp|]. split.
  { pose proof (priority_first_match text "Uncertain") as H.
    remember (PriorityTool._run text "Uncertain") as p eqn:Ep. clear Ep.
    destruct H as [Hcr|Hn Hb Hh|Hn Hb Hm|Hn Hb Hf Hco]; auto;
      try discriminate. destruct Hm; discriminate. }
  split; [exact Hc|]. split; [|exact Hkeys].
  destruct (run_fields ct text) as (Hin & _ & Hcases).
  destruct (raw_confidence_unit text _ Hin) as [R0 R1].
  destruct Hcases as [(_ & Hconf & _)|(Hcat & _)].
  - rewrite Hconf. split; lra.
  - exfalso. rewrite Hu in Hcat. rewrite <- Hcat in Hin.
    repeat (destruct Hin as [Hin|Hin]; [discriminate|]). destruct Hin.
Qed.

Lemma uncertain_items_are_titled_spam_witness :
  exists ticket priority confidence,
    snd (FeedbackAnalysisSystem._process_single_feedback_with_agents
           ConfigTypes.default_ClassificationThresholds
           (Py.SStr "R7") "app_store_review" (Py.SStr "ok thanks") 0 1 [])
      = Py.Ok ticket /\
    PyDict.get ticket "title"
      = Some (Py.VStr "Spam content - review for removal") /\
    PyDict.get ticket "priority" = Some (Py.VStr priority) /\
    (priority = "Critical" \/ priority = "Low") /\
    PyDict.get ticket "confidence_score" = Some (Py.VFloat confidence) /\
    (0 <= confidence <= 50)%Q /\
    PyDict.keys ticket
      = (TicketSpec.base_keys ++ TicketSpec.quality_keys)%list.
Proof.
  apply (uncertain_items_are_titled_spam
           ConfigTypes.default_ClassificationThresholds
           (Py.SStr "R7") "app_store_review" "ok thanks" 0 1 []).
  vm_compute. reflexivity.
Defined.

(** ** The quality reviewer: errors and the score *)

(** The reviewer returns exactly for the records it can read.  Without a
    [ticket_id] it raises [KeyError] whatever the other entries are; with
    one, it raises [TypeError] when the description is present and not a
    string or the confidence is present and not a number. *)
Theorem reviewer_raises_unless_readable (td : PyDict.dict Py.pyval) :
  (QualitySpec.readable td = true <->
   exists q,
     FeedbackAnalysisSystem.execute_quality_reviewer_manually td = Py.Ok q) /\
  (Py.has_key td "ticket_id" = false ->
   FeedbackAnalysisSystem.execute_quality_reviewer_manually td
     = Py.Raise (Py.KeyError "ticket_id")) /\
  (Py.has_key td "ticket_id" = true -> QualitySpec.readable td = false ->
   FeedbackAnalysisSystem.execute_quality_reviewer_manually td
     = Py.Raise Py.TypeError).
Proof.
  unfold QualitySpec.readable,
    FeedbackAnalysisSystem.execute_quality_reviewer_manually,
    Py.getitem, Py.has_key, PyDict.get_or.
  destruct (PyDict.get td "ticket_id") as [tid|].
  2:{ split; [|split; [reflexivity | discriminate]].
      split; [discriminate | intros [q H]; discriminate]. }
  destruct (FeedbackAnalysisSystem.check_required td _ _) as [s1 i1].
  cbn [andb].
  assert (Hret : forall n low,
    exists q,
      (let '(s2, i2) :=
         if n <? 10
         then (s1 - 10, (i1 ++ ["Description too short"])%list)
         else (s1, i1) in
       let '(s3, i3) :=
         if low : bool
         then (s2 - 15, (i2 ++ ["Low confidence score"])%list)
         else (s2, i2) in
       Py.Ok {| FeedbackAnalysisSystem.quality_score := s3;
                FeedbackAnalysisSystem.issues := i3;
                FeedbackAnalysisSystem.status :=
                  if 70 <=? s3 then "approved" else "needs_review" |})
      = Py.Ok q).
  { intros n low. destruct (n <? 10); destruct low; eexists; reflexivity. }
  destruct (PyDict.get td "description") as [[| | | |d]|];
    destruct (PyDict.get td "confidence_score") as [[| | | |c]|];
    cbn [QualitySpec.text_or_missing QualitySpec.number_or_missing andb
         Py.len Py.lt_int];
    first
      [ (* readable *)
        split; [split; [intros _; apply Hret | intros _; reflexivity]
               | split; [discriminate | intros _ Hr; discriminate Hr]]
      | (* not readable *)
        split; [split; [discriminate
                       | intros [r Hr];
                         try (destruct (_ <? 10); discriminate Hr);
                         discriminate Hr]
               | split; [discriminate|]; intros _ _;
                 try reflexivity;
                 destruct (_ <? 10); reflexivity ] ].
Qed.

Lemma check_required_counts (td : PyDict.dict Py.pyval)
    (fields : list string) :
  forall acc,
    let r := FeedbackAnalysisSystem.check_required td fields acc in
    (List.length (snd acc) <= List.length (snd r))%nat /\
    fst r = fst acc
            - 20 * (Z.of_nat (List.length (snd r))
                    - Z.of_nat (List.length (snd acc))).
Proof.
  induction fields as [|f fs IH]; intro acc.
  - cbn [FeedbackAnalysisSystem.check_required]. split; [lia|lia].
  - cbn [FeedbackAnalysisSystem.check_required].
    destruct (match PyDict.get td f with
              | Some v => negb (Py.truthy v)
              | None => true
              end).
    + specialize (IH (fst acc - 20,
                      (snd acc ++ [("Missing " ++ f)%string])%list)).
      cbn [fst snd] in IH. rewrite length_app in IH.
      cbn [List.length] in IH. cbn zeta in *. lia.
    + apply IH.
Qed.

(** The score of a review is tied to the number of issues it lists: every
    issue costs between 10 and 20 points, so the score is 100 exactly when
    the list is empty, and an approved ticket has at most two issues. *)
Theorem score_follows_issue_count (td : PyDict.dict Py.pyval)
    (q : FeedbackAnalysisSystem.QualityReview)
    (Hq : FeedbackAnalysisSystem.execute_quality_reviewer_manually td
          = Py.Ok q) :
  let n := Z.of_nat (List.length (FeedbackAnalysisSystem.issues q)) in
  100 - 20 * n <= FeedbackAnalysisSystem.quality_score q <= 100 - 10 * n /\
  (FeedbackAnalysisSystem.quality_score q = 100 <->
   FeedbackAnalysisSystem.issues q = []) /\
  (FeedbackAnalysisSystem.status q = "approved" -> n <= 2).
Proof.
  unfold FeedbackAnalysisSystem.execute_quality_reviewer_manually in Hq.
  destruct (Py.getitem td "ticket_id") as [tid|e]; [|discriminate].
  pose proof (check_required_counts td
                ["title"; "description"; "category"; "priority"] (100, []))
    as C.
  cbn zeta in C.
  destruct (FeedbackAnalysisSystem.check_required td
              ["title"; "description"; "category"; "priority"] (100, []))
    as [s1 i1].
  cbn [fst snd List.length] in C. destruct C as [_ C].
  destruct (Py.len _) as [m|e]; [|discriminate].
  destruct (Py.lt_int _ 50) as [low|e];
    [|destruct (m <? 10); discriminate].
  assert (Hnil : forall l : list string,
            Z.of_nat (List.length l) = 0 -> l = []).
  { intros [|x l] Hl; [reflexivity | cbn [List.length] in Hl; lia]. }
  destruct (m <? 10); destruct low; injection Hq as <-;
    cbn [FeedbackAnalysisSystem.quality_score FeedbackAnalysisSystem.issues
         FeedbackAnalysisSystem.status];
    rewrite ?length_app; cbn [List.length]; cbn zeta;
    (split; [lia|]);
    (split;
     [ split;
       [ intro Hs;
         first [ apply Hnil; lia
               | exfalso; lia ]
       | intro Hs;
         first [ rewrite Hs in C; cbn [List.length] in C; lia
               | apply (f_equal (@List.length string)) in Hs;
                 rewrite ?length_app in Hs; cbn [List.length] in Hs; lia ] ]
     | match goal with
       | |- context [70 <=? ?s] => destruct (Z.leb_spec 70 s)
       end; intro Hs; [lia | discriminate Hs] ]).
Qed.

Lemma score_follows_issue_count_witness :
  exists q,
    FeedbackAnalysisSystem.execute_quality_reviewer_manually
      [("ticket_id", Py.VStr "T1"); ("title", Py.VStr "Fix: crash")] = Py.Ok q /\
    FeedbackAnalysisSystem.issues q
      = ["Missing description"; "Missing category"; "Missing priority";
         "Description too short"; "Low confidence score"] /\
    FeedbackAnalysisSystem.quality_score q = 15 /\
    (FeedbackAnalysisSystem.status q = "approved" ->
     Z.of_nat (List.length (FeedbackAnalysisSystem.issues q)) <= 2).
Proof.
  eexists. split; [reflexivity|]. split; [reflexivity|].
  split; [reflexivity|].
  apply (score_follows_issue_count
           [("ticket_id", Py.VStr "T1"); ("title", Py.VStr "Fix: crash")]).
  reflexivity.
Defined.

(** ** Operating-system entries of the extractor *)

Lemma prefix_append (w t : string) : String.prefix w (w ++ t) = true.
Proof.
  induction w as [|c w IH]; cbn [append String.prefix].
  - destruct t; reflexivity.
  - destruct (ascii_dec c c) as [_|N]; [exact IH | congruence].
Qed.

Lemma prefix_split (w s : string) :
  String.prefix w s = true -> exists t, s = (w ++ t)%string.
Proof.
  revert s. induction w as [|c w IH]; intros s H.
  - exists s. reflexivity.
  - destruct s as [|d s]; cbn [String.prefix] in H; [discriminate|].
    destruct (ascii_dec c d) as [->|_]; [|discriminate].
    destruct (IH s H) as [t ->]. exists t. reflexivity.
Qed.

(** [needle in hay] holds exactly when [hay] reads as some text, the
    needle, and some text *)
Lemma contains_iff (w s : string) :
  PyStr.contains w s = true <->
  exists pre post, s = (pre ++ w ++ post)%string.
Proof.
  split.
  - induction s as [|c s IH]; cbn [PyStr.contains]; intro H.
    + rewrite orb_false_r in H. destruct (prefix_split _ _ H) as [t ->].
      exists "", t. reflexivity.
    + apply orb_prop in H. destruct H as [H|H].
      * destruct (prefix_split _ _ H) as [t ->]. exists "", t. reflexivity.
      * destruct (IH H) as (pre & post & ->).
        exists (String c pre), post. reflexivity.
  - intros (pre & post & ->).
    induction pre as [|c pre IH]; cbn [append].
    + destruct (w ++ post)%string eqn:E; cbn [PyStr.contains];
        rewrite <- E, prefix_append; reflexivity.
    + cbn [PyStr.contains]. rewrite IH. apply orb_true_r.
Qed.

(** a pattern that starts with a literal word matches only in a text
    that holds the word *)
Lemma search_word_contains (w : string) (r : Re.regex) (s : string)
    (m : option string) :
  Re.search (Re.word w r) s = Some m -> PyStr.contains w s = true.
Proof.
  intro H.
  destruct (search_sound _ _ _ H) as (pre & suf & -> & Hm & _).
  unfold Re.match_here in Hm.
  destruct (go_sound _ _ _ _ _ Hm) as (rest & cap' & Hmatch & _).
  apply word_matches in Hmatch. destruct Hmatch as (t & -> & _).
  apply contains_iff. exists pre, t. reflexivity.
Qed.

(** what the group of the two operating-system patterns holds: digits,
    maybe a dot, maybe more digits *)
Lemma os_group_shape (s rest : string) (cap cap' : option string) :
  ReSpec.matches
    (Re.Seq (Re.Star Re.space)
       (Re.Group (Re.Seq (Re.Plus Re.digit)
          (Re.Seq (Re.Opt (Re.Lit ".")) (Re.Star Re.digit)))))
    s cap rest cap' ->
  exists sp a tail,
    s = (sp ++ a ++ tail ++ rest)%string /\
    ReSpec.all_in Re.space sp = true /\
    a <> "" /\ ReSpec.all_in Re.digit a = true /\
    cap' = Some (a ++ tail)%string.
Proof.
  cbn [ReSpec.matches].
  intros (mid & capm & (sp & -> & Hsp & ->) & cap0 & x & Hin & Hx & ->).
  destruct Hin as (m1 & c1 & (a & -> & Ha0 & Ha & ->) & m2 & c2 & Hdot
                   & d & -> & Hd & ->).
  assert (Hm1 : exists dot, m1 = (dot ++ d ++ rest)%string).
  { destruct Hdot as [[-> _]|[-> _]].
    - exists ".". reflexivity.
    - exists "". reflexivity. }
  destruct Hm1 as [dot ->].
  exists sp, a, (dot ++ d)%string.
  rewrite !append_assoc in *.
  split; [reflexivity|]. split; [exact Hsp|]. split; [exact Ha0|].
  split; [exact Ha|]. f_equal.
  apply (append_cancel_r _ _ rest). rewrite <- Hx.
  rewrite !append_assoc. reflexivity.
Qed.

(** An operating-system entry is never a bare label, and an Android one
    never comes alone.  Whenever the extractor writes "Android: v", the
    list of details also holds "Device: android", because the pattern
    starts with the device name; and the value v of an "iOS: v" or
    "Android: v" entry starts with a digit: the captured group is never
    empty and never unset. *)
Theorem os_entries_are_numbered (text e : string) :
  let t := PyStr.lower text in
  (In e (TechnicalDetailsTool.match_detail "Android: "
           TechnicalDetailsTool.android_pattern t) ->
   In "Device: android" (TechnicalDetailsTool.details_of text) /\
   exists c v, e = ("Android: " ++ String c v)%string /\ Re.digit c = true) /\
  (In e (TechnicalDetailsTool.match_detail "iOS: "
           TechnicalDetailsTool.ios_pattern t) ->
   PyStr.contains "ios" t = true /\
   exists c v, e = ("iOS: " ++ String c v)%string /\ Re.digit c = true).
Proof.
  cbv zeta.
  assert (Hshape : forall w label,
    In e (TechnicalDetailsTool.match_detail label
            (Re.word w (Re.Seq (Re.Star Re.space)
               (Re.Group (Re.Seq (Re.Plus Re.digit)
                  (Re.Seq (Re.Opt (Re.Lit ".")) (Re.Star Re.digit))))))
            (PyStr.lower text)) ->
    PyStr.contains w (PyStr.lower text) = true /\
    exists c v, e = (label ++ String c v)%string /\ Re.digit c = true).
  { intros w label Hin.
    unfold TechnicalDetailsTool.match_detail in Hin.
    destruct (Re.search _ _) as [m|] eqn:E; [|destruct Hin].
    destruct Hin as [<-|[]].
    split; [exact (search_word_contains _ _ _ _ E)|].
    destruct (search_sound _ _ _ E) as (pre & suf & _ & Hm & _).
    unfold Re.match_here in Hm.
    destruct (go_sound _ _ _ _ _ Hm) as (rest & cap' & Hmatch & Hk).
    injection Hk as <-.
    apply word_matches in Hmatch. destruct Hmatch as (t0 & _ & Hmatch).
    destruct (os_group_shape _ _ _ _ Hmatch)
      as (sp & a & tail & _ & _ & Ha0 & Ha & ->).
    destruct a as [|c a]; [congruence|].
    cbn [ReSpec.all_in] in Ha. apply andb_prop in Ha.
    exists c, (a ++ tail)%string. split; [reflexivity | apply Ha]. }
  split.
  - intro Hin. destruct (Hshape "android" "Android: " Hin) as [Hc Hv].
    split; [|exact Hv].
    unfold TechnicalDetailsTool.details_of. apply in_or_app. left.
    unfold TechnicalDetailsTool.device_details.
    apply in_flat_map. exists "android".
    split; [cbn; auto|]. rewrite Hc. left. reflexivity.
  - intro Hin. exact (Hshape "ios" "iOS: " Hin).
Qed.

Lemma os_entries_are_numbered_witness :
  In "Android: 14" (TechnicalDetailsTool.details_of "Crashes on Android 14") /\
  In "Device: android" (TechnicalDetailsTool.details_of "Crashes on Android 14").
Proof.
  split; [vm_compute; auto|].
  apply (os_entries_are_numbered "Crashes on Android 14" "Android: 14").
  vm_compute. auto.
Defined.

(** ** The feature extractor *)

Lemma first_of_three (text : string) (ks1 ks2 : list string)
    (a b c : string) (Hab : a <> b) (Hac : a <> c) (Hbc : b <> c) :
  let v := if PyStr.any_in ks1 (PyStr.lower text) then a
           else if PyStr.any_in ks2 (PyStr.lower text) then b
           else c in
  (v = a <-> PrioritySpec.mentions ks1 text) /\
  (v = b <-> ~ PrioritySpec.mentions ks1 text /\
             PrioritySpec.mentions ks2 text) /\
  (v = c <-> ~ PrioritySpec.mentions ks1 text /\
             ~ PrioritySpec.mentions ks2 text).
Proof.
  cbv zeta.
  destruct (PyStr.any_in ks1 (PyStr.lower text)) eqn:E1.
  - pose proof (proj1 (any_in_mentions _ _) E1) as M1.
    repeat split; try tauto; try congruence.
  - pose proof (proj1 (any_in_not_mentions _ _) E1) as M1.
    destruct (PyStr.any_in ks2 (PyStr.lower text)) eqn:E2.
    + pose proof (proj1 (any_in_mentions _ _) E2) as M2.
      repeat split; try tauto; try congruence.
    + pose proof (proj1 (any_in_not_mentions _ _) E2) as M2.
      repeat split; try tauto; try congruence.
Qed.

(** A category that is not "feature request" up to case gets exactly the
    four not-applicable entries.  A feature request gets [is_feature] true;
    its impact is High when one of the strong words occurs, else Medium
    when one of the weaker ones does, else Low; its complexity is Low when
    one of the easy words occurs, else High when one of the hard ones does,
    else Medium; its user benefit is always the impact followed by
    " user value"; and its priority, the one of the priority scorer, is
    never "High" and is "Medium" only for the exact spelling
    "Feature Request". *)
Theorem feature_extractor_gate (text category : string) :
  let r := FeedbackAnalysisSystem.execute_feature_extractor_manually
             text category in
  let strong := ["all users"; "everyone"; "essential"; "critical";
                 "necessary"] in
  let weaker := ["many users"; "important"; "useful"; "would help"] in
  let easy := ["simple"; "easy"; "basic"; "just add"] in
  let hard := ["complex"; "difficult"; "integration"; "system"] in
  (PyStr.lower category <> "feature request" ->
   r = [ ("is_feature", Py.VBool false);
         ("impact", Py.VStr "N/A");
         ("complexity", Py.VStr "N/A");
         ("priority", Py.VStr "N/A") ]) /\
  (PyStr.lower category = "feature request" ->
   exists impact complexity priority,
     r = [ ("is_feature", Py.VBool true);
           ("impact", Py.VStr impact);
           ("complexity", Py.VStr complexity);
           ("priority", Py.VStr priority);
           ("user_benefit", Py.VStr (impact ++ " user value")) ] /\
     (impact = "High" <-> PrioritySpec.mentions strong text) /\
     (impact = "Medium" <-> ~ PrioritySpec.mentions strong text /\
                            PrioritySpec.mentions weaker text) /\
     (impact = "Low" <-> ~ PrioritySpec.mentions strong text /\
                         ~ PrioritySpec.mentions weaker text) /\
     (complexity = "Low" <-> PrioritySpec.mentions easy text) /\
     (complexity = "High" <-> ~ PrioritySpec.mentions easy text /\
                              PrioritySpec.mentions hard text) /\
     (complexity = "Medium" <-> ~ PrioritySpec.mentions easy text /\
                                ~ PrioritySpec.mentions hard text) /\
     priority = PriorityTool._run text category /\
     priority <> "High" /\
     (priority = "Medium" -> category = "Feature Request")).
Proof.
  cbv zeta.
  unfold FeedbackAnalysisSystem.execute_feature_extractor_manually.
  destruct (String.eqb_spec (PyStr.lower category) "feature request")
    as [E|E]; cbn [negb]; split; intro H; try congruence; try reflexivity.
  clear H.
  pose proof (first_of_three text
    ["all users"; "everyone"; "essential"; "critical"; "necessary"]
    ["many users"; "important"; "useful"; "would help"]
    "High" "Medium" "Low") as Hi.
  pose proof (first_of_three text
    ["simple"; "easy"; "basic"; "just add"]
    ["complex"; "difficult"; "integration"; "system"]
    "Low" "High" "Medium") as Hc.
  cbv zeta in Hi, Hc.
  specialize (Hi ltac:(discriminate) ltac:(discriminate) ltac:(discriminate)).
  specialize (Hc ltac:(discriminate) ltac:(discriminate) ltac:(discriminate)).
  destruct Hi as (Hi1 & Hi2 & Hi3). destruct Hc as (Hc1 & Hc2 & Hc3).
  eexists. eexists. eexists.
  split.
  { do 4 f_equal.
    match goal with
    | |- context [String.eqb ?i "High"] =>
        destruct (String.eqb_spec i "High") as [Ei|Ei];
        [rewrite Ei|]; reflexivity
    end. }
  split; [exact Hi1|]. split; [exact Hi2|]. split; [exact Hi3|].
  split; [exact Hc1|]. split; [exact Hc2|]. split; [exact Hc3|].
  split; [reflexivity|].
  pose proof (priority_first_match text category) as P.
  remember (PriorityTool._run text category) as p eqn:Ep. clear Ep.
  destruct P as [Hcr|Hn Hb Hh|Hn Hb Hm|Hn Hb Hf Hco].
  - split; [discriminate|]. discriminate.
  - exfalso. subst category. cbn in E. discriminate.
  - split; [discriminate|]. intros _.
    destruct Hm as [->| ->]; [reflexivity|]. cbn in E. discriminate.
  - split; [discriminate|]. discriminate.
Qed.

(** ** Loading, saving and resetting the configuration *)

Lemma validate_defaults (v t c : string) :
  ConfigurationManager.validate_configuration
    {| ConfigTypes.classification_thresholds :=
         ConfigTypes.default_ClassificationThresholds;
       ConfigTypes.priority_weights := ConfigTypes.default_PriorityWeights;
       ConfigTypes.quality_thresholds :=
         ConfigTypes.default_QualityThresholds;
       ConfigTypes.agent_settings := ConfigTypes.default_AgentSettings;
       ConfigTypes.processing_rules := ConfigTypes.default_ProcessingRules;
       ConfigTypes.version := v;
       ConfigTypes.last_updated := t;
       ConfigTypes.created_by := c |}
  = {| ConfigurationManager.valid := true;
       ConfigurationManager.issues := [];
       ConfigurationManager.warnings := [] |}.
Proof. reflexivity. Qed.

(** what a reset leaves behind, whatever the manager held *)
Lemma reset_outcome (m : ConfigurationManager.manager) (w : Json.world) :
  exists first_stamp,
    ConfigurationManager.reset_to_defaults m w
    = ({| ConfigurationManager.config_file :=
            ConfigurationManager.config_file m;
          ConfigurationManager.config :=
            ConfigTypes.with_last_updated
              (fst (ConfigurationManager.create_default_configuration w))
              (Json.clock w (S (Json.ticks w))) |},
       true,
       Json.write
         {| Json.files := Json.files w; Json.clock := Json.clock w;
            Json.ticks := S (S (Json.ticks w)) |}
         (ConfigurationManager.config_file m)
         (ConfigurationManager.asdict
            (ConfigTypes.with_last_updated
               (fst (ConfigurationManager.create_default_configuration w))
               (Json.clock w (S (Json.ticks w)))))) /\
    fst (ConfigurationManager.create_default_configuration w)
    = {| ConfigTypes.classification_thresholds :=
           ConfigTypes.default_ClassificationThresholds;
         ConfigTypes.priority_weights := ConfigTypes.default_PriorityWeights;
         ConfigTypes.quality_thresholds :=
           ConfigTypes.default_QualityThresholds;
         ConfigTypes.agent_settings := ConfigTypes.default_AgentSettings;
         ConfigTypes.processing_rules := ConfigTypes.default_ProcessingRules;
         ConfigTypes.version := "1.0.0";
         ConfigTypes.last_updated := first_stamp;
         ConfigTypes.created_by := "system_default" |}.
Proof.
  exists (Json.clock w (Json.ticks w)). split; reflexivity.
Qed.

(** Resetting always succeeds.  The manager then holds the default
    values of every section, marked as created by "system_default" and
    stamped with the second reading of the clock (the defaults are stamped
    when they are built and again when they are saved); its file holds
    exactly that configuration, every other file is as before, and the
    validation of the result finds no issue and no warning. *)
Theorem reset_installs_valid_defaults (m : ConfigurationManager.manager)
    (w : Json.world) :
  exists m' w',
    ConfigurationManager.reset_to_defaults m w = (m', true, w') /\
    ConfigurationManager.config_file m' = ConfigurationManager.config_file m /\
    ConfigurationManager.config m'
    = {| ConfigTypes.classification_thresholds :=
           ConfigTypes.default_ClassificationThresholds;
         ConfigTypes.priority_weights := ConfigTypes.default_PriorityWeights;
         ConfigTypes.quality_thresholds :=
           ConfigTypes.default_QualityThresholds;
         ConfigTypes.agent_settings := ConfigTypes.default_AgentSettings;
         ConfigTypes.processing_rules := ConfigTypes.default_ProcessingRules;
         ConfigTypes.version := "1.0.0";
         ConfigTypes.last_updated := Json.clock w (S (Json.ticks w));
         ConfigTypes.created_by := "system_default" |} /\
    Json.ticks w' = S (S (Json.ticks w)) /\
    Json.read w' (ConfigurationManager.config_file m)
      = Some (ConfigurationManager.asdict (ConfigurationManager.config m')) /\
    (forall path, path <> ConfigurationManager.config_file m ->
                  Json.read w' path = Json.read w path) /\
    ConfigurationManager.validate_configuration
      (ConfigurationManager.config m')
    = {| ConfigurationManager.valid := true;
         ConfigurationManager.issues := [];
         ConfigurationManager.warnings := [] |}.
Proof.
  destruct (reset_outcome m w) as (s & -> & Hc).
  eexists. eexists. split; [reflexivity|].
  cbn [ConfigurationManager.config ConfigurationManager.config_file].
  split; [reflexivity|]. rewrite Hc.
  split; [reflexivity|]. split; [reflexivity|].
  split; [apply read_write_same|]. split.
  - intros path Hp. rewrite read_write.
    destruct (String.eqb_spec (ConfigurationManager.config_file m) path)
      as [E|E]; [congruence | reflexivity].
  - apply validate_defaults.
Qed.

(** A configuration file that is missing, or that cannot be built into a
    configuration (the document is not an object, or a section is not an
    object or names a setting that does not exist), is not reported: loading
    behaves as a reset, so the manager holds the defaults and the file is
    overwritten with them. *)
Theorem unloadable_file_is_replaced (m : ConfigurationManager.manager)
    (w : Json.world)
    (Hbad : Json.read w (ConfigurationManager.config_file m) = None \/
            exists doc,
              Json.read w (ConfigurationManager.config_file m) = Some doc /\
              ConfigurationManager.make_SystemConfiguration doc
                = ConfigurationManager.Throws) :
  exists m' w',
    ConfigurationManager.load_configuration m w = Some (m', w') /\
    ConfigurationManager.reset_to_defaults m w = (m', true, w') /\
    ConfigTypes.created_by (ConfigurationManager.config m')
      = "system_default" /\
    Json.read w' (ConfigurationManager.config_file m)
      = Some (ConfigurationManager.asdict (ConfigurationManager.config m')).
Proof.
  destruct (reset_outcome m w) as (s & Hr & Hc).
  eexists. eexists.
  split; [|split; [exact Hr|]].
  - unfold ConfigurationManager.load_configuration.
    assert (Hd : ConfigurationManager.load_defaults m w
                 = (fst (fst (ConfigurationManager.reset_to_defaults m w)),
                    snd (ConfigurationManager.reset_to_defaults m w)))
      by reflexivity.
    destruct Hbad as [-> | (doc & -> & ->)]; rewrite Hd, Hr; reflexivity.
  - cbn [ConfigurationManager.config]. rewrite Hc.
    split; [reflexivity | apply read_write_same].
Qed.

Lemma unloadable_file_is_replaced_witness :
  let w := {| Json.files :=
                [("system_config.json",
                  Json.JObj
                    [("classification_thresholds",
                      Json.JObj [("bug_treshold", Json.JFloat (9 # 10))])])];
              Json.clock := fun n => "2025-01-01T00:00:00";
              Json.ticks := 0 |} in
  let m := {| ConfigurationManager.config_file := "system_config.json";
              ConfigurationManager.config :=
                fst (ConfigurationManager.create_default_configuration w) |} in
  exists m' w',
    ConfigurationManager.load_configuration m w = Some (m', w') /\
    ConfigurationManager.reset_to_defaults m w = (m', true, w') /\
    ConfigTypes.created_by (ConfigurationManager.config m')
      = "system_default" /\
    Json.read w' "system_config.json"
      = Some (ConfigurationManager.asdict (ConfigurationManager.config m')).
Proof.
  cbv zeta.
  apply (unloadable_file_is_replaced
           {| ConfigurationManager.config_file := "system_config.json";
              ConfigurationManager.config := _ |}).
  right. eexists. split; reflexivity.
Defined.

(** Saving and loading again gives back what was saved.  After a save,
    a manager of the same file that loads it holds exactly the saved
    configuration, time stamp included, and loading changes neither the
    files nor the clock; the stamp written by the save has to be a
    non-empty text, as every reading of a real clock is. *)
Theorem save_then_load_restores (m m0 : ConfigurationManager.manager)
    (w : Json.world)
    (Hfile : ConfigurationManager.config_file m0
             = ConfigurationManager.config_file m)
    (Hstamp : Json.clock w (Json.ticks w) <> "") :
  exists m1 w1,
    ConfigurationManager.save_configuration m w = (m1, true, w1) /\
    ConfigurationManager.config m1
      = ConfigTypes.with_last_updated (ConfigurationManager.config m)
          (Json.clock w (Json.ticks w)) /\
    ConfigurationManager.load_configuration m0 w1 = Some (m1, w1).
Proof.
  destruct m as [file c]. destruct m0 as [file0 c0].
  cbn [ConfigurationManager.config_file] in Hfile. subst file0.
  unfold ConfigurationManager.save_configuration.
  cbn [ConfigurationManager.config ConfigurationManager.config_file Json.now].
  eexists. eexists. split; [reflexivity|].
  cbn [ConfigurationManager.config]. split; [reflexivity|].
  unfold ConfigurationManager.load_configuration.
  cbn [ConfigurationManager.config_file].
  rewrite read_write_same, make_SystemConfiguration_asdict.
  unfold ConfigurationManager.post_init.
  cbn [ConfigTypes.with_last_updated ConfigTypes.last_updated].
  apply nonempty_truthy in Hstamp. rewrite Hstamp. reflexivity.
Qed.

Lemma save_then_load_restores_witness :
  let w := {| Json.files := [];
              Json.clock := fun n => "2025-01-01T00:00:00";
              Json.ticks := 0 |} in
  let m := {| ConfigurationManager.config_file := "system_config.json";
              ConfigurationManager.config :=
                fst (ConfigurationManager.create_default_configuration w) |} in
  exists m1 w1,
    ConfigurationManager.save_configuration m w = (m1, true, w1) /\
    ConfigurationManager.config m1
      = ConfigTypes.with_last_updated (ConfigurationManager.config m)
          "2025-01-01T00:00:00" /\
    ConfigurationManager.load_configuration m w1 = Some (m1, w1).
Proof.
  cbv zeta.
  apply (save_then_load_restores
           {| ConfigurationManager.config_file := "system_config.json";
              ConfigurationManager.config := _ |}
           {| ConfigurationManager.config_file := "system_config.json";
              ConfigurationManager.config := _ |}
           {| Json.files := [];
              Json.clock := fun n => "2025-01-01T00:00:00";
              Json.ticks := 0 |}).
  - reflexivity.
  - cbn. discriminate.
Defined.

(** ** Importing a configuration *)

Lemma backup_path_differs (file : string) :
  String.eqb (file ++ ".backup") file = false.
Proof.
  apply String.eqb_neq. intro H.
  apply (f_equal String.length) in H. rewrite length_append in H.
  cbn [String.length] in H. lia.
Qed.

Lemma exists_read (w : Json.world) (path : string) :
  Json.exists_ w path = true -> exists doc, Json.read w path = Some doc.
Proof.
  unfold Json.exists_, Json.read, Py.has_key.
  destruct (PyDict.get (Json.files w) path) as [doc|]; [|discriminate].
  intros _. exists doc. reflexivity.
Qed.

Lemma read_exists (w : Json.world) (path : string) (doc : Json.json) :
  Json.read w path = Some doc -> Json.exists_ w path = true.
Proof.
  unfold Json.exists_, Json.read, Py.has_key. intros ->. reflexivity.
Qed.

Lemma restamp (c : ConfigTypes.SystemConfiguration) (s t : string) :
  ConfigTypes.with_last_updated (ConfigTypes.with_last_updated c s) t
  = ConfigTypes.with_last_updated c t.
Proof. reflexivity. Qed.

(** loading a document that builds: the configuration of the document,
    stamped if it had no stamp; no file is written *)
Lemma load_value (m : ConfigurationManager.manager) (w : Json.world)
    (doc : Json.json) (c : ConfigTypes.SystemConfiguration) :
  Json.read w (ConfigurationManager.config_file m) = Some doc ->
  ConfigurationManager.make_SystemConfiguration doc
    = ConfigurationManager.Value c ->
  exists c' n,
    ConfigurationManager.load_configuration m w
    = Some ({| ConfigurationManager.config_file :=
                 ConfigurationManager.config_file m;
               ConfigurationManager.config := c' |},
            {| Json.files := Json.files w; Json.clock := Json.clock w;
               Json.ticks := n |}) /\
    forall t, ConfigTypes.with_last_updated c' t
              = ConfigTypes.with_last_updated c t.
Proof.
  intros Hr Hm. unfold ConfigurationManager.load_configuration.
  rewrite Hr, Hm. unfold ConfigurationManager.post_init.
  destruct (PyStr.truthy (ConfigTypes.last_updated c)).
  - exists c, (Json.ticks w). destruct w. split; reflexivity.
  - exists (ConfigTypes.with_last_updated c (Json.clock w (Json.ticks w))),
      (S (Json.ticks w)).
    split; reflexivity.
Qed.

(** Importing installs the configuration of the imported file without
    validating it, and keeps a backup.  For an import file that builds
    into a configuration [c] (and is not the manager's own backup file),
    the import succeeds, the manager and its file hold [c] with a new time
    stamp, the file named after the manager's file with ".backup" added
    holds the configuration the manager had, and the import file itself is
    left as it was. *)
Theorem import_installs_and_backs_up (m : ConfigurationManager.manager)
    (import_file : string) (w : Json.world) (doc : Json.json)
    (c : ConfigTypes.SystemConfiguration)
    (Hdoc : Json.read w import_file = Some doc)
    (Hc : ConfigurationManager.make_SystemConfiguration doc
          = ConfigurationManager.Value c)
    (Hnb : import_file
           <> (ConfigurationManager.config_file m ++ ".backup")%string) :
  exists m2 w2 stamp,
    ConfigurationManager.import_configuration m import_file w
      = Some (m2, true, w2) /\
    ConfigurationManager.config_file m2 = ConfigurationManager.config_file m /\
    ConfigurationManager.config m2 = ConfigTypes.with_last_updated c stamp /\
    Json.read w2 (ConfigurationManager.config_file m)
      = Some (ConfigurationManager.asdict (ConfigurationManager.config m2)) /\
    Json.read w2 (ConfigurationManager.config_file m ++ ".backup")
      = Some (ConfigurationManager.asdict (ConfigurationManager.config m)) /\
    (import_file <> ConfigurationManager.config_file m ->
     Json.read w2 import_file = Some doc).
Proof.
  destruct m as [file cur].
  cbn [ConfigurationManager.config ConfigurationManager.config_file] in *.
  unfold ConfigurationManager.import_configuration.
  rewrite (read_exists _ _ _ Hdoc). cbn [negb].
  unfold ConfigurationManager.export_configuration.
  cbn [ConfigurationManager.config ConfigurationManager.config_file].
  set (w1 := Json.write w (file ++ ".backup")
               (ConfigurationManager.asdict cur)).
  assert (Hr1 : Json.read w1 import_file = Some doc).
  { unfold w1. rewrite read_write.
    destruct (String.eqb_spec (file ++ ".backup") import_file) as [E|E];
      [congruence | exact Hdoc]. }
  destruct (load_value
              {| ConfigurationManager.config_file := import_file;
                 ConfigurationManager.config := cur |} w1 doc c Hr1 Hc)
    as (c' & n & -> & Hstamp).
  unfold ConfigurationManager.save_configuration.
  cbn [ConfigurationManager.config ConfigurationManager.config_file
       Json.now Json.clock Json.ticks].
  eexists. eexists. exists (Json.clock w1 n).
  split; [reflexivity|].
  cbn [ConfigurationManager.config ConfigurationManager.config_file].
  split; [reflexivity|]. split; [apply Hstamp|].
  split; [apply read_write_same|]. split.
  - rewrite read_write.
    destruct (String.eqb_spec file (file ++ ".backup")) as [E|E].
    + exfalso. pose proof (backup_path_differs file) as B.
      apply String.eqb_neq in B. congruence.
    + unfold Json.read. cbn [Json.files].
      apply (read_write_same w (file ++ ".backup")).
  - intro Hne. rewrite read_write.
    destruct (String.eqb_spec file import_file) as [E|E]; [congruence|].
    exact Hr1.
Qed.

Lemma import_installs_and_backs_up_witness :
  let cur := fst (ConfigurationManager.create_default_configuration
                    {| Json.files := []; Json.clock := fun n => "t0";
                       Json.ticks := 0 |}) in
  let doc := Json.JObj
               [("classification_thresholds",
                 Json.JObj [("bug_threshold", Json.JFloat (9 # 10))])] in
  let w := {| Json.files := [("team.json", doc)];
              Json.clock := fun n => "2025-01-01T00:00:00";
              Json.ticks := 0 |} in
  let m := {| ConfigurationManager.config_file := "system_config.json";
              ConfigurationManager.config := cur |} in
  exists m2 w2,
    ConfigurationManager.import_configuration m "team.json" w
      = Some (m2, true, w2) /\
    ConfigTypes.bug_threshold
      (ConfigTypes.classification_thresholds (ConfigurationManager.config m2))
      = 9 # 10 /\
    Json.read w2 "system_config.json.backup"
      = Some (ConfigurationManager.asdict cur).
Proof.
  cbv zeta.
  destruct (import_installs_and_backs_up
              {| ConfigurationManager.config_file := "system_config.json";
                 ConfigurationManager.config :=
                   fst (ConfigurationManager.create_default_configuration
                          {| Json.files := []; Json.clock := fun n => "t0";
                             Json.ticks := 0 |}) |}
              "team.json"
              {| Json.files :=
                   [("team.json",
                     Json.JObj
                       [("classification_thresholds",
                         Json.JObj
                           [("bug_threshold", Json.JFloat (9 # 10))])])];
                 Json.clock := fun n => "2025-01-01T00:00:00";
                 Json.ticks := 0 |}
              _ _ eq_refl eq_refl ltac:(discriminate))
    as (m2 & w2 & stamp & Hi & _ & Hcfg & _ & Hb & _).
  exists m2, w2. split; [exact Hi|]. split; [|exact Hb].
  rewrite Hcfg. reflexivity.
Defined.

(** A backup cannot be brought back by importing it.  Importing the
    manager's own backup file (its file name with ".backup" added) first
    overwrites that file with the current configuration and then loads it:
    whatever the backup held, the import succeeds, the manager keeps the
    configuration it had, with a new time stamp only, and the backup file
    now holds the current configuration. *)
Theorem import_of_own_backup_restores_nothing
    (m : ConfigurationManager.manager) (w : Json.world)
    (Hex : Json.exists_ w (ConfigurationManager.config_file m ++ ".backup")
           = true) :
  exists m2 w2 stamp,
    ConfigurationManager.import_configuration m
      (ConfigurationManager.config_file m ++ ".backup") w
      = Some (m2, true, w2) /\
    ConfigurationManager.config m2
      = ConfigTypes.with_last_updated (ConfigurationManager.config m) stamp /\
    Json.read w2 (ConfigurationManager.config_file m ++ ".backup")
      = Some (ConfigurationManager.asdict (ConfigurationManager.config m)) /\
    Json.read w2 (ConfigurationManager.config_file m)
      = Some (ConfigurationManager.asdict (ConfigurationManager.config m2)).
Proof.
  destruct m as [file cur].
  cbn [ConfigurationManager.config ConfigurationManager.config_file] in *.
  unfold ConfigurationManager.import_configuration.
  rewrite Hex. cbn [negb].
  unfold ConfigurationManager.export_configuration.
  cbn [ConfigurationManager.config ConfigurationManager.config_file].
  set (w1 := Json.write w (file ++ ".backup")
               (ConfigurationManager.asdict cur)).
  assert (Hr1 : Json.read w1 (file ++ ".backup")
                = Some (ConfigurationManager.asdict cur))
    by apply read_write_same.
  destruct (load_value
              {| ConfigurationManager.config_file := (file ++ ".backup")%string;
                 ConfigurationManager.config := cur |} w1 _ cur Hr1
              (make_SystemConfiguration_asdict cur))
    as (c' & n & -> & Hstamp).
  unfold ConfigurationManager.save_configuration.
  cbn [ConfigurationManager.config ConfigurationManager.config_file
       Json.now Json.clock Json.ticks].
  eexists. eexists. exists (Json.clock w1 n).
  split; [reflexivity|].
  cbn [ConfigurationManager.config ConfigurationManager.config_file].
  split; [apply Hstamp|]. split; [|apply read_write_same].
  rewrite read_write.
  destruct (String.eqb_spec file (file ++ ".backup")) as [E|E].
  - exfalso. pose proof (backup_path_differs file) as B.
    apply String.eqb_neq in B. congruence.
  - unfold Json.read. cbn [Json.files].
    apply (read_write_same w (file ++ ".backup")).
Qed.

Lemma import_of_own_backup_restores_nothing_witness :
  let old := Json.JObj
               [("classification_thresholds",
                 Json.JObj [("bug_threshold", Json.JFloat (9 # 10))])] in
  let w := {| Json.files := [("system_config.json.backup", old)];
              Json.clock := fun n => "2025-01-01T00:00:00";
              Json.ticks := 0 |} in
  let m := {| ConfigurationManager.config_file := "system_config.json";
              ConfigurationManager.config :=
                fst (ConfigurationManager.create_default_configuration w) |} in
  exists m2 w2,
    ConfigurationManager.import_configuration m
      "system_config.json.backup" w = Some (m2, true, w2) /\
    ConfigTypes.bug_threshold
      (ConfigTypes.classification_thresholds (ConfigurationManager.config m2))
      = 7 # 10 /\
    Json.read w2 "system_config.json.backup" <> Some old.
Proof.
  cbv zeta.
  destruct (import_of_own_backup_restores_nothing
              {| ConfigurationManager.config_file := "system_config.json";
                 ConfigurationManager.config :=
                   fst (ConfigurationManager.create_default_configuration
                          {| Json.files :=
                               [("system_config.json.backup",
                                 Json.JObj
                                   [("classification_thresholds",
                                     Json.JObj
                                       [("bug_threshold",
                                         Json.JFloat (9 # 10))])])];
                             Json.clock := fun n => "2025-01-01T00:00:00";
                             Json.ticks := 0 |}) |}
              {| Json.files :=
                   [("system_config.json.backup",
                     Json.JObj
                       [("classification_thresholds",
                         Json.JObj
                           [("bug_threshold", Json.JFloat (9 # 10))])])];
                 Json.clock := fun n => "2025-01-01T00:00:00";
                 Json.ticks := 0 |}
              eq_refl)
    as (m2 & w2 & stamp & Hi & Hcfg & Hb & _).
  exists m2, w2. split; [exact Hi|]. split.
  - rewrite Hcfg. reflexivity.
  - cbn [ConfigurationManager.config_file append] in Hb. rewrite Hb.
    discriminate.
Defined.

(** An import file that cannot be built into a configuration is not
    refused.  The import still reports success; the manager and its file
    then hold the defaults, the backup holds the configuration the manager
    had, and the import file itself has been overwritten with defaults,
    so its previous content is gone. *)
Theorem import_of_unloadable_file_resets (m : ConfigurationManager.manager)
    (import_file : string) (w : Json.world) (doc : Json.json)
    (Hdoc : Json.read w import_file = Some doc)
    (Hbad : ConfigurationManager.make_SystemConfiguration doc
            = ConfigurationManager.Throws)
    (Hnb : import_file
           <> (ConfigurationManager.config_file m ++ ".backup")%string) :
  exists m2 w2 stamp stamp',
    ConfigurationManager.import_configuration m import_file w
      = Some (m2, true, w2) /\
    ConfigurationManager.config_file m2 = ConfigurationManager.config_file m /\
    ConfigurationManager.config m2
    = {| ConfigTypes.classification_thresholds :=
           ConfigTypes.default_ClassificationThresholds;
         ConfigTypes.priority_weights := ConfigTypes.default_PriorityWeights;
         ConfigTypes.quality_thresholds :=
           ConfigTypes.default_QualityThresholds;
         ConfigTypes.agent_settings := ConfigTypes.default_AgentSettings;
         ConfigTypes.processing_rules := ConfigTypes.default_ProcessingRules;
         ConfigTypes.version := "1.0.0";
         ConfigTypes.last_updated := stamp;
         ConfigTypes.created_by := "system_default" |} /\
    Json.read w2 (ConfigurationManager.config_file m)
      = Some (ConfigurationManager.asdict (ConfigurationManager.config m2)) /\
    Json.read w2 (ConfigurationManager.config_file m ++ ".backup")
      = Some (ConfigurationManager.asdict (ConfigurationManager.config m)) /\
    (import_file <> ConfigurationManager.config_file m ->
     Json.read w2 import_file
     = Some (ConfigurationManager.asdict
               (ConfigTypes.with_last_updated
                  (ConfigurationManager.config m2) stamp'))).
Proof.
  destruct m as [file cur].
  cbn [ConfigurationManager.config ConfigurationManager.config_file] in *.
  unfold ConfigurationManager.import_configuration.
  rewrite (read_exists _ _ _ Hdoc). cbn [negb].
  unfold ConfigurationManager.export_configuration.
  cbn [ConfigurationManager.config ConfigurationManager.config_file].
  set (w1 := Json.write w (file ++ ".backup")
               (ConfigurationManager.asdict cur)).
  assert (Hr1 : Json.read w1 import_file = Some doc).
  { unfold w1. rewrite read_write.
    destruct (String.eqb_spec (file ++ ".backup") import_file) as [E|E];
      [congruence | exact Hdoc]. }
  unfold ConfigurationManager.load_configuration.
  cbn [ConfigurationManager.config ConfigurationManager.config_file].
  rewrite Hr1, Hbad.
  unfold ConfigurationManager.load_defaults,
    ConfigurationManager.create_default_configuration,
    ConfigurationManager.post_init, ConfigurationManager.save_configuration.
  cbn [ConfigTypes.last_updated PyStr.truthy Json.now
       ConfigurationManager.config ConfigurationManager.config_file
       Json.clock Json.ticks Json.write].
  eexists. eexists. eexists. exists (Json.clock w (S (Json.ticks w))).
  split; [reflexivity|].
  cbn [ConfigurationManager.config ConfigurationManager.config_file].
  split; [reflexivity|]. split; [reflexivity|].
  split; [apply get_set_item_same|]. split.
  - unfold Json.read, w1. cbn [Json.files Json.write].
    rewrite get_set_item_other.
    2:{ apply String.eqb_neq. intro E.
        pose proof (backup_path_differs file) as B.
        apply String.eqb_neq in B. congruence. }
    rewrite get_set_item_other.
    2:{ apply String.eqb_neq. congruence. }
    apply get_set_item_same.
  - intro Hne. unfold Json.read, w1. cbn [Json.files Json.write].
    rewrite get_set_item_other.
    2:{ apply String.eqb_neq. congruence. }
    apply get_set_item_same.
Qed.

Lemma import_of_unloadable_file_resets_witness :
  let doc := Json.JStr "not a configuration" in
  let w := {| Json.files := [("team.json", doc)];
              Json.clock := fun n => "2025-01-01T00:00:00";
              Json.ticks := 0 |} in
  let m := {| ConfigurationManager.config_file := "system_config.json";
              ConfigurationManager.config :=
                ConfigTypes.with_priority_weights
                  (fst (ConfigurationManager.create_default_configuration w))
                  ConfigTypes.default_PriorityWeights |} in
  exists m2 w2,
    ConfigurationManager.import_configuration m "team.json" w
      = Some (m2, true, w2) /\
    ConfigTypes.created_by (ConfigurationManager.config m2)
      = "system_default" /\
    Json.read w2 "team.json" <> Some doc.
Proof.
  cbv zeta.
  destruct (import_of_unloadable_file_resets
              {| ConfigurationManager.config_file := "system_config.json";
                 ConfigurationManager.config :=
                   ConfigTypes.with_priority_weights
                     (fst (ConfigurationManager.create_default_configuration
                             {| Json.files :=
                                  [("team.json",
                                    Json.JStr "not a configuration")];
                                Json.clock := fun n => "2025-01-01T00:00:00";
                                Json.ticks := 0 |}))
                     ConfigTypes.default_PriorityWeights |}
              "team.json"
              {| Json.files :=
                   [("team.json", Json.JStr "not a configuration")];
                 Json.clock := fun n => "2025-01-01T00:00:00";
                 Json.ticks := 0 |}
              (Json.JStr "not a configuration")
              eq_refl eq_refl ltac:(discriminate))
    as (m2 & w2 & stamp & stamp' & Hi & _ & Hcfg & _ & _ & Hf).
  exists m2, w2. split; [exact Hi|]. split.
  - rewrite Hcfg. reflexivity.
  - rewrite Hf; [discriminate|]. cbn. discriminate.
Defined.

(** ** Updating a section of the configuration *)

Lemma update_loop_app {S : Type}
    (set : S -> string -> Py.pyval -> ConfigurationManager.built S)
    (pre rest : PyDict.dict Py.pyval) :
  forall s,
    ConfigurationManager.update_loop set (pre ++ rest)%list s
    = match ConfigurationManager.update_loop set pre s with
      | ConfigurationManager.Done s1 =>
          ConfigurationManager.update_loop set rest s1
      | other => other
      end.
Proof.
  induction pre as [|[k v] pre IH]; intro s;
    cbn [app ConfigurationManager.update_loop].
  - reflexivity.
  - destruct (set s k v); [apply IH | reflexivity | reflexivity].
Qed.

Lemma has_key_app {V} (a b : PyDict.dict V) (k : string) :
  Py.has_key (a ++ b)%list k = Py.has_key a k || Py.has_key b k.
Proof.
  unfold Py.has_key.
  induction a as [|[k' v] a IH]; cbn [app PyDict.get].
  - reflexivity.
  - destruct (String.eqb k' k); [reflexivity | exact IH].
Qed.

Lemma manager_eta (m : ConfigurationManager.manager) :
  {| ConfigurationManager.config_file := ConfigurationManager.config_file m;
     ConfigurationManager.config := ConfigurationManager.config m |} = m.
Proof. destruct m; reflexivity. Qed.

(** a keyword that names nothing is not an attribute of any section *)
Lemma hasattr_names_nothing (fields : list string) (key : string) :
  incl fields UpdateSpec.settings ->
  UpdateSpec.names_nothing key = true ->
  ConfigurationManager.hasattr fields key = ConfigurationManager.Value false.
Proof.
  intros Hin Hn. unfold UpdateSpec.names_nothing in Hn.
  apply andb_prop in Hn. destruct Hn as [Hn Hs].
  apply andb_prop in Hn. destruct Hn as [_ Hu].
  apply negb_true_iff in Hs, Hu.
  unfold ConfigurationManager.hasattr.
  destruct (existsb (String.eqb key) fields) eqn:E.
  - apply existsb_exists in E. destruct E as (f & Hf & Ef).
    assert (X : existsb (String.eqb key) UpdateSpec.settings = true).
    { apply existsb_exists. exists f. split; [apply Hin; exact Hf | exact Ef]. }
    congruence.
  - rewrite Hu. reflexivity.
Qed.

Lemma update_loop_fixed {S : Type}
    (set : S -> string -> Py.pyval -> ConfigurationManager.built S)
    (kwargs : PyDict.dict Py.pyval) (s : S) :
  (forall key value, In (key, value) kwargs ->
                     set s key value = ConfigurationManager.Value s) ->
  ConfigurationManager.update_loop set kwargs s = ConfigurationManager.Done s.
Proof.
  induction kwargs as [|[k v] r IH]; intro H;
    cbn [ConfigurationManager.update_loop].
  - reflexivity.
  - rewrite (H k v (or_introl eq_refl)). apply IH.
    intros key value Hin. apply H. right. exact Hin.
Qed.

Lemma no_self (kwargs : PyDict.dict Py.pyval) :
  forallb UpdateSpec.names_nothing (PyDict.keys kwargs) = true ->
  Py.has_key kwargs "self" = false.
Proof.
  unfold Py.has_key.
  induction kwargs as [|[k v] r IH]; cbn [PyDict.keys map fst forallb PyDict.get];
    intro H.
  - reflexivity.
  - apply andb_prop in H. destruct H as [Hk Hr].
    unfold UpdateSpec.names_nothing in Hk.
    apply andb_prop in Hk. destruct Hk as [Hk _].
    apply andb_prop in Hk. destruct Hk as [Hk _].
    apply negb_true_iff in Hk. rewrite Hk. apply IH. exact Hr.
Qed.

Lemma names_nothing_in (kwargs : PyDict.dict Py.pyval) (key : string)
    (value : Py.pyval) :
  forallb UpdateSpec.names_nothing (PyDict.keys kwargs) = true ->
  In (key, value) kwargs -> UpdateSpec.names_nothing key = true.
Proof.
  intros H Hin. rewrite forallb_forall in H. apply H.
  unfold PyDict.keys. apply (in_map fst _ _ Hin).
Qed.

Ltac settings_incl :=
  intros f Hf; unfold UpdateSpec.settings, UpdateSpec.threshold_settings,
    UpdateSpec.weight_settings, UpdateSpec.quality_settings,
    UpdateSpec.switch_settings, UpdateSpec.timeout_settings,
    UpdateSpec.rule_settings;
  cbn [app]; cbn [In] in Hf |- *; tauto.

(** Keywords that name no setting are skipped without a word.  When
    every keyword of the call is such a name (a misspelt setting, say),
    each of the five update functions does what a plain save does: it
    reports success, and nothing but the time stamp changes. *)
Theorem unknown_settings_are_ignored (m : ConfigurationManager.manager)
    (kwargs : PyDict.dict Py.pyval) (w : Json.world)
    (Hnames : forallb UpdateSpec.names_nothing (PyDict.keys kwargs) = true) :
  let saved := Some (ConfigurationManager.save_configuration m w) in
  ConfigurationManager.update_classification_thresholds m kwargs w = saved /\
  ConfigurationManager.update_priority_weights m kwargs w = saved /\
  ConfigurationManager.update_quality_thresholds m kwargs w = saved /\
  ConfigurationManager.update_agent_settings m kwargs w = saved /\
  ConfigurationManager.update_processing_rules m kwargs w = saved /\
  snd (fst (ConfigurationManager.save_configuration m w)) = true /\
  exists stamp,
    ConfigurationManager.config
      (fst (fst (ConfigurationManager.save_configuration m w)))
    = ConfigTypes.with_last_updated (ConfigurationManager.config m) stamp.
Proof.
  cbv zeta.
  pose proof (no_self kwargs Hnames) as Hself.
  assert (Hsec : forall (S : Type)
            (get : ConfigTypes.SystemConfiguration -> S)
            (put : ConfigTypes.SystemConfiguration -> S
                   -> ConfigTypes.SystemConfiguration)
            (set : S -> string -> Py.pyval -> ConfigurationManager.built S),
            (forall c, put c (get c) = c) ->
            (forall s key value,
               UpdateSpec.names_nothing key = true ->
               set s key value = ConfigurationManager.Value s) ->
            ConfigurationManager.update_section m get put set kwargs w
            = Some (ConfigurationManager.save_configuration m w)).
  { intros S get put set Hput Hset.
    unfold ConfigurationManager.update_section. rewrite Hself.
    rewrite update_loop_fixed.
    - rewrite Hput, manager_eta. reflexivity.
    - intros key value Hin. apply Hset.
      exact (names_nothing_in kwargs key value Hnames Hin). }
  repeat split.
  - apply Hsec; [intros []; reflexivity|]. intros s key value Hn.
    unfold ConfigurationManager.set_classification_threshold.
    rewrite (hasattr_names_nothing _ key); [reflexivity | settings_incl | exact Hn].
  - apply Hsec; [intros []; reflexivity|]. intros s key value Hn.
    unfold ConfigurationManager.set_priority_weight.
    rewrite (hasattr_names_nothing _ key); [reflexivity | settings_incl | exact Hn].
  - apply Hsec; [intros []; reflexivity|]. intros s key value Hn.
    unfold ConfigurationManager.set_quality_threshold.
    rewrite (hasattr_names_nothing _ key); [reflexivity | settings_incl | exact Hn].
  - apply Hsec; [intros []; reflexivity|]. intros s key value Hn.
    unfold ConfigurationManager.set_agent_setting.
    rewrite (hasattr_names_nothing _ key); [reflexivity | settings_incl | exact Hn].
  - apply Hsec; [intros []; reflexivity|]. intros s key value Hn.
    unfold ConfigurationManager.set_processing_rule.
    rewrite (hasattr_names_nothing _ key); [reflexivity | settings_incl | exact Hn].
  - exists (Json.clock w (Json.ticks w)). reflexivity.
Qed.

Lemma unknown_settings_are_ignored_witness :
  let w := {| Json.files := [];
              Json.clock := fun n => "2025-01-01T00:00:00";
              Json.ticks := 0 |} in
  let m := {| ConfigurationManager.config_file := "system_config.json";
              ConfigurationManager.config :=
                fst (ConfigurationManager.create_default_configuration w) |} in
  ConfigurationManager.update_classification_thresholds m
    [("bug_treshold", Py.VFloat (9 # 10))] w
  = Some (ConfigurationManager.save_configuration m w).
Proof.
  cbv zeta.
  apply (unknown_settings_are_ignored
           {| ConfigurationManager.config_file := "system_config.json";
              ConfigurationManager.config := _ |}
           [("bug_treshold", Py.VFloat (9 # 10))]).
  reflexivity.
Defined.

Ltac closed_eqb :=
  repeat match goal with
         | |- context [String.eqb ?a ?b] =>
             tryif is_var a then fail else
             tryif is_var b then fail else
             let r := eval vm_compute in (String.eqb a b) in
             change (String.eqb a b) with r
         end.

Ltac other_entries k Hk :=
  unfold UpdateSpec.entry,
    ConfigurationManager.asdict_ClassificationThresholds,
    ConfigurationManager.asdict_AgentSettings,
    ConfigurationManager.with_classification_thresholds,
    ConfigurationManager.with_agent_settings,
    ConfigurationManager.setattr_ClassificationThresholds,
    ConfigurationManager.setattr_AgentSettings_bool,
    ConfigurationManager.setattr_AgentSettings_int;
  closed_eqb;
  cbn [PyDict.get ConfigTypes.classification_thresholds
       ConfigTypes.agent_settings
       ConfigTypes.bug_threshold ConfigTypes.feature_threshold
       ConfigTypes.praise_threshold ConfigTypes.complaint_threshold
       ConfigTypes.spam_threshold ConfigTypes.minimum_confidence
       ConfigTypes.enable_bug_analysis ConfigTypes.enable_feature_extraction
       ConfigTypes.enable_quality_review
       ConfigTypes.enable_technical_extraction
       ConfigTypes.classification_timeout ConfigTypes.bug_analysis_timeout
       ConfigTypes.feature_extraction_timeout
       ConfigTypes.quality_review_timeout];
  repeat match goal with
         | |- context [String.eqb ?a k] =>
             destruct (String.eqb_spec a k);
             [ try (exfalso; apply Hk; congruence); try reflexivity |]
         end;
  try reflexivity.



(** A quality-threshold update that fails half way is not undone.  When
    the keywords [pre] alone make a successful update, the same keywords
    followed by a setting given as [None] make the update fail: it returns
    [False] and neither saves nor stamps, the files are as they were; yet
    the manager keeps in memory every value that [pre] set.  The keywords
    after the failing one are never looked at. *)
Theorem failed_update_keeps_earlier_values
    (m m1 : ConfigurationManager.manager) (w w1 : Json.world)
    (pre post : PyDict.dict Py.pyval) (key : string)
    (Hpre : ConfigurationManager.update_quality_thresholds m pre w
            = Some (m1, true, w1))
    (Hkey : In key UpdateSpec.quality_settings)
    (Hpost : Py.has_key post "self" = false) :
  exists m',
    ConfigurationManager.update_quality_thresholds m
      (pre ++ (key, Py.VNone) :: post)%list w = Some (m', false, w) /\
    ConfigTypes.quality_thresholds (ConfigurationManager.config m')
      = ConfigTypes.quality_thresholds (ConfigurationManager.config m1) /\
    ConfigTypes.last_updated (ConfigurationManager.config m')
      = ConfigTypes.last_updated (ConfigurationManager.config m) /\
    ConfigurationManager.config_file m' = ConfigurationManager.config_file m.
Proof.
  unfold ConfigurationManager.update_quality_thresholds,
    ConfigurationManager.update_section in *.
  destruct (Py.has_key pre "self") eqn:Hs; [discriminate|].
  destruct (ConfigurationManager.update_loop
              ConfigurationManager.set_quality_threshold pre
              (ConfigTypes.quality_thresholds (ConfigurationManager.config m)))
    as [s|s|] eqn:Hloop; [|discriminate|discriminate].
  injection Hpre as <- _.
  assert (Hself : Py.has_key ((key, Py.VNone) :: post) "self" = false).
  { unfold Py.has_key in *. cbn [PyDict.get].
    cbn [In UpdateSpec.quality_settings] in Hkey.
    repeat (destruct Hkey as [<-|Hkey]; [exact Hpost|]). destruct Hkey. }
  rewrite has_key_app, Hs, Hself. cbn [orb].
  rewrite update_loop_app, Hloop.
  cbn [ConfigurationManager.update_loop].
  assert (Hset : ConfigurationManager.set_quality_threshold s key Py.VNone
                 = ConfigurationManager.Throws).
  { cbn [In UpdateSpec.quality_settings] in Hkey.
    repeat (destruct Hkey as [<-|Hkey]; [reflexivity|]). destruct Hkey. }
  rewrite Hset. eexists. split; [reflexivity|].
  repeat split.
Qed.

Lemma failed_update_keeps_earlier_values_witness :
  let w := {| Json.files := [];
              Json.clock := fun n => "2025-01-01T00:00:00";
              Json.ticks := 0 |} in
  let m := {| ConfigurationManager.config_file := "system_config.json";
              ConfigurationManager.config :=
                fst (ConfigurationManager.create_default_configuration w) |} in
  exists m',
    ConfigurationManager.update_quality_thresholds m
      [("reject_threshold", Py.VInt 95); ("auto_approve_threshold", Py.VNone);
       ("manual_review_threshold", Py.VInt 50)] w = Some (m', false, w) /\
    ConfigTypes.reject_threshold
      (ConfigTypes.quality_thresholds (ConfigurationManager.config m'))
    = 95 # 1 /\
    ConfigTypes.manual_review_threshold
      (ConfigTypes.quality_thresholds (ConfigurationManager.config m'))
    = 60 # 1.
Proof.
  cbv zeta.
  destruct (failed_update_keeps_earlier_values
              {| ConfigurationManager.config_file := "system_config.json";
                 ConfigurationManager.config :=
                   fst (ConfigurationManager.create_default_configuration
                          {| Json.files := [];
                             Json.clock := fun n => "2025-01-01T00:00:00";
                             Json.ticks := 0 |}) |}
              _
              {| Json.files := [];
                 Json.clock := fun n => "2025-01-01T00:00:00";
                 Json.ticks := 0 |}
              _
              [("reject_threshold", Py.VInt 95)]
              [("manual_review_threshold", Py.VInt 50)]
              "auto_approve_threshold"
              eq_refl ltac:(cbn; tauto) eq_refl)
    as (m' & Hu & Hq & _).
  exists m'. split; [exact Hu|]. rewrite Hq. split; reflexivity.
Defined.

Lemma set_priority_weight_mappings (p p' : ConfigTypes.PriorityWeights)
    (key : string) (value : Py.pyval) :
  ConfigurationManager.set_priority_weight p key value
    = ConfigurationManager.Value p' ->
  ConfigTypes.bug_priority_mapping p' = ConfigTypes.bug_priority_mapping p /\
  ConfigTypes.feature_priority_mapping p'
    = ConfigTypes.feature_priority_mapping p.
Proof.
  unfold ConfigurationManager.set_priority_weight.
  destruct (ConfigurationManager.hasattr _ key) as [h| |];
    cbn [ConfigurationManager.andThen]; try discriminate.
  destruct (h && negb (ConfigurationManager.endswith key "_mapping")).
  - destruct (ConfigurationManager.py_float value) as [v| |];
      cbn [ConfigurationManager.andThen]; try discriminate.
    intros [= <-]. split; reflexivity.
  - intros [= <-]. split; reflexivity.
Qed.

Lemma update_loop_mappings (kwargs : PyDict.dict Py.pyval) :
  forall p p',
    ConfigurationManager.update_loop ConfigurationManager.set_priority_weight
      kwargs p = ConfigurationManager.Done p' \/
    ConfigurationManager.update_loop ConfigurationManager.set_priority_weight
      kwargs p = ConfigurationManager.Caught p' ->
    ConfigTypes.bug_priority_mapping p' = ConfigTypes.bug_priority_mapping p /\
    ConfigTypes.feature_priority_mapping p'
      = ConfigTypes.feature_priority_mapping p.
Proof.
  induction kwargs as [|[k v] r IH]; intros p p';
    cbn [ConfigurationManager.update_loop].
  - intros [[= <-]|H]; [split; reflexivity | discriminate].
  - destruct (ConfigurationManager.set_priority_weight p k v) as [p1| |]
      eqn:E.
    + intro H. destruct (IH _ _ H) as [H1 H2].
      destruct (set_priority_weight_mappings _ _ _ _ E) as [E1 E2].
      split; congruence.
    + intros [H|[= <-]]; [discriminate | split; reflexivity].
    + intros [H|H]; discriminate.
Qed.

(** The two priority mappings cannot be changed through
    [update_priority_weights].  Whatever the keywords and whether the
    update succeeds or fails, the manager has the mappings it had, and the
    other sections too; a call that names only a mapping reports success
    and does what a plain save does. *)
Theorem mappings_survive_updates
    (m m' : ConfigurationManager.manager) (w w' : Json.world)
    (kwargs : PyDict.dict Py.pyval) (ok : bool)
    (Hup : ConfigurationManager.update_priority_weights m kwargs w
           = Some (m', ok, w')) :
  ConfigTypes.bug_priority_mapping
    (ConfigTypes.priority_weights (ConfigurationManager.config m'))
  = ConfigTypes.bug_priority_mapping
      (ConfigTypes.priority_weights (ConfigurationManager.config m)) /\
  ConfigTypes.feature_priority_mapping
    (ConfigTypes.priority_weights (ConfigurationManager.config m'))
  = ConfigTypes.feature_priority_mapping
      (ConfigTypes.priority_weights (ConfigurationManager.config m)) /\
  ConfigTypes.classification_thresholds (ConfigurationManager.config m')
  = ConfigTypes.classification_thresholds (ConfigurationManager.config m) /\
  ConfigTypes.quality_thresholds (ConfigurationManager.config m')
  = ConfigTypes.quality_thresholds (ConfigurationManager.config m) /\
  ConfigTypes.agent_settings (ConfigurationManager.config m')
  = ConfigTypes.agent_settings (ConfigurationManager.config m) /\
  ConfigTypes.processing_rules (ConfigurationManager.config m')
  = ConfigTypes.processing_rules (ConfigurationManager.config m) /\
  forall value,
    ConfigurationManager.update_priority_weights m
      [("bug_priority_mapping", value)] w
    = Some (ConfigurationManager.save_configuration m w) /\
    ConfigurationManager.update_priority_weights m
      [("feature_priority_mapping", value)] w
    = Some (ConfigurationManager.save_configuration m w).
Proof.
  unfold ConfigurationManager.update_priority_weights,
    ConfigurationManager.update_section in *.
  destruct (Py.has_key kwargs "self"); [discriminate|].
  destruct (ConfigurationManager.update_loop
              ConfigurationManager.set_priority_weight kwargs
              (ConfigTypes.priority_weights (ConfigurationManager.config m)))
    as [s|s|] eqn:Hloop; [| |discriminate].
  - destruct (update_loop_mappings kwargs _ s (or_introl Hloop)) as [H1 H2].
    injection Hup as <- _ _.
    cbn [ConfigurationManager.config ConfigTypes.with_last_updated
         ConfigTypes.with_priority_weights ConfigTypes.priority_weights
         ConfigTypes.classification_thresholds
         ConfigTypes.quality_thresholds ConfigTypes.agent_settings
         ConfigTypes.processing_rules ConfigurationManager.save_configuration
         Json.now fst].
    do 6 (split; [assumption || reflexivity|]).
    intro value. destruct m as [file []]. split; reflexivity.
  - destruct (update_loop_mappings kwargs _ s (or_intror Hloop)) as [H1 H2].
    injection Hup as <- _ _.
    cbn [ConfigurationManager.config ConfigTypes.with_priority_weights
         ConfigTypes.priority_weights ConfigTypes.classification_thresholds
         ConfigTypes.quality_thresholds ConfigTypes.agent_settings
         ConfigTypes.processing_rules].
    do 6 (split; [assumption || reflexivity|]).
    intro value. destruct m as [file []]. split; reflexivity.
Qed.

Lemma mappings_survive_updates_witness :
  let w := {| Json.files := [];
              Json.clock := fun n => "2025-01-01T00:00:00";
              Json.ticks := 0 |} in
  let m := {| ConfigurationManager.config_file := "system_config.json";
              ConfigurationManager.config :=
                fst (ConfigurationManager.create_default_configuration w) |} in
  exists m' w',
    ConfigurationManager.update_priority_weights m
      [("user_impact_weight", Py.VFloat (5 # 10));
       ("bug_priority_mapping", Py.VNone)] w = Some (m', true, w') /\
    ConfigTypes.bug_priority_mapping
      (ConfigTypes.priority_weights (ConfigurationManager.config m'))
    = ConfigTypes.default_bug_priority_mapping.
Proof.
  cbv zeta. eexists. eexists. split; [reflexivity|].
  eapply (mappings_survive_updates
           {| ConfigurationManager.config_file := "system_config.json";
              ConfigurationManager.config :=
                fst (ConfigurationManager.create_default_configuration
                       {| Json.files := [];
                          Json.clock := fun n => "2025-01-01T00:00:00";
                          Json.ticks := 0 |}) |}
           _
           {| Json.files := [];
              Json.clock := fun n => "2025-01-01T00:00:00";
              Json.ticks := 0 |}
           _
           [("user_impact_weight", Py.VFloat (5 # 10));
            ("bug_priority_mapping", Py.VNone)] true).
  reflexivity.
Defined.

(** How [update_agent_settings] reads its values.  A switch takes the
    truth value of whatever it is given and the update cannot fail: a
    non-empty text switches the agent on, the text "false" included.  A
    timeout takes [int(value)]: a number is cut toward zero and saved, and
    [None] makes the update fail with the manager and the files unchanged.
    In both cases the other settings of the section keep their values. *)
Theorem agent_settings_coercions
    (m : ConfigurationManager.manager) (w : Json.world)
    (key : string) (value : Py.pyval) :
  let old := ConfigurationManager.asdict_AgentSettings
               (ConfigTypes.agent_settings (ConfigurationManager.config m)) in
  let section_of (m' : ConfigurationManager.manager) :=
    ConfigurationManager.asdict_AgentSettings
      (ConfigTypes.agent_settings (ConfigurationManager.config m')) in
  (In key UpdateSpec.switch_settings ->
   exists m' w',
     ConfigurationManager.update_agent_settings m [(key, value)] w
       = Some (m', true, w') /\
     UpdateSpec.entry (section_of m') key
       = Some (Json.JBool (Py.truthy value)) /\
     forall k, k <> key ->
       UpdateSpec.entry (section_of m') k = UpdateSpec.entry old k) /\
  (In key UpdateSpec.timeout_settings ->
   (forall z,
      ConfigurationManager.py_int value = ConfigurationManager.Value z ->
      exists m' w',
        ConfigurationManager.update_agent_settings m [(key, value)] w
          = Some (m', true, w') /\
        UpdateSpec.entry (section_of m') key = Some (Json.JInt z) /\
        forall k, k <> key ->
          UpdateSpec.entry (section_of m') k = UpdateSpec.entry old k) /\
   (value = Py.VNone ->
    ConfigurationManager.update_agent_settings m [(key, value)] w
      = Some (m, false, w))).
Proof.
  cbv zeta. split.
  - intro Hkey.
    assert (Hrun :
      ConfigurationManager.update_agent_settings m [(key, value)] w
      = Some (ConfigurationManager.save_configuration
                {| ConfigurationManager.config_file :=
                     ConfigurationManager.config_file m;
                   ConfigurationManager.config :=
                     ConfigurationManager.with_agent_settings
                       (ConfigurationManager.config m)
                       (ConfigurationManager.setattr_AgentSettings_bool
                          (ConfigTypes.agent_settings
                             (ConfigurationManager.config m))
                          key (Py.truthy value)) |} w)).
    { cbn [In UpdateSpec.switch_settings] in Hkey.
      repeat (destruct Hkey as [<-|Hkey]; [reflexivity|]). destruct Hkey. }
    rewrite Hrun. clear Hrun.
    unfold ConfigurationManager.save_configuration.
    cbn [Json.now ConfigurationManager.config
         ConfigurationManager.config_file].
    eexists. eexists. split; [reflexivity|].
    cbn [ConfigurationManager.config]. split.
    + cbn [In UpdateSpec.switch_settings] in Hkey.
      repeat (destruct Hkey as [<-|Hkey]; [reflexivity|]). destruct Hkey.
    + intros k Hk. cbn [In UpdateSpec.switch_settings] in Hkey.
      repeat (destruct Hkey as [<-|Hkey]; [other_entries k Hk|]).
      destruct Hkey.
  - intro Hkey. split.
    + intros z Hz.
      assert (Hrun :
        ConfigurationManager.update_agent_settings m [(key, value)] w
        = Some (ConfigurationManager.save_configuration
                  {| ConfigurationManager.config_file :=
                       ConfigurationManager.config_file m;
                     ConfigurationManager.config :=
                       ConfigurationManager.with_agent_settings
                         (ConfigurationManager.config m)
                         (ConfigurationManager.setattr_AgentSettings_int
                            (ConfigTypes.agent_settings
                               (ConfigurationManager.config m))
                            key z) |} w)).
      { unfold ConfigurationManager.update_agent_settings,
          ConfigurationManager.update_section, Py.has_key.
        cbn [PyDict.get ConfigurationManager.update_loop].
        unfold ConfigurationManager.set_agent_setting.
        cbn [In UpdateSpec.timeout_settings] in Hkey.
        repeat (destruct Hkey as [<-|Hkey];
                [closed_eqb;
                 cbn [ConfigurationManager.hasattr existsb orb
                      ConfigurationManager.andThen
                      ConfigurationManager.endswith];
                 closed_eqb;
                 cbn [ConfigurationManager.hasattr existsb orb
                      ConfigurationManager.andThen
                      ConfigurationManager.endswith];
                 rewrite Hz; reflexivity|]).
        destruct Hkey. }
      rewrite Hrun. clear Hrun Hz.
      unfold ConfigurationManager.save_configuration.
      cbn [Json.now ConfigurationManager.config
           ConfigurationManager.config_file].
      eexists. eexists. split; [reflexivity|].
      cbn [ConfigurationManager.config]. split.
      * cbn [In UpdateSpec.timeout_settings] in Hkey.
        repeat (destruct Hkey as [<-|Hkey]; [reflexivity|]). destruct Hkey.
      * intros k Hk. cbn [In UpdateSpec.timeout_settings] in Hkey.
        repeat (destruct Hkey as [<-|Hkey]; [other_entries k Hk|]).
        destruct Hkey.
    + intros ->. destruct m as [file []].
      cbn [In UpdateSpec.timeout_settings] in Hkey.
      repeat (destruct Hkey as [<-|Hkey]; [reflexivity|]). destruct Hkey.
Qed.

Lemma agent_settings_coercions_witness :
  let w := {| Json.files := [];
              Json.clock := fun n => "2025-01-01T00:00:00";
              Json.ticks := 0 |} in
  let m := {| ConfigurationManager.config_file := "system_config.json";
              ConfigurationManager.config :=
                fst (ConfigurationManager.create_default_configuration w) |} in
  (exists m' w',
     ConfigurationManager.update_agent_settings m
       [("enable_quality_review", Py.VStr "false")] w
       = Some (m', true, w') /\
     ConfigTypes.enable_quality_review
       (ConfigTypes.agent_settings (ConfigurationManager.config m')) = true) /\
  (exists m' w',
     ConfigurationManager.update_agent_settings m
       [("bug_analysis_timeout", Py.VFloat (-5 # 2))] w
       = Some (m', true, w') /\
     UpdateSpec.entry
       (ConfigurationManager.asdict_AgentSettings
          (ConfigTypes.agent_settings (ConfigurationManager.config m')))
       "bug_analysis_timeout" = Some (Json.JInt (-2))).
Proof.
  cbv zeta. split.
  - eexists. eexists. split; reflexivity.
  - destruct (proj2 (agent_settings_coercions
              {| ConfigurationManager.config_file := "system_config.json";
                 ConfigurationManager.config :=
                   fst (ConfigurationManager.create_default_configuration
                          {| Json.files := [];
                             Json.clock := fun n => "2025-01-01T00:00:00";
                             Json.ticks := 0 |}) |}
              {| Json.files := [];
                 Json.clock := fun n => "2025-01-01T00:00:00";
                 Json.ticks := 0 |}
              "bug_analysis_timeout" (Py.VFloat (-5 # 2)))
              ltac:(cbn; tauto)) as [Hnum _].
    destruct (Hnum (-2) eq_refl) as (m' & w' & Hu & He & _).
    exists m', w'. split; [exact Hu | exact He].
Defined.

(** ** The simple pipeline against the hybrid one *)

(** The hybrid pipeline only adds to what the simple one produces.  For
    every text, configuration and source, the ticket of the hybrid
    pipeline starts with the entries of the simple pipeline's ticket, same
    names, same order, same values (category, priority, title, description,
    technical details and confidence among them); what follows are the bug
    entries for a bug, the feature entries for a feature request, and the
    three quality entries.  The creation date and the caller's additional
    data, which neither embedding holds, are set apart. *)
Theorem hybrid_ticket_extends_simple_ticket
    (ct : ConfigTypes.ClassificationThresholds)
    (source_id : Py.scalar) (source_type text : string) (index total : Z)
    (log : ProcessingLogger.log) :
  let category :=
    ClassificationTool.category (ClassificationTool._run ct text) in
  exists ticket added,
    snd (FeedbackAnalysisSystem._process_single_feedback_with_agents
           ct source_id source_type (Py.SStr text) index total log)
      = Py.Ok ticket /\
    ticket
      = (FeedbackAnalysisSystem._process_single_feedback
           ct source_id source_type text ++ added)%list /\
    PyDict.keys (FeedbackAnalysisSystem._process_single_feedback
                   ct source_id source_type text) = TicketSpec.base_keys /\
    PyDict.keys added
      = ((if String.eqb category "Bug" then TicketSpec.bug_keys else [])
         ++ (if String.eqb category "Feature Request"
             then TicketSpec.feature_keys else [])
         ++ TicketSpec.quality_keys)%list.
Proof.
  cbv zeta.
  pose proof (reported_category_known ct text) as Hcat.
  unfold FeedbackAnalysisSystem._process_single_feedback_with_agents,
    FeedbackAnalysisSystem._process_single_feedback.
  set (confidence :=
         ClassificationTool.confidence (ClassificationTool._run ct text)).
  remember (ClassificationTool.category (ClassificationTool._run ct text))
    as category eqn:Ecat.
  clear Ecat.
  assert (Hne : category <> "").
  { repeat (destruct Hcat as [<-|Hcat]; [discriminate|]). destruct Hcat. }
  assert (Hcases :
    (String.eqb (PyStr.lower category) "bug" = String.eqb category "Bug") /\
    (String.eqb (PyStr.lower category) "feature request"
       = String.eqb category "Feature Request") /\
    (String.eqb category "Bug" && String.eqb category "Feature Request"
       = false)%bool).
  { repeat (destruct Hcat as [<-|Hcat]; [repeat split; reflexivity|]).
    destruct Hcat. }
  destruct Hcases as (Hb & Hf & Hbf).
  set (priority := PriorityTool._run text category).
  set (technical := TechnicalDetailsTool._run text).
  set (title := FeedbackAnalysisSystem._generate_title category text).
  unfold FeedbackAnalysisSystem.execute_bug_analyzer_manually,
    FeedbackAnalysisSystem.execute_feature_extractor_manually.
  fold priority. fold technical.
  rewrite Hb, Hf.
  set (severity := if PyStr.any_in _ _ then "High" else _).
  set (steps := Py.VStr (if (_ || _)%bool then _ else _)).
  set (impact := if PyStr.any_in _ _ then "High" else _).
  set (complexity := if PyStr.any_in _ _ then "Low" else _).
  destruct (String.eqb category "Bug");
    destruct (String.eqb category "Feature Request");
    try discriminate Hbf;
    cbn [negb];
    unfold FeedbackAnalysisSystem.bind, FeedbackAnalysisSystem.tell,
      FeedbackAnalysisSystem.lift, FeedbackAnalysisSystem.ret;
    cbn [Py.getitem PyDict.get String.eqb Ascii.eqb Bool.eqb Py.truthy];
    match goal with
    | |- context [FeedbackAnalysisSystem.execute_quality_reviewer_manually
                    ?td] =>
        destruct (review_of_complete_ticket td
                    (Py.VStr ("TICKET-" ++ Py.py_str source_id))
                    title category priority
                    (FeedbackAnalysisSystem.describe text) confidence)
          as (q & Hq & _);
          [ reflexivity
          | reflexivity | apply title_nonempty
          | reflexivity | exact Hne
          | reflexivity | apply priority_nonempty
          | reflexivity | reflexivity
          | rewrite Hq ]
    end;
    cbn [snd app];
    eexists; eexists;
    (split; [reflexivity|]);
    (split; [reflexivity|]);
    split; reflexivity.
Qed.

(** ** The texts made for the demonstration run *)

Lemma lower_append (a b : string) :
  PyStr.lower (a ++ b) = (PyStr.lower a ++ PyStr.lower b)%string.
Proof.
  induction a as [|c a IH]; cbn [append PyStr.lower];
    [reflexivity | rewrite IH; reflexivity].
Qed.

Lemma contains_left (k a b : string) :
  PyStr.contains k a = true -> PyStr.contains k (a ++ b) = true.
Proof.
  intro H. apply contains_iff in H. destruct H as (pre & post & ->).
  apply contains_iff. exists pre, (post ++ b)%string.
  rewrite !append_assoc. reflexivity.
Qed.

Lemma contains_right (k a b : string) :
  PyStr.contains k b = true -> PyStr.contains k (a ++ b) = true.
Proof.
  intro H. apply contains_iff in H. destruct H as (pre & post & ->).
  apply contains_iff. exists (a ++ pre)%string, post.
  rewrite !append_assoc. reflexivity.
Qed.

(** a keyword of the opening sentence occurs in the whole text *)
Lemma opening_mentions (keywords : list string) (k opening rest : string) :
  In k keywords ->
  PyStr.contains k (PyStr.lower opening) = true ->
  PrioritySpec.mentions keywords (opening ++ rest).
Proof.
  intros Hin Hk. exists k. split; [exact Hin|].
  rewrite lower_append. apply contains_left. exact Hk.
Qed.

(** The text made for an expected category speaks that category's
    language, with one exception.  Whatever the technical details, the
    text written for a bug holds a bug keyword of the classifier, the one
    for a feature request a feature keyword, the one for praise a praise
    keyword, the one for a complaint about the price a complaint keyword,
    and the one for any other category but "Complaint" a spam keyword.  The
    text for any other complaint plants no complaint keyword: its
    sentences hold feature keywords ("need", "improve") instead. *)
Theorem mock_text_mentions_its_category (category details : string) :
  let text :=
    FeedbackAnalysisSystem._generate_mock_feedback_text category details in
  let about_price :=
    PyStr.contains "price" (PyStr.lower details)
    || PyStr.contains "expensive" (PyStr.lower details) in
  (category = "Bug" ->
   PrioritySpec.mentions ClassificationTool.bug_keywords text) /\
  (category = "Feature Request" ->
   PrioritySpec.mentions ClassificationTool.feature_keywords text) /\
  (category = "Praise" ->
   PrioritySpec.mentions ClassificationTool.praise_keywords text) /\
  (category = "Complaint" -> about_price = true ->
   PrioritySpec.mentions ClassificationTool.complaint_keywords text) /\
  (category = "Complaint" -> about_price = false ->
   PrioritySpec.mentions ClassificationTool.feature_keywords text /\
   text = ("Not happy with the app. " ++ details
           ++ ". This needs improvement.")%string /\
   ~ PrioritySpec.mentions ClassificationTool.complaint_keywords
       "Not happy with the app. " /\
   ~ PrioritySpec.mentions ClassificationTool.complaint_keywords
       ". This needs improvement.") /\
  (category <> "Bug" -> category <> "Feature Request" ->
   category <> "Praise" -> category <> "Complaint" ->
   PrioritySpec.mentions ClassificationTool.spam_keywords text).
Proof.
  cbv zeta. unfold FeedbackAnalysisSystem._generate_mock_feedback_text.
  split; [|split; [|split; [|split; [|split]]]].
  - intros ->. cbn [String.eqb Ascii.eqb Bool.eqb].
    destruct (PyStr.contains "crash" _);
      [apply (opening_mentions _ "crash"); [cbn; tauto | reflexivity]|].
    destruct (PyStr.contains "sync" _);
      [apply (opening_mentions _ "issue"); [cbn; tauto | reflexivity]|].
    destruct (_ || _)%bool.
    + exists "problem". split; [cbn; tauto|].
      rewrite !lower_append. do 2 apply contains_right. reflexivity.
    + apply (opening_mentions _ "bug"); [cbn; tauto | reflexivity].
  - intros ->. cbn [String.eqb Ascii.eqb Bool.eqb].
    destruct (PyStr.contains "dark mode" _);
      [apply (opening_mentions _ "please add"); [cbn; tauto | reflexivity]|].
    destruct (PyStr.contains "calendar" _);
      [apply (opening_mentions _ "would love"); [cbn; tauto | reflexivity]|].
    apply (opening_mentions _ "feature request"); [cbn; tauto | reflexivity].
  - intros ->. cbn [String.eqb Ascii.eqb Bool.eqb].
    apply (opening_mentions _ "love"); [cbn; tauto | reflexivity].
  - intros -> Hp. cbn [String.eqb Ascii.eqb Bool.eqb]. rewrite Hp.
    apply (opening_mentions _ "expensive"); [cbn; tauto | reflexivity].
  - intros -> Hp. cbn [String.eqb Ascii.eqb Bool.eqb]. rewrite Hp. split.
    + exists "need". split; [cbn; tauto|].
      rewrite !lower_append. do 2 apply contains_right. reflexivity.
    + split; [reflexivity|].
      split; apply any_in_not_mentions; reflexivity.
  - intros H1 H2 H3 H4.
    destruct (String.eqb_spec category "Bug"); [contradiction|].
    destruct (String.eqb_spec category "Feature Request"); [contradiction|].
    destruct (String.eqb_spec category "Praise"); [contradiction|].
    destruct (String.eqb_spec category "Complaint"); [contradiction|].
    apply (opening_mentions _ "deal"); [cbn; tauto | reflexivity].
Qed.

(** a complaint about loading times, as the demonstration words it, is
    read by the classifier as a feature request *)
Lemma mock_complaint_read_as_feature_request :
  ClassificationTool.category
    (ClassificationTool._run ConfigTypes.default_ClassificationThresholds
       (FeedbackAnalysisSystem._generate_mock_feedback_text
          "Complaint" "Long loading times"))
  = "Feature Request".
Proof. vm_compute. reflexivity. Qed.

(** ** The statistics of a session *)



Lemma tally_nil (e : SessionStats.entry) :
  SessionStats.tally [] e
  = [(SessionStats.agent_name e,
      StatsSpec.bumped
        {| SessionStats.count := 0; SessionStats.avg_confidence := 0;
           SessionStats.total_time := 0 |} e)].
Proof.
  unfold SessionStats.tally, Py.has_key.
  cbn [PyDict.get negb Py.set_item]. rewrite String.eqb_refl.
  reflexivity.
Qed.

Lemma tally_cons (k : string) (s : SessionStats.agent_stat)
    (d : PyDict.dict SessionStats.agent_stat) (e : SessionStats.entry) :
  SessionStats.tally ((k, s) :: d) e
  = if String.eqb k (SessionStats.agent_name e)
    then (k, StatsSpec.bumped s e) :: d
    else (k, s) :: SessionStats.tally d e.
Proof.
  unfold SessionStats.tally, Py.has_key.
  cbn [PyDict.get].
  destruct (String.eqb k (SessionStats.agent_name e)) eqn:E.
  - cbn [negb PyDict.get Py.set_item]. rewrite !E. reflexivity.
  - destruct (PyDict.get d (SessionStats.agent_name e)) as [s0|] eqn:G;
      cbn [negb Py.set_item PyDict.get]; rewrite ?E;
      cbn [negb Py.set_item PyDict.get]; rewrite ?E.
    + rewrite G. cbn [Py.set_item]. rewrite ?E. reflexivity.
    + rewrite get_set_item_same. cbn [Py.set_item]. rewrite ?E.
      reflexivity.
Qed.

Lemma tally_cnt (d : PyDict.dict SessionStats.agent_stat)
    (e : SessionStats.entry) (a : string) :
  StatsSpec.cnt (SessionStats.tally d e) a
  = StatsSpec.cnt d a
    + (if String.eqb (SessionStats.agent_name e) a then 1 else 0).
Proof.
  unfold StatsSpec.cnt.
  induction d as [|[k s] d IH].
  - rewrite tally_nil. cbn [PyDict.get].
    destruct (String.eqb (SessionStats.agent_name e) a); reflexivity.
  - rewrite tally_cons.
    destruct (String.eqb_spec k (SessionStats.agent_name e)) as [E|E].
    + subst k. cbn [PyDict.get].
      destruct (String.eqb (SessionStats.agent_name e) a);
        [reflexivity | lia].
    + cbn [PyDict.get].
      destruct (String.eqb_spec k a) as [Ea|Ea].
      * subst k.
        destruct (String.eqb_spec (SessionStats.agent_name e) a);
          [congruence | lia].
      * exact IH.
Qed.

Lemma tally_has_key (d : PyDict.dict SessionStats.agent_stat)
    (e : SessionStats.entry) (a : string) :
  Py.has_key (SessionStats.tally d e) a
  = Py.has_key d a || String.eqb (SessionStats.agent_name e) a.
Proof.
  unfold Py.has_key.
  induction d as [|[k s] d IH].
  - rewrite tally_nil. cbn [PyDict.get].
    destruct (String.eqb (SessionStats.agent_name e) a); reflexivity.
  - rewrite tally_cons.
    destruct (String.eqb_spec k (SessionStats.agent_name e)) as [E|E].
    + subst k. cbn [PyDict.get].
      destruct (String.eqb (SessionStats.agent_name e) a); [reflexivity|].
      rewrite orb_false_r. reflexivity.
    + cbn [PyDict.get].
      destruct (String.eqb k a); [reflexivity | exact IH].
Qed.

Lemma tally_sum (d : PyDict.dict SessionStats.agent_stat)
    (e : SessionStats.entry) :
  StatsSpec.sum_counts (SessionStats.tally d e)
  = StatsSpec.sum_counts d + 1.
Proof.
  unfold StatsSpec.sum_counts.
  induction d as [|[k s] d IH].
  - rewrite tally_nil. reflexivity.
  - rewrite tally_cons.
    destruct (String.eqb k (SessionStats.agent_name e));
      cbn [map fold_right snd StatsSpec.bumped SessionStats.count];
      [lia | rewrite IH; lia].
Qed.

Lemma tally_keys (d : PyDict.dict SessionStats.agent_stat)
    (e : SessionStats.entry) :
  PyDict.keys (SessionStats.tally d e)
  = if Py.has_key d (SessionStats.agent_name e) then PyDict.keys d
    else (PyDict.keys d ++ [SessionStats.agent_name e])%list.
Proof.
  unfold Py.has_key, PyDict.keys.
  induction d as [|[k s] d IH].
  - rewrite tally_nil. reflexivity.
  - rewrite tally_cons. cbn [PyDict.get].
    destruct (String.eqb k (SessionStats.agent_name e)); [reflexivity|].
    cbn [map fst]. rewrite IH.
    destruct (PyDict.get d (SessionStats.agent_name e)); reflexivity.
Qed.

Lemma has_key_in {V} (d : PyDict.dict V) (a : string) :
  Py.has_key d a = true <-> In a (PyDict.keys d).
Proof.
  unfold Py.has_key, PyDict.keys.
  induction d as [|[k v] d IH]; cbn [PyDict.get map fst In].
  - split; [discriminate | intros []].
  - destruct (String.eqb_spec k a) as [E|E].
    + split; [auto | reflexivity].
    + rewrite IH. split; [auto | intros [H|H]; [congruence | exact H]].
Qed.

Lemma tally_nodup (d : PyDict.dict SessionStats.agent_stat)
    (e : SessionStats.entry) :
  NoDup (PyDict.keys d) -> NoDup (PyDict.keys (SessionStats.tally d e)).
Proof.
  intro H. rewrite tally_keys.
  destruct (Py.has_key d (SessionStats.agent_name e)) eqn:E; [exact H|].
  apply NoDup_app; [exact H | repeat constructor; intros [] |].
  intros a Ha [<-|[]]. apply has_key_in in Ha. congruence.
Qed.

(** the loop over the entries, from any dictionary of statistics *)
Lemma tally_all (entries : list SessionStats.entry) :
  forall d,
    let r := fold_left SessionStats.tally entries d in
    (forall a,
       StatsSpec.cnt r a
       = StatsSpec.cnt d a
         + Z.of_nat (List.length (SessionStats.by_agent entries a))) /\
    (forall a,
       Py.has_key r a
       = Py.has_key d a
         || negb (Nat.eqb (List.length (SessionStats.by_agent entries a)) 0)) /\
    StatsSpec.sum_counts r
      = StatsSpec.sum_counts d + Z.of_nat (List.length entries) /\
    (NoDup (PyDict.keys d) -> NoDup (PyDict.keys r)).
Proof.
  induction entries as [|e es IH]; intro d; cbn zeta.
  - cbn [fold_left SessionStats.by_agent filter List.length].
    repeat split; intros; try lia; try assumption.
    cbn. rewrite orb_false_r. reflexivity.
  - cbn [fold_left]. destruct (IH (SessionStats.tally d e))
      as (H1 & H2 & H3 & H4).
    cbn zeta in *. repeat split.
    + intro a. rewrite H1, tally_cnt.
      unfold SessionStats.by_agent. cbn [filter].
      destruct (String.eqb (SessionStats.agent_name e) a);
        cbn [List.length]; lia.
    + intro a. rewrite H2, tally_has_key.
      unfold SessionStats.by_agent. cbn [filter].
      destruct (String.eqb (SessionStats.agent_name e) a);
        cbn [List.length Nat.eqb negb];
        [rewrite !orb_true_r | rewrite orb_false_r]; reflexivity.
    + rewrite H3, tally_sum. cbn [List.length]. lia.
    + intro N. apply H4. apply tally_nodup. exact N.
Qed.

Lemma average_count (s : SessionStats.agent_stat) :
  SessionStats.count (SessionStats.average s) = SessionStats.count s.
Proof.
  unfold SessionStats.average.
  destruct (0 <? SessionStats.count s); reflexivity.
Qed.

Lemma averaged (d : PyDict.dict SessionStats.agent_stat) :
  let r := map (fun kv => (fst kv, SessionStats.average (snd kv))) d in
  PyDict.keys r = PyDict.keys d /\
  StatsSpec.sum_counts r = StatsSpec.sum_counts d /\
  forall a, StatsSpec.cnt r a = StatsSpec.cnt d a /\
            Py.has_key r a = Py.has_key d a.
Proof.
  cbv zeta. unfold PyDict.keys, StatsSpec.sum_counts, StatsSpec.cnt,
    Py.has_key.
  induction d as [|[k s] d (IH1 & IH2 & IH3)];
    cbn [map fst snd fold_right PyDict.get].
  - repeat split.
  - rewrite IH1, IH2, average_count. repeat split;
      destruct (String.eqb k a); try apply IH3;
      rewrite ?average_count; reflexivity.
Qed.

Lemma count_successes (entries : list SessionStats.entry) :
  forall acc,
    fold_left (fun acc e =>
                 if SessionStats.success_status e then acc + 1 else acc)
      entries acc
    = acc + Z.of_nat (List.length
                        (filter SessionStats.success_status entries)).
Proof.
  induction entries as [|e es IH]; intro acc; cbn [fold_left filter].
  - cbn. lia.
  - rewrite IH. destruct (SessionStats.success_status e);
      cbn [List.length]; lia.
Qed.

(** The statistics of a session count every entry once.  A session
    without entries gets none.  Otherwise the number of operations is the
    number of entries of the session; the successful ones are those marked
    successful, so their number lies between 0 and the total; every agent
    that has an entry in the session is listed exactly once, with the
    number of its entries as count, and no other agent is listed; the
    counts of the agents add up to the number of operations. *)
Theorem session_stats_count_every_entry
    (log_entries : list SessionStats.entry) (sid : string) :
  let entries := SessionStats.of_session log_entries sid in
  (entries = [] -> SessionStats.get_session_stats log_entries sid = None) /\
  (entries <> [] ->
   exists st,
     SessionStats.get_session_stats log_entries sid = Some st /\
     SessionStats.total_operations st = Z.of_nat (List.length entries) /\
     SessionStats.successful_operations st
       = Z.of_nat (List.length
                     (filter SessionStats.success_status entries)) /\
     0 <= SessionStats.successful_operations st
       <= SessionStats.total_operations st /\
     NoDup (PyDict.keys (SessionStats.agent_statistics st)) /\
     (forall agent,
        match PyDict.get (SessionStats.agent_statistics st) agent with
        | Some s =>
            SessionStats.count s
              = Z.of_nat (List.length (SessionStats.by_agent entries agent))
            /\ 1 <= SessionStats.count s
        | None => SessionStats.by_agent entries agent = []
        end) /\
     fold_right Z.add 0
       (map SessionStats.count
          (PyDict.values (SessionStats.agent_statistics st)))
     = SessionStats.total_operations st).
Proof.
  cbv zeta. unfold SessionStats.get_session_stats.
  fold (SessionStats.of_session log_entries sid).
  destruct (SessionStats.of_session log_entries sid) as [|e0 es] eqn:E.
  - split; [reflexivity | congruence].
  - split; [discriminate|]. intros _.
    remember (e0 :: es) as entries eqn:Een.
    eexists. split; [reflexivity|].
    cbn [SessionStats.total_operations SessionStats.successful_operations
         SessionStats.agent_statistics].
    destruct (tally_all entries []) as (H1 & H2 & H3 & H4).
    cbn zeta in *.
    destruct (averaged (fold_left SessionStats.tally entries []))
      as (K1 & K2 & K3).
    cbn zeta in *.
    split; [reflexivity|].
    rewrite count_successes.
    split; [reflexivity|].
    split.
    { pose proof (filter_length_le SessionStats.success_status entries).
      lia. }
    split.
    { rewrite K1. apply H4. constructor. }
    split.
    { intro agent. specialize (K3 agent). destruct K3 as [Kc Kh].
      specialize (H1 agent). specialize (H2 agent).
      unfold StatsSpec.cnt, Py.has_key in *.
      cbn [PyDict.get] in H1, H2.
      destruct (PyDict.get
                  (map (fun kv => (fst kv, SessionStats.average (snd kv)))
                     (fold_left SessionStats.tally entries [])) agent)
        as [s|];
        destruct (PyDict.get (fold_left SessionStats.tally entries [])
                    agent) as [s'|]; try discriminate.
      - rewrite Kc, H1.
        destruct (SessionStats.by_agent entries agent); [discriminate|].
        cbn [List.length]. lia.
      - destruct (SessionStats.by_agent entries agent);
          [reflexivity | discriminate]. }
    unfold StatsSpec.sum_counts in *.
    unfold PyDict.values. rewrite map_map. rewrite K2, H3. cbn. lia.
Qed.

(** ** From an update to the threshold the classifier looks up *)




